(** * ForesightManager: a shallow embedding of the prediction and dispatch engine

    The development follows
    [packages/js.foresight/src/Manager/ForesightManager.ts].  The class is a
    singleton with private mutable fields; here the fields are one record,
    [Manager], and every method is a function from a manager to a manager,
    or, for the methods that run consumer callbacks, to a manager and the
    way the method was left: by returning or by an exception.

    Conventions of the embedding.
    - JavaScript numbers are integers ([Z]); [NaN], infinities and fractions
      are not represented.
    - A DOM element is an opaque handle ([nat]); reference identity is
      equality of handles.
    - What the class makes observable to the outside (consumer callbacks, the
      global hook, listener invocations, [console.error], [clearTimeout]) is
      recorded in a trace, newest effect first.  Two calls into helper
      modules, [getScrollDirection] and [predictNextScrollPosition], are
      recorded as well so that the per-batch caching can be stated.
    - Consumer code (callbacks, the hook, event listeners) is opaque: it
      returns or throws, and it does not call back into the manager while
      the manager is running a handler.  An exception of an event listener
      is caught by [emit].  An exception of a callback or of the hook is
      caught nowhere: it leaves [callCallback] and every method on the call
      stack, up to the browser, and the fields stay as they are at that
      moment.
    - Timestamps ([Date.now()]) carried by events are left out.
    - The helper modules [./helpers/*] and [./constants] are not part of the
      sources at hand.  They are the fields of the classes [Helpers] and
      [Constants] and every result is stated for all of their
      instances, except for the few helpers that are spelt out from the
      specification and marked as such. *)

From Stdlib Require Import String ZArith List Bool Lia PeanoNat.
Import ListNotations.
Open Scope Z_scope.

(** ** Data model (types/types.ts, as used by the manager) *)

Definition ForesightElement := nat.
Definition Callback := nat.
Definition Listener := nat.

Record Point := mkPoint { x : Z; y : Z }.

Record Rect := mkRect { top : Z; rleft : Z; rright : Z; bottom : Z }.

(** A hit slop is given as one number for all sides or as a rectangle. *)
Inductive HitSlop :=
| SlopNumber (n : Z)
| SlopRect (r : Rect).

Inductive ScrollDirection := ScrollDown | ScrollUp | ScrollLeft | ScrollRight | ScrollNone.

Inductive MouseSubType := hover | trajectory.
Inductive TabSubType := forwards | reverse.

Inductive HitType :=
| HitMouse (subType : MouseSubType)
| HitTab (subType : TabSubType)
| HitScroll (subType : ScrollDirection).

Record CallbackHits := mkCallbackHits {
  mouse_hover : Z;
  mouse_trajectory : Z;
  tab_forwards : Z;
  tab_reverse : Z;
  scroll_down : Z;
  scroll_left : Z;
  scroll_right : Z;
  scroll_up : Z;
  total : Z
}.

Definition noHits : CallbackHits := mkCallbackHits 0 0 0 0 0 0 0 0 0.

Record ElementBounds := mkElementBounds {
  originalRect : option Rect;
  expandedRect : Rect;
  hitSlop : Rect
}.

Record TrajectoryHitData := mkTrajectoryHitData {
  isTrajectoryHit : bool;
  trajectoryHitTime : Z;
  trajectoryHitExpirationTimeoutId : option nat
}.

Record ForesightElementData := mkElementData {
  element : ForesightElement;
  callback : Callback;
  callbackHits : CallbackHits;
  elementBounds : ElementBounds;
  isHovering : bool;
  trajectoryHitData : TrajectoryHitData;
  name : string;
  isIntersectingWithViewport : bool
}.

(** The global hook: the default is the empty function of the field
    initialiser. *)
Inductive Hook :=
| DefaultHook
| UserHook (id : nat).

Record ForesightManagerSettings := mkSettings {
  debug : bool;
  enableMousePrediction : bool;
  enableScrollPrediction : bool;
  positionHistorySize : Z;
  trajectoryPredictionTime : Z;
  scrollMargin : Z;
  defaultHitSlop : Rect;
  enableTabPrediction : bool;
  tabOffset : Z;
  onAnyCallbackFired : Hook
}.

(** [Partial<UpdateForsightManagerSettings>]: every field may be absent.
    An absent [props] argument is the record with every field absent. *)
Record UpdateForsightManagerSettings := mkProps {
  p_debug : option bool;
  p_enableMousePrediction : option bool;
  p_enableScrollPrediction : option bool;
  p_positionHistorySize : option Z;
  p_trajectoryPredictionTime : option Z;
  p_scrollMargin : option Z;
  p_defaultHitSlop : option HitSlop;
  p_enableTabPrediction : option bool;
  p_tabOffset : option Z;
  p_onAnyCallbackFired : option Hook
}.

Definition noProps : UpdateForsightManagerSettings :=
  mkProps None None None None None None None None None None.

Record MousePosition := mkMousePosition { point : Point; time : Z }.

Record TrajectoryPositions := mkTrajectoryPositions {
  positions : list MousePosition;
  currentPoint : Point;
  predictedPoint : Point
}.

(** The options object handed to [register].  [unregisterOnCallback] is the
    fire-once flag of the configuration guide; [register] destructures
    [element], [callback], [hitSlop] and [name] only. *)
Record ForesightRegisterOptions := mkRegisterOptions {
  o_element : ForesightElement;
  o_callback : Callback;
  o_hitSlop : option HitSlop;
  o_name : option string;
  o_unregisterOnCallback : option bool
}.

Record ForesightRegisterResult := mkRegisterResult {
  res_isTouchDevice : bool;
  res_isLimitedConnection : bool;
  res_isRegistered : bool;
  (** the returned closure: [None] is [() => {}], [Some el] is
      [() => this.unregister(el, "apiCall")] *)
  res_unregister : option ForesightElement
}.

Inductive ElementUnregisteredReason := callbackHit | disconnected | apiCall.

Inductive UpdatedProp := bounds | visibility.

Inductive ForesightEventType :=
| T_elementRegistered
| T_elementUnregistered
| T_elementDataUpdated
| T_callbackFired
| T_mouseTrajectoryUpdate
| T_scrollTrajectoryUpdate
| T_managerSettingsChanged.

Inductive ForesightEvent :=
| elementRegistered (elementData : ForesightElementData)
| elementUnregistered (elementData : ForesightElementData)
                      (unregisterReason : ElementUnregisteredReason)
| elementDataUpdated (elementData : ForesightElementData) (updatedProp : UpdatedProp)
| callbackFired (elementData : ForesightElementData) (hitType : HitType)
| mouseTrajectoryUpdate (predictionEnabled : bool)
                        (trajectoryPositions : TrajectoryPositions)
| scrollTrajectoryUpdate (currentPoint predictedPoint : Point)
| managerSettingsChanged (newSettings : ForesightManagerSettings).

Definition eventType (ev : ForesightEvent) : ForesightEventType :=
  match ev with
  | elementRegistered _ => T_elementRegistered
  | elementUnregistered _ _ => T_elementUnregistered
  | elementDataUpdated _ _ => T_elementDataUpdated
  | callbackFired _ _ => T_callbackFired
  | mouseTrajectoryUpdate _ _ => T_mouseTrajectoryUpdate
  | scrollTrajectoryUpdate _ _ => T_scrollTrajectoryUpdate
  | managerSettingsChanged _ => T_managerSettingsChanged
  end.

Definition eventType_eqb (a b : ForesightEventType) : bool :=
  match a, b with
  | T_elementRegistered, T_elementRegistered
  | T_elementUnregistered, T_elementUnregistered
  | T_elementDataUpdated, T_elementDataUpdated
  | T_callbackFired, T_callbackFired
  | T_mouseTrajectoryUpdate, T_mouseTrajectoryUpdate
  | T_scrollTrajectoryUpdate, T_scrollTrajectoryUpdate
  | T_managerSettingsChanged, T_managerSettingsChanged => true
  | _, _ => false
  end.

(** ** Inputs delivered by the browser *)

Record MouseEvent := mkMouseEvent {
  clientX : Z;
  clientY : Z;
  (** the reading of [performance.now()] while the event is handled *)
  timeStamp : Z
}.

Record KeyboardEvent := mkKeyboardEvent { key : string; shiftKey : bool }.

Record PositionObserverEntry := mkEntry {
  target : ForesightElement;
  isIntersecting : bool;
  boundingClientRect : Rect
}.

Inductive MutationType := childList | attributes | characterData.

Record MutationRecord := mkMutation {
  mutationType : MutationType;
  removedNodes : nat  (* removedNodes.length *)
}.

(** What [evaluateRegistrationConditions()] and the [typeof window] test
    report at the time of a call to [register]. *)
Record RegisterEnv := mkRegisterEnv {
  shouldRegister : bool;
  isTouchDevice : bool;
  isLimitedConnection : bool;
  hasWindowAndDocument : bool
}.

(** ** The document's listener table

    [document.addEventListener] stores a listener under its event name and
    callback, with the abort signal it was given, if any.  Adding the same
    callback for the same event again is ignored; aborting a controller
    removes the listeners that were added with its signal. *)

Inductive DomEventName := mousemove | keydown | focusin.

Inductive Handler := handleMouseMoveRef | handleKeyDownRef | handleFocusInRef.

Definition AbortController := nat.

Record DocListener := mkDocListener {
  dl_event : DomEventName;
  dl_handler : Handler;
  dl_signal : option AbortController
}.

Definition domEventName_eqb (a b : DomEventName) : bool :=
  match a, b with
  | mousemove, mousemove | keydown, keydown | focusin, focusin => true
  | _, _ => false
  end.

Definition handler_eqb (a b : Handler) : bool :=
  match a, b with
  | handleMouseMoveRef, handleMouseMoveRef
  | handleKeyDownRef, handleKeyDownRef
  | handleFocusInRef, handleFocusInRef => true
  | _, _ => false
  end.

Definition attached (ev : DomEventName) (h : Handler) (ls : list DocListener) : bool :=
  existsb (fun l => domEventName_eqb (dl_event l) ev && handler_eqb (dl_handler l) h) ls.

Definition addDocListener (ev : DomEventName) (h : Handler)
    (signal : option AbortController) (ls : list DocListener) : list DocListener :=
  if attached ev h ls then ls else ls ++ [mkDocListener ev h signal].

Definition abortSignal (c : AbortController) (ls : list DocListener) : list DocListener :=
  filter (fun l => match dl_signal l with
                   | Some c' => negb (Nat.eqb c' c)
                   | None => true
                   end) ls.

(** ** Observable effects *)

Inductive Effect :=
| Emitted (ev : ForesightEvent)
| Delivered (l : Listener) (ev : ForesightEvent)
| ConsoleError (l : Listener) (ty : ForesightEventType)
| CallbackInvoked (cb : Callback) (el : ForesightElement)
| AnyCallbackFired (h : Hook) (el : ForesightElement)
| ClearTimeout (id : nat)
| ScrollDirectionComputed (oldRect newRect : Rect)
| ScrollPointComputed (current : Point) (direction : ScrollDirection) (margin : Z).

(** ** The manager's fields *)

Record Manager := mkManager {
  elements : list ForesightElementData;
  isSetup : bool;
  globalCallbackHits : CallbackHits;
  globalSettings : ForesightManagerSettings;
  trajectoryPositions : TrajectoryPositions;
  tabbableElementsCache : list ForesightElement;
  lastFocusedIndex : option Z;
  predictedScrollPoint : option Point;
  scrollDirection : option ScrollDirection;
  domObserver : bool;
  positionObserver : option (list ForesightElement);
  lastKeyDown : option KeyboardEvent;
  globalListenersController : option AbortController;
  eventListeners : ForesightEventType -> list Listener;
  (* the environment the manager acts on *)
  documentListeners : list DocListener;
  nextController : AbortController;
  trace : list Effect
}.

(** Field assignment, one function per field. *)

Definition set_elements (s : Manager) v : Manager :=
  mkManager v (isSetup s) (globalCallbackHits s) (globalSettings s)
    (trajectoryPositions s) (tabbableElementsCache s) (lastFocusedIndex s)
    (predictedScrollPoint s) (scrollDirection s) (domObserver s)
    (positionObserver s) (lastKeyDown s) (globalListenersController s)
    (eventListeners s) (documentListeners s) (nextController s) (trace s).

Definition set_isSetup (s : Manager) v : Manager :=
  mkManager (elements s) v (globalCallbackHits s) (globalSettings s)
    (trajectoryPositions s) (tabbableElementsCache s) (lastFocusedIndex s)
    (predictedScrollPoint s) (scrollDirection s) (domObserver s)
    (positionObserver s) (lastKeyDown s) (globalListenersController s)
    (eventListeners s) (documentListeners s) (nextController s) (trace s).

Definition set_globalCallbackHits (s : Manager) v : Manager :=
  mkManager (elements s) (isSetup s) v (globalSettings s) (trajectoryPositions
    s) (tabbableElementsCache s) (lastFocusedIndex s) (predictedScrollPoint s)
    (scrollDirection s) (domObserver s) (positionObserver s) (lastKeyDown s)
    (globalListenersController s) (eventListeners s) (documentListeners s)
    (nextController s) (trace s).

Definition set_globalSettings (s : Manager) v : Manager :=
  mkManager (elements s) (isSetup s) (globalCallbackHits s) v
    (trajectoryPositions s) (tabbableElementsCache s) (lastFocusedIndex s)
    (predictedScrollPoint s) (scrollDirection s) (domObserver s)
    (positionObserver s) (lastKeyDown s) (globalListenersController s)
    (eventListeners s) (documentListeners s) (nextController s) (trace s).

Definition set_trajectoryPositions (s : Manager) v : Manager :=
  mkManager (elements s) (isSetup s) (globalCallbackHits s) (globalSettings s)
    v (tabbableElementsCache s) (lastFocusedIndex s) (predictedScrollPoint s)
    (scrollDirection s) (domObserver s) (positionObserver s) (lastKeyDown s)
    (globalListenersController s) (eventListeners s) (documentListeners s)
    (nextController s) (trace s).

Definition set_tabbableElementsCache (s : Manager) v : Manager :=
  mkManager (elements s) (isSetup s) (globalCallbackHits s) (globalSettings s)
    (trajectoryPositions s) v (lastFocusedIndex s) (predictedScrollPoint s)
    (scrollDirection s) (domObserver s) (positionObserver s) (lastKeyDown s)
    (globalListenersController s) (eventListeners s) (documentListeners s)
    (nextController s) (trace s).

Definition set_lastFocusedIndex (s : Manager) v : Manager :=
  mkManager (elements s) (isSetup s) (globalCallbackHits s) (globalSettings s)
    (trajectoryPositions s) (tabbableElementsCache s) v (predictedScrollPoint
    s) (scrollDirection s) (domObserver s) (positionObserver s) (lastKeyDown
    s) (globalListenersController s) (eventListeners s) (documentListeners s)
    (nextController s) (trace s).

Definition set_predictedScrollPoint (s : Manager) v : Manager :=
  mkManager (elements s) (isSetup s) (globalCallbackHits s) (globalSettings s)
    (trajectoryPositions s) (tabbableElementsCache s) (lastFocusedIndex s) v
    (scrollDirection s) (domObserver s) (positionObserver s) (lastKeyDown s)
    (globalListenersController s) (eventListeners s) (documentListeners s)
    (nextController s) (trace s).

Definition set_scrollDirection (s : Manager) v : Manager :=
  mkManager (elements s) (isSetup s) (globalCallbackHits s) (globalSettings s)
    (trajectoryPositions s) (tabbableElementsCache s) (lastFocusedIndex s)
    (predictedScrollPoint s) v (domObserver s) (positionObserver s)
    (lastKeyDown s) (globalListenersController s) (eventListeners s)
    (documentListeners s) (nextController s) (trace s).

Definition set_domObserver (s : Manager) v : Manager :=
  mkManager (elements s) (isSetup s) (globalCallbackHits s) (globalSettings s)
    (trajectoryPositions s) (tabbableElementsCache s) (lastFocusedIndex s)
    (predictedScrollPoint s) (scrollDirection s) v (positionObserver s)
    (lastKeyDown s) (globalListenersController s) (eventListeners s)
    (documentListeners s) (nextController s) (trace s).

Definition set_positionObserver (s : Manager) v : Manager :=
  mkManager (elements s) (isSetup s) (globalCallbackHits s) (globalSettings s)
    (trajectoryPositions s) (tabbableElementsCache s) (lastFocusedIndex s)
    (predictedScrollPoint s) (scrollDirection s) (domObserver s) v
    (lastKeyDown s) (globalListenersController s) (eventListeners s)
    (documentListeners s) (nextController s) (trace s).

Definition set_lastKeyDown (s : Manager) v : Manager :=
  mkManager (elements s) (isSetup s) (globalCallbackHits s) (globalSettings s)
    (trajectoryPositions s) (tabbableElementsCache s) (lastFocusedIndex s)
    (predictedScrollPoint s) (scrollDirection s) (domObserver s)
    (positionObserver s) v (globalListenersController s) (eventListeners s)
    (documentListeners s) (nextController s) (trace s).

Definition set_globalListenersController (s : Manager) v : Manager :=
  mkManager (elements s) (isSetup s) (globalCallbackHits s) (globalSettings s)
    (trajectoryPositions s) (tabbableElementsCache s) (lastFocusedIndex s)
    (predictedScrollPoint s) (scrollDirection s) (domObserver s)
    (positionObserver s) (lastKeyDown s) v (eventListeners s)
    (documentListeners s) (nextController s) (trace s).

Definition set_eventListeners (s : Manager) v : Manager :=
  mkManager (elements s) (isSetup s) (globalCallbackHits s) (globalSettings s)
    (trajectoryPositions s) (tabbableElementsCache s) (lastFocusedIndex s)
    (predictedScrollPoint s) (scrollDirection s) (domObserver s)
    (positionObserver s) (lastKeyDown s) (globalListenersController s) v
    (documentListeners s) (nextController s) (trace s).

Definition set_documentListeners (s : Manager) v : Manager :=
  mkManager (elements s) (isSetup s) (globalCallbackHits s) (globalSettings s)
    (trajectoryPositions s) (tabbableElementsCache s) (lastFocusedIndex s)
    (predictedScrollPoint s) (scrollDirection s) (domObserver s)
    (positionObserver s) (lastKeyDown s) (globalListenersController s)
    (eventListeners s) v (nextController s) (trace s).

Definition set_nextController (s : Manager) v : Manager :=
  mkManager (elements s) (isSetup s) (globalCallbackHits s) (globalSettings s)
    (trajectoryPositions s) (tabbableElementsCache s) (lastFocusedIndex s)
    (predictedScrollPoint s) (scrollDirection s) (domObserver s)
    (positionObserver s) (lastKeyDown s) (globalListenersController s)
    (eventListeners s) (documentListeners s) v (trace s).

Definition set_trace (s : Manager) v : Manager :=
  mkManager (elements s) (isSetup s) (globalCallbackHits s) (globalSettings s)
    (trajectoryPositions s) (tabbableElementsCache s) (lastFocusedIndex s)
    (predictedScrollPoint s) (scrollDirection s) (domObserver s)
    (positionObserver s) (lastKeyDown s) (globalListenersController s)
    (eventListeners s) (documentListeners s) (nextController s) v.

Definition set_callbackHits (d : ForesightElementData) (h : CallbackHits) :=
  mkElementData (element d) (callback d) h (elementBounds d) (isHovering d)
    (trajectoryHitData d) (name d) (isIntersectingWithViewport d).

Definition set_elementBounds (d : ForesightElementData) (b : ElementBounds) :=
  mkElementData (element d) (callback d) (callbackHits d) b (isHovering d)
    (trajectoryHitData d) (name d) (isIntersectingWithViewport d).

Definition set_isIntersectingWithViewport (d : ForesightElementData) (b : bool) :=
  mkElementData (element d) (callback d) (callbackHits d) (elementBounds d)
    (isHovering d) (trajectoryHitData d) (name d) b.

(** ** Settings addressed by key, as in [this._globalSettings[setting]] *)

Inductive NumericSettingKeys :=
| K_positionHistorySize
| K_trajectoryPredictionTime
| K_scrollMargin
| K_tabOffset.

Inductive ManagerBooleanSettingKeys :=
| K_enableMousePrediction
| K_enableScrollPrediction
| K_enableTabPrediction.

Definition getNumeric (g : ForesightManagerSettings) (k : NumericSettingKeys) : Z :=
  match k with
  | K_positionHistorySize => positionHistorySize g
  | K_trajectoryPredictionTime => trajectoryPredictionTime g
  | K_scrollMargin => scrollMargin g
  | K_tabOffset => tabOffset g
  end.

Definition setNumeric (g : ForesightManagerSettings) (k : NumericSettingKeys) (v : Z)
  : ForesightManagerSettings :=
  match k with
  | K_positionHistorySize =>
      mkSettings (debug g) (enableMousePrediction g) (enableScrollPrediction g) v
        (trajectoryPredictionTime g) (scrollMargin g) (defaultHitSlop g)
        (enableTabPrediction g) (tabOffset g) (onAnyCallbackFired g)
  | K_trajectoryPredictionTime =>
      mkSettings (debug g) (enableMousePrediction g) (enableScrollPrediction g)
        (positionHistorySize g) v (scrollMargin g) (defaultHitSlop g)
        (enableTabPrediction g) (tabOffset g) (onAnyCallbackFired g)
  | K_scrollMargin =>
      mkSettings (debug g) (enableMousePrediction g) (enableScrollPrediction g)
        (positionHistorySize g) (trajectoryPredictionTime g) v (defaultHitSlop g)
        (enableTabPrediction g) (tabOffset g) (onAnyCallbackFired g)
  | K_tabOffset =>
      mkSettings (debug g) (enableMousePrediction g) (enableScrollPrediction g)
        (positionHistorySize g) (trajectoryPredictionTime g) (scrollMargin g)
        (defaultHitSlop g) (enableTabPrediction g) v (onAnyCallbackFired g)
  end.

Definition getBoolean (g : ForesightManagerSettings) (k : ManagerBooleanSettingKeys) : bool :=
  match k with
  | K_enableMousePrediction => enableMousePrediction g
  | K_enableScrollPrediction => enableScrollPrediction g
  | K_enableTabPrediction => enableTabPrediction g
  end.

Definition setBoolean (g : ForesightManagerSettings) (k : ManagerBooleanSettingKeys) (v : bool)
  : ForesightManagerSettings :=
  match k with
  | K_enableMousePrediction =>
      mkSettings (debug g) v (enableScrollPrediction g) (positionHistorySize g)
        (trajectoryPredictionTime g) (scrollMargin g) (defaultHitSlop g)
        (enableTabPrediction g) (tabOffset g) (onAnyCallbackFired g)
  | K_enableScrollPrediction =>
      mkSettings (debug g) (enableMousePrediction g) v (positionHistorySize g)
        (trajectoryPredictionTime g) (scrollMargin g) (defaultHitSlop g)
        (enableTabPrediction g) (tabOffset g) (onAnyCallbackFired g)
  | K_enableTabPrediction =>
      mkSettings (debug g) (enableMousePrediction g) (enableScrollPrediction g)
        (positionHistorySize g) (trajectoryPredictionTime g) (scrollMargin g)
        (defaultHitSlop g) v (tabOffset g) (onAnyCallbackFired g)
  end.

Definition set_onAnyCallbackFired (g : ForesightManagerSettings) (h : Hook) :=
  mkSettings (debug g) (enableMousePrediction g) (enableScrollPrediction g)
    (positionHistorySize g) (trajectoryPredictionTime g) (scrollMargin g)
    (defaultHitSlop g) (enableTabPrediction g) (tabOffset g) h.

Definition set_defaultHitSlop (g : ForesightManagerSettings) (r : Rect) :=
  mkSettings (debug g) (enableMousePrediction g) (enableScrollPrediction g)
    (positionHistorySize g) (trajectoryPredictionTime g) (scrollMargin g) r
    (enableTabPrediction g) (tabOffset g) (onAnyCallbackFired g).

(** ** The registry, [Map<ForesightElement, ForesightElementData>]

    Every [set] of the source stores a record under the record's own
    [element], so the map is kept as the list of its records in insertion
    order, keyed by that field.  [Map.set] on a present key replaces the
    value in place; on an absent key it appends. *)

Module Registry.

Definition get (el : ForesightElement) (m : list ForesightElementData)
  : option ForesightElementData :=
  find (fun d => Nat.eqb (element d) el) m.

Definition has (el : ForesightElement) (m : list ForesightElementData) : bool :=
  match get el m with
  | Some _ => true
  | None => false
  end.

Fixpoint set (d : ForesightElementData) (m : list ForesightElementData)
  : list ForesightElementData :=
  match m with
  | [] => [d]
  | r :: m' => if Nat.eqb (element r) (element d) then d :: m' else r :: set d m'
  end.

Definition delete (el : ForesightElement) (m : list ForesightElementData)
  : list ForesightElementData :=
  filter (fun d => negb (Nat.eqb (element d) el)) m.

Definition keys (m : list ForesightElementData) : list ForesightElement :=
  map element m.

(** In-place mutation of the object stored under [el]. *)
Definition mutate (el : ForesightElement)
    (f : ForesightElementData -> ForesightElementData)
    (m : list ForesightElementData) : list ForesightElementData :=
  map (fun d => if Nat.eqb (element d) el then f d else d) m.

End Registry.

(** ** Helper modules that are parameters of the development *)

Class Helpers := {
  (** helpers/rectAndHitSlop *)
  isPointInRectangle : Point -> Rect -> bool;
  getExpandedRect : Rect -> Rect -> Rect;
  normalizeHitSlop : HitSlop -> Rect;
  (** helpers/lineSigmentIntersectsRect *)
  lineSegmentIntersectsRect : Point -> Point -> Rect -> bool;
  (** helpers/getFocusedElementIndex *)
  getFocusedElementIndex :
    bool -> option Z -> list ForesightElement -> ForesightElement -> Z;
  (** helpers/getScrollDirection *)
  getScrollDirection : Rect -> Rect -> ScrollDirection;
  (** helpers/predictNextScrollPosition *)
  predictNextScrollPosition : Point -> ScrollDirection -> Z -> Point;
  (** the point returned by helpers/predictNextMousePosition, as a function
      of the current position, the history it is given, the history size
      and the prediction time *)
  extrapolate : MousePosition -> list MousePosition -> Z -> Z -> Point
}.

(** ./constants *)
Class Constants := {
  DEFAULT_ENABLE_MOUSE_PREDICTION : bool;
  DEFAULT_ENABLE_SCROLL_PREDICTION : bool;
  DEFAULT_ENABLE_TAB_PREDICTION : bool;
  DEFAULT_HITSLOP : Z;
  DEFAULT_POSITION_HISTORY_SIZE : Z;
  DEFAULT_SCROLL_MARGIN : Z;
  DEFAULT_TAB_OFFSET : Z;
  DEFAULT_TRAJECTORY_PREDICTION_TIME : Z;
  MAX_POSITION_HISTORY_SIZE : Z;
  MAX_SCROLL_MARGIN : Z;
  MAX_TAB_OFFSET : Z;
  MAX_TRAJECTORY_PREDICTION_TIME : Z;
  MIN_POSITION_HISTORY_SIZE : Z;
  MIN_SCROLL_MARGIN : Z;
  MIN_TAB_OFFSET : Z;
  MIN_TRAJECTORY_PREDICTION_TIME : Z
}.

(** The page and the consumer: the [id] attribute of an element, whether
    a subscribed listener throws when it is handed an event, and whether a
    callback, or a hook given by the consumer, throws when it is called
    after the effects recorded so far. *)
Class Host := {
  elementId : ForesightElement -> string;
  listenerThrows : Listener -> ForesightEvent -> bool;
  callbackThrows : Callback -> list Effect -> bool;
  userHookThrows : nat -> list Effect -> bool
}.

(** The hook of the field initialiser is the empty function. *)
Definition hookThrows `{Host} (h : Hook) (tr : list Effect) : bool :=
  match h with
  | DefaultHook => false
  | UserHook id => userHookThrows id tr
  end.

(** ** Helpers spelt out from the specification *)

(** Modelled from the spec: [helpers/shouldUpdateSetting] is missing.  The
    specification asks for equality-gated writes: an update is applied when
    a value is given and it differs from the stored one. *)
Definition shouldUpdateSetting {T : Type} (eqb : T -> T -> bool)
    (newValue : option T) (currentValue : T) : bool :=
  match newValue with
  | None => false
  | Some v => negb (eqb v currentValue)
  end.

(** Modelled from the spec: [helpers/clampNumber] is missing.  A value below
    the range becomes the lower bound, a value above it the upper bound, a
    value inside it is kept.  The fourth argument names the setting. *)
Definition clampNumber (number lowerBound upperBound : Z) (setting : NumericSettingKeys) : Z :=
  if number <? lowerBound then lowerBound
  else if upperBound <? number then upperBound
  else number.

(** Modelled from the spec: [areRectsEqual] of [helpers/rectAndHitSlop] is
    missing.  It is exact numeric equality of all four sides. *)
Definition areRectsEqual (a b : Rect) : bool :=
  (top a =? top b) && (rleft a =? rleft b) && (rright a =? rright b)
  && (bottom a =? bottom b).

(** Modelled from the spec: [helpers/predictNextMousePosition] is missing.
    The history it is handed is bounded and oldest-evicted: the current
    position is appended, and the oldest entry is dropped when the history
    has grown beyond the configured size.  The point it returns is
    [extrapolate]. *)
Definition pushPosition (current : MousePosition) (history : list MousePosition)
    (positionHistorySize : Z) : list MousePosition :=
  let pushed := history ++ [current] in
  if positionHistorySize <? Z.of_nat (length pushed) then tl pushed else pushed.

Definition predictNextMousePosition `{Helpers} (currentPoint : Point)
    (history : list MousePosition) (positionHistorySize trajectoryPredictionTime : Z)
    (now : Z) : Point * list MousePosition :=
  let current := mkMousePosition currentPoint now in
  (extrapolate current history positionHistorySize trajectoryPredictionTime,
   pushPosition current history positionHistorySize).

(** ** Exceptions in listener dispatch

    A computation over the trace that completes normally or throws. *)

Inductive Completion :=
| Normal
| Throw (thrownBy : nat).
(* [thrownBy]: the listener that threw, or the element whose callback or
   hook threw *)

Definition Eff := list Effect -> Completion * list Effect.

Definition andThen (a b : Eff) : Eff :=
  fun tr => match a tr with
            | (Normal, tr') => b tr'
            | (Throw e, tr') => (Throw e, tr')
            end.

Definition tryCatch (body : Eff) (handler : Listener -> Eff) : Eff :=
  fun tr => match body tr with
            | (Normal, tr') => (Normal, tr')
            | (Throw e, tr') => handler e tr'
            end.

(** [Array.prototype.forEach]: an exception thrown by the body leaves the
    loop. *)
Fixpoint forEachEff {A : Type} (body : A -> Eff) (l : list A) : Eff :=
  match l with
  | [] => fun tr => (Normal, tr)
  | a :: l' => andThen (body a) (forEachEff body l')
  end.

(** A method that may be left by an exception: how it was left, and the
    manager as it is then. *)
Definition Outcome := (Completion * Manager)%type.

Definition state (r : Outcome) : Manager := snd r.

Definition returns (r : Outcome) : Prop := fst r = Normal.

Definition returned (r : Outcome) : bool :=
  match fst r with
  | Normal => true
  | Throw _ => false
  end.

(** The statements that follow a call run only when the call returns. *)
Definition andThenDo (r : Outcome) (k : Manager -> Outcome) : Outcome :=
  match r with
  | (Normal, s) => k s
  | (Throw e, s) => (Throw e, s)
  end.

Notation "'let!' s ':=' r 'in' k" :=
  (andThenDo r (fun s => k))
    (at level 10, s name, r at level 100, k at level 200).

(** A [forEach] or [for ... of] over an array whose body may throw: the
    exception leaves the loop. *)
Fixpoint forEachOrThrow {A : Type} (body : Manager -> A -> Outcome) (l : list A)
    (s : Manager) : Outcome :=
  match l with
  | [] => (Normal, s)
  | a :: l' => let! s := body s a in forEachOrThrow body l' s
  end.

(** [Array.prototype.slice(start)] *)
Definition slice {A : Type} (start : Z) (l : list A) : list A :=
  if start <? 0 then skipn (length l - Z.to_nat (- start)) l
  else skipn (Z.to_nat start) l.

(** [array[index]], [undefined] outside the array *)
Definition arrayGet {A : Type} (l : list A) (index : Z) : option A :=
  if index <? 0 then None else nth_error l (Z.to_nat index).

(** [listeners.indexOf(listener)] followed by [splice(index, 1)] *)
Fixpoint removeFirst (l : Listener) (ls : list Listener) : list Listener :=
  match ls with
  | [] => []
  | l' :: rest => if Nat.eqb l' l then rest else l' :: removeFirst l rest
  end.

(** The values [0], [1], ..., [n] of the loop variable of
    [for (let i = 0; i <= n; i++)]. *)
Definition upTo (n : Z) : list Z :=
  map Z.of_nat (seq 0 (Z.to_nat (n + 1))).

Definition bumpHits (h : CallbackHits) (hitType : HitType) : CallbackHits :=
  let h' :=
    match hitType with
    | HitMouse hover =>
        mkCallbackHits (mouse_hover h + 1) (mouse_trajectory h) (tab_forwards h)
          (tab_reverse h) (scroll_down h) (scroll_left h) (scroll_right h)
          (scroll_up h) (total h)
    | HitMouse trajectory =>
        mkCallbackHits (mouse_hover h) (mouse_trajectory h + 1) (tab_forwards h)
          (tab_reverse h) (scroll_down h) (scroll_left h) (scroll_right h)
          (scroll_up h) (total h)
    | HitTab forwards =>
        mkCallbackHits (mouse_hover h) (mouse_trajectory h) (tab_forwards h + 1)
          (tab_reverse h) (scroll_down h) (scroll_left h) (scroll_right h)
          (scroll_up h) (total h)
    | HitTab reverse =>
        mkCallbackHits (mouse_hover h) (mouse_trajectory h) (tab_forwards h)
          (tab_reverse h + 1) (scroll_down h) (scroll_left h) (scroll_right h)
          (scroll_up h) (total h)
    | HitScroll ScrollDown =>
        mkCallbackHits (mouse_hover h) (mouse_trajectory h) (tab_forwards h)
          (tab_reverse h) (scroll_down h + 1) (scroll_left h) (scroll_right h)
          (scroll_up h) (total h)
    | HitScroll ScrollLeft =>
        mkCallbackHits (mouse_hover h) (mouse_trajectory h) (tab_forwards h)
          (tab_reverse h) (scroll_down h) (scroll_left h + 1) (scroll_right h)
          (scroll_up h) (total h)
    | HitScroll ScrollRight =>
        mkCallbackHits (mouse_hover h) (mouse_trajectory h) (tab_forwards h)
          (tab_reverse h) (scroll_down h) (scroll_left h) (scroll_right h + 1)
          (scroll_up h) (total h)
    | HitScroll ScrollUp =>
        mkCallbackHits (mouse_hover h) (mouse_trajectory h) (tab_forwards h)
          (tab_reverse h) (scroll_down h) (scroll_left h) (scroll_right h)
          (scroll_up h + 1) (total h)
    | HitScroll ScrollNone => h
    end in
  mkCallbackHits (mouse_hover h') (mouse_trajectory h') (tab_forwards h')
    (tab_reverse h') (scroll_down h') (scroll_left h') (scroll_right h')
    (scroll_up h') (total h' + 1).

(** ** The methods of the class *)

Section ForesightManager.

Context {helpers : Helpers} {constants : Constants} {host : Host}.

Definition initialSettings : ForesightManagerSettings :=
  mkSettings false DEFAULT_ENABLE_MOUSE_PREDICTION DEFAULT_ENABLE_SCROLL_PREDICTION
    DEFAULT_POSITION_HISTORY_SIZE DEFAULT_TRAJECTORY_PREDICTION_TIME
    DEFAULT_SCROLL_MARGIN
    (mkRect DEFAULT_HITSLOP DEFAULT_HITSLOP DEFAULT_HITSLOP DEFAULT_HITSLOP)
    DEFAULT_ENABLE_TAB_PREDICTION DEFAULT_TAB_OFFSET DefaultHook.

(** The field initialisers; no listener is attached to the document. *)
Definition newManager : Manager :=
  mkManager [] false noHits initialSettings
    (mkTrajectoryPositions [] (mkPoint 0 0) (mkPoint 0 0))
    [] None None None false None None None (fun _ => []) [] 0%nat [].

(** [signalAborted] is [options?.signal?.aborted].  The removal that the
    method schedules for the abort of the signal is, when it happens, a call
    of [removeEventListener]. *)
Definition addEventListener (s : Manager) (eventType : ForesightEventType)
    (listener : Listener) (signalAborted : option bool) : Manager :=
  match signalAborted with
  | Some true => s
  | _ =>
      set_eventListeners s
        (fun t => if eventType_eqb t eventType
                  then eventListeners s t ++ [listener]
                  else eventListeners s t)
  end.

Definition removeEventListener (s : Manager) (eventType : ForesightEventType)
    (listener : Listener) : Manager :=
  set_eventListeners s
    (fun t => if eventType_eqb t eventType
              then removeFirst listener (eventListeners s t)
              else eventListeners s t).

(** [listener(event)] *)
Definition callListener (l : Listener) (ev : ForesightEvent) : Eff :=
  fun tr => (if listenerThrows l ev then Throw l else Normal, Delivered l ev :: tr).

Definition consoleError (l : Listener) (ty : ForesightEventType) : Eff :=
  fun tr => (Normal, ConsoleError l ty :: tr).

(** The loop of [emit] over the listeners of the event's type. *)
Definition emitEff (listeners : list Listener) (ev : ForesightEvent) : Eff :=
  forEachEff
    (fun l => tryCatch (callListener l ev)
                (fun _ => consoleError l (eventType ev)))
    listeners.

Definition emit (s : Manager) (ev : ForesightEvent) : Manager :=
  set_trace s
    (snd (emitEff (eventListeners s (eventType ev)) ev (Emitted ev :: trace s))).

(** Aborting the controller removes the listeners that were added with its
    signal; disconnecting the observers stops their deliveries. *)
Definition removeGlobalListeners (s : Manager) : Manager :=
  let s := set_isSetup s false in
  let s :=
    match globalListenersController s with
    | Some c => set_documentListeners s (abortSignal c (documentListeners s))
    | None => s
    end in
  let s := set_globalListenersController s None in
  let s := set_domObserver s false in
  set_positionObserver s None.

(** [mousemove] is added without the signal, [keydown] and [focusin] with
    it. *)
Definition initializeGlobalListeners (s : Manager) (hasWindowAndDocument : bool)
  : Manager :=
  if isSetup s then s
  else if negb hasWindowAndDocument then s
  else
    let signal := nextController s in
    let s := set_nextController s (S signal) in
    let s := set_globalListenersController s (Some signal) in
    let s := set_documentListeners s
               (addDocListener mousemove handleMouseMoveRef None
                  (documentListeners s)) in
    let s := set_documentListeners s
               (addDocListener keydown handleKeyDownRef (Some signal)
                  (documentListeners s)) in
    let s := set_documentListeners s
               (addDocListener focusin handleFocusInRef (Some signal)
                  (documentListeners s)) in
    let s := set_domObserver s true in
    let s := set_positionObserver s (Some []) in
    set_isSetup s true.

(** A timeout id is truthy when it is present and not zero. *)
Definition unregister (s : Manager) (el : ForesightElement)
    (unregisterReason : ElementUnregisteredReason) : Manager :=
  match Registry.get el (elements s) with
  | None => s
  | Some foresightElementData =>
      let s := emit s (elementUnregistered foresightElementData unregisterReason) in
      let s :=
        match trajectoryHitExpirationTimeoutId (trajectoryHitData foresightElementData) with
        | Some (S id) => set_trace s (ClearTimeout (S id) :: trace s)
        | _ => s
        end in
      let s := set_positionObserver s
                 (option_map (filter (fun o => negb (Nat.eqb o el)))
                    (positionObserver s)) in
      let s := set_elements s (Registry.delete el (elements s)) in
      if (Nat.eqb (length (elements s)) 0) && isSetup s
      then removeGlobalListeners s
      else s
  end.

(** [hitSlop ? ... : ...] takes the default for an absent hit slop and for
    the number zero, which is falsy.  [element.id] is a string, so the name
    falls back to it whenever no name is given. *)
Definition register (s : Manager) (opts : ForesightRegisterOptions) (env : RegisterEnv)
  : Manager * ForesightRegisterResult :=
  if negb (shouldRegister env) then
    (s, mkRegisterResult (isTouchDevice env) (isLimitedConnection env) false None)
  else
    let s := if negb (isSetup s)
             then initializeGlobalListeners s (hasWindowAndDocument env)
             else s in
    let normalizedHitSlop :=
      match o_hitSlop opts with
      | None | Some (SlopNumber 0) => defaultHitSlop (globalSettings s)
      | Some hs => normalizeHitSlop hs
      end in
    let elementData :=
      mkElementData (o_element opts) (o_callback opts) noHits
        (mkElementBounds None (mkRect 0 0 0 0) normalizedHitSlop)
        false
        (mkTrajectoryHitData false 0 None)
        (match o_name opts with
         | Some n => n
         | None => elementId (o_element opts)
         end)
        true in
    let s := set_elements s (Registry.set elementData (elements s)) in
    let s := set_positionObserver s
               (option_map (fun obs => obs ++ [o_element opts]) (positionObserver s)) in
    let s := emit s (elementRegistered elementData) in
    (s, mkRegisterResult (isTouchDevice env) (isLimitedConnection env) true
          (Some (o_element opts))).

Definition updateNumericSettings (s : Manager) (newValue : option Z)
    (setting : NumericSettingKeys) (min max : Z) : bool * Manager :=
  if negb (shouldUpdateSetting Z.eqb newValue (getNumeric (globalSettings s) setting))
  then (false, s)
  else
    match newValue with
    | Some v =>
        (true,
         set_globalSettings s
           (setNumeric (globalSettings s) setting (clampNumber v min max setting)))
    | None => (false, s)
    end.

Definition updateBooleanSetting (s : Manager) (newValue : option bool)
    (setting : ManagerBooleanSettingKeys) : bool * Manager :=
  if negb (shouldUpdateSetting Bool.eqb newValue (getBoolean (globalSettings s) setting))
  then (false, s)
  else
    match newValue with
    | Some v => (true, set_globalSettings s (setBoolean (globalSettings s) setting v))
    | None => (false, s)
    end.

Definition forceUpdateElementBounds (s : Manager) (elementData : ForesightElementData)
    (getBoundingClientRect : ForesightElement -> Rect) : Manager :=
  let newOriginalRect := getBoundingClientRect (element elementData) in
  let expanded := getExpandedRect newOriginalRect (hitSlop (elementBounds elementData)) in
  if negb (areRectsEqual expanded (expandedRect (elementBounds elementData))) then
    let updatedElementData :=
      set_elementBounds elementData
        (mkElementBounds (Some newOriginalRect) expanded
           (hitSlop (elementBounds elementData))) in
    let s := set_elements s (Registry.set updatedElementData (elements s)) in
    emit s (elementDataUpdated updatedElementData bounds)
  else s.

(** [Map.prototype.forEach]: the entries are visited in insertion order and
    an entry deleted before its turn is not visited.  No body in this class
    adds a key while the loop runs. *)
Definition forEachElement (body : Manager -> ForesightElementData -> Manager)
    (s : Manager) : Manager :=
  fold_left
    (fun acc el =>
       match Registry.get el (elements acc) with
       | Some d => body acc d
       | None => acc
       end)
    (Registry.keys (elements s)) s.

Definition forceUpdateAllElementBounds (s : Manager)
    (getBoundingClientRect : ForesightElement -> Rect) : Manager :=
  forEachElement
    (fun acc elementData =>
       if isIntersectingWithViewport elementData
       then forceUpdateElementBounds acc elementData getBoundingClientRect
       else acc)
    s.

Definition alterGlobalSettings (s : Manager) (props : UpdateForsightManagerSettings)
    (getBoundingClientRect : ForesightElement -> Rect) : Manager :=
  let oldPositionHistorySize := positionHistorySize (globalSettings s) in
  let '(positionHistoryChanged, s) :=
    updateNumericSettings s (p_positionHistorySize props) K_positionHistorySize
      MIN_POSITION_HISTORY_SIZE MAX_POSITION_HISTORY_SIZE in
  let s :=
    if positionHistoryChanged
       && (positionHistorySize (globalSettings s) <? oldPositionHistorySize)
    then
      let history := positions (trajectoryPositions s) in
      if positionHistorySize (globalSettings s) <? Z.of_nat (length history)
      then
        set_trajectoryPositions s
          (mkTrajectoryPositions
             (slice (Z.of_nat (length history) - positionHistorySize (globalSettings s))
                history)
             (currentPoint (trajectoryPositions s))
             (predictedPoint (trajectoryPositions s)))
      else s
    else s in
  let '(trajectoryTimeChanged, s) :=
    updateNumericSettings s (p_trajectoryPredictionTime props) K_trajectoryPredictionTime
      MIN_TRAJECTORY_PREDICTION_TIME MAX_TRAJECTORY_PREDICTION_TIME in
  let '(scrollMarginChanged, s) :=
    updateNumericSettings s (p_scrollMargin props) K_scrollMargin
      MIN_SCROLL_MARGIN MAX_SCROLL_MARGIN in
  let '(tabOffsetChanged, s) :=
    updateNumericSettings s (p_tabOffset props) K_tabOffset
      MIN_TAB_OFFSET MAX_TAB_OFFSET in
  let '(mousePredictionChanged, s) :=
    updateBooleanSetting s (p_enableMousePrediction props) K_enableMousePrediction in
  let '(scrollPredictionChanged, s) :=
    updateBooleanSetting s (p_enableScrollPrediction props) K_enableScrollPrediction in
  let '(tabPredictionChanged, s) :=
    updateBooleanSetting s (p_enableTabPrediction props) K_enableTabPrediction in
  let s :=
    match p_onAnyCallbackFired props with
    | Some h => set_globalSettings s (set_onAnyCallbackFired (globalSettings s) h)
    | None => s
    end in
  let '(hitSlopChanged, s) :=
    match p_defaultHitSlop props with
    | Some hs =>
        let normalizedNewHitSlop := normalizeHitSlop hs in
        if negb (areRectsEqual (defaultHitSlop (globalSettings s)) normalizedNewHitSlop)
        then
          let s := set_globalSettings s
                     (set_defaultHitSlop (globalSettings s) normalizedNewHitSlop) in
          (true, forceUpdateAllElementBounds s getBoundingClientRect)
        else (false, s)
    | None => (false, s)
    end in
  let settingsActuallyChanged :=
    positionHistoryChanged || trajectoryTimeChanged || tabOffsetChanged
    || mousePredictionChanged || tabPredictionChanged || scrollPredictionChanged
    || hitSlopChanged || scrollMarginChanged in
  if settingsActuallyChanged
  then emit s (managerSettingsChanged (globalSettings s))
  else s.

Definition updatePointerState (s : Manager) (e : MouseEvent) : Manager :=
  let current := mkPoint (clientX e) (clientY e) in
  if enableMousePrediction (globalSettings s) then
    let '(predicted, history) :=
      predictNextMousePosition current (positions (trajectoryPositions s))
        (positionHistorySize (globalSettings s))
        (trajectoryPredictionTime (globalSettings s)) (timeStamp e) in
    set_trajectoryPositions s (mkTrajectoryPositions history current predicted)
  else
    set_trajectoryPositions s
      (mkTrajectoryPositions (positions (trajectoryPositions s)) current current).

(** The counters of a record are one object, shared by the record handed
    in and by the record stored under the same element (the stored record
    is that very object or a spread copy of it), so the increment shows in
    both. *)
Definition updateHitCounters (s : Manager) (elementData : ForesightElementData)
    (hitType : HitType) : ForesightElementData * Manager :=
  let elementData' :=
    set_callbackHits elementData (bumpHits (callbackHits elementData) hitType) in
  let s := set_elements s
             (Registry.mutate (element elementData)
                (fun d => set_callbackHits d (bumpHits (callbackHits d) hitType))
                (elements s)) in
  let s := set_globalCallbackHits s (bumpHits (globalCallbackHits s) hitType) in
  (elementData', s).

(** The callback and the hook are called outside any [try]: when one of
    them throws, the statements after it are skipped, [unregister]
    included, and the exception leaves the method. *)
Definition callCallback (s : Manager) (elementData : option ForesightElementData)
    (hitType : HitType) : Outcome :=
  match elementData with
  | None => (Normal, s)
  | Some elementData =>
      let '(elementData, s) := updateHitCounters s elementData hitType in
      let s := set_trace s
                 (CallbackInvoked (callback elementData) (element elementData)
                  :: trace s) in
      if callbackThrows (callback elementData) (trace s)
      then (Throw (element elementData), s)
      else
        let s := set_trace s
                   (AnyCallbackFired (onAnyCallbackFired (globalSettings s))
                      (element elementData) :: trace s) in
        if hookThrows (onAnyCallbackFired (globalSettings s)) (trace s)
        then (Throw (element elementData), s)
        else
          let s := emit s (callbackFired elementData hitType) in
          (Normal, unregister s (element elementData) callbackHit)
  end.

Definition handleCallbackInteraction (s : Manager) (elementData : ForesightElementData)
  : Outcome :=
  let expanded := expandedRect (elementBounds elementData) in
  if negb (enableMousePrediction (globalSettings s)) then
    if isPointInRectangle (currentPoint (trajectoryPositions s)) expanded
    then callCallback s (Some elementData) (HitMouse hover)
    else (Normal, s)
  else if lineSegmentIntersectsRect (currentPoint (trajectoryPositions s))
            (predictedPoint (trajectoryPositions s)) expanded
  then callCallback s (Some elementData) (HitMouse trajectory)
  else (Normal, s).

(** [Map.prototype.forEach] with a body that may throw: as
    [forEachElement], and an exception of the body leaves the loop. *)
Definition forEachElementOrThrow (body : Manager -> ForesightElementData -> Outcome)
    (s : Manager) : Outcome :=
  forEachOrThrow
    (fun acc el =>
       match Registry.get el (elements acc) with
       | Some d => body acc d
       | None => (Normal, acc)
       end)
    (Registry.keys (elements s)) s.

Definition handleMouseMove (s : Manager) (e : MouseEvent) : Outcome :=
  let s := updatePointerState s e in
  let! s :=
    forEachElementOrThrow
      (fun acc currentData =>
         if negb (isIntersectingWithViewport currentData) then (Normal, acc)
         else handleCallbackInteraction acc currentData)
      s in
  (Normal,
   emit s (mouseTrajectoryUpdate (enableMousePrediction (globalSettings s))
             (trajectoryPositions s))).

(** [isConnected] reads the [isConnected] property of an element at the
    time the mutations are handled. *)
Definition handleDomMutations (s : Manager) (mutationsList : list MutationRecord)
    (isConnected : ForesightElement -> bool) : Manager :=
  let s :=
    match mutationsList with
    | [] => s
    | _ => set_lastFocusedIndex (set_tabbableElementsCache s []) None
    end in
  fold_left
    (fun acc mutation =>
       match mutationType mutation, removedNodes mutation with
       | childList, S _ =>
           fold_left
             (fun acc' el =>
                if negb (isConnected el) then unregister acc' el disconnected
                else acc')
             (Registry.keys (elements acc)) acc
       | _, _ => acc
       end)
    mutationsList s.

Definition handleKeyDown (s : Manager) (e : KeyboardEvent) : Manager :=
  if String.eqb (key e) "Tab" then set_lastKeyDown s (Some e) else s.

(** [focusTarget] is [e.target] when it is an [HTMLElement]; [tabbableNow]
    is what [tabbable(document.documentElement)] returns at that time. *)
Definition handleFocusIn (s : Manager) (focusTarget : option ForesightElement)
    (tabbableNow : list ForesightElement) : Outcome :=
  match lastKeyDown s with
  | None => (Normal, s)
  | Some lastKey =>
      if negb (enableTabPrediction (globalSettings s)) then (Normal, s)
      else
        match focusTarget with
        | None => (Normal, s)
        | Some targetElement =>
            let s :=
              match tabbableElementsCache s with
              | [] => set_tabbableElementsCache s tabbableNow
              | _ => s
              end in
            let isReversed := shiftKey lastKey in
            let currentIndex :=
              getFocusedElementIndex isReversed (lastFocusedIndex s)
                (tabbableElementsCache s) targetElement in
            let s := set_lastFocusedIndex s (Some currentIndex) in
            let s := set_lastKeyDown s None in
            let elementsToPredict :=
              flat_map
                (fun i =>
                   match arrayGet (tabbableElementsCache s)
                           (if isReversed then currentIndex - i else currentIndex + i)
                   with
                   | Some el => if Registry.has el (elements s) then [el] else []
                   | None => []
                   end)
                (upTo (tabOffset (globalSettings s))) in
            forEachOrThrow
              (fun acc el =>
                 callCallback acc (Registry.get el (elements acc))
                   (HitTab (if isReversed then reverse else forwards)))
              elementsToPredict s
        end
  end.

Definition updateElementBounds (s : Manager) (newRect : Rect)
    (elementData : ForesightElementData) : Manager :=
  let updatedElementData :=
    set_elementBounds elementData
      (mkElementBounds (Some newRect)
         (getExpandedRect newRect (hitSlop (elementBounds elementData)))
         (hitSlop (elementBounds elementData))) in
  let s := set_elements s (Registry.set updatedElementData (elements s)) in
  emit s (elementDataUpdated updatedElementData bounds).

(** [this.scrollDirection] and [this.predictedScrollPoint] are filled by
    [??=]-style assignments: the helper is called only when the field is
    [null]. *)
Definition handleScrollPrefetch (s : Manager) (elementData : ForesightElementData)
    (newRect : Rect) : Outcome :=
  if enableScrollPrediction (globalSettings s) then
    match originalRect (elementBounds elementData) with
    | None => (Normal, s)
    | Some original =>
        let '(direction, s) :=
          match scrollDirection s with
          | Some direction => (direction, s)
          | None =>
              let direction := getScrollDirection original newRect in
              let s := set_trace s (ScrollDirectionComputed original newRect :: trace s) in
              (direction, set_scrollDirection s (Some direction))
          end in
        match direction with
        | ScrollNone => (Normal, s)
        | _ =>
            let '(predicted, s) :=
              match predictedScrollPoint s with
              | Some predicted => (predicted, s)
              | None =>
                  let predicted :=
                    predictNextScrollPosition (currentPoint (trajectoryPositions s))
                      direction (scrollMargin (globalSettings s)) in
                  let s :=
                    set_trace s
                      (ScrollPointComputed (currentPoint (trajectoryPositions s))
                         direction (scrollMargin (globalSettings s)) :: trace s) in
                  (predicted, set_predictedScrollPoint s (Some predicted))
              end in
            let! s :=
              if lineSegmentIntersectsRect (currentPoint (trajectoryPositions s))
                   predicted (expandedRect (elementBounds elementData))
              then callCallback s (Some elementData) (HitScroll direction)
              else (Normal, s) in
            (Normal,
             emit s (scrollTrajectoryUpdate (currentPoint (trajectoryPositions s))
                       predicted))
        end
    end
  else if isPointInRectangle (currentPoint (trajectoryPositions s))
            (expandedRect (elementBounds elementData))
  then callCallback s (Some elementData) (HitMouse hover)
  else (Normal, s).

(** One entry of a batch.  [elementData] stays the record read at the top
    of the iteration: [updateElementBounds] stores a copy, and
    [handleScrollPrefetch] is handed the record as it was before the copy. *)
Definition handlePositionEntry (s : Manager) (entry : PositionObserverEntry) : Outcome :=
  match Registry.get (target entry) (elements s) with
  | None => (Normal, s)
  | Some elementData =>
      let wasPreviouslyIntersecting := isIntersectingWithViewport elementData in
      let isNowIntersecting := isIntersecting entry in
      let elementData := set_isIntersectingWithViewport elementData isNowIntersecting in
      let s := set_elements s (Registry.set elementData (elements s)) in
      let s :=
        if negb (Bool.eqb wasPreviouslyIntersecting isNowIntersecting)
        then emit s (elementDataUpdated elementData visibility)
        else s in
      if isNowIntersecting then
        let s := updateElementBounds s (boundingClientRect entry) elementData in
        handleScrollPrefetch s elementData (boundingClientRect entry)
      else (Normal, s)
  end.

(** The two assignments after the loop are not in a [finally]: an
    exception that leaves the loop skips them. *)
Definition handlePositionChange (s : Manager) (entries : list PositionObserverEntry)
  : Outcome :=
  let! s := forEachOrThrow handlePositionEntry entries s in
  let s := set_scrollDirection s None in
  (Normal, set_predictedScrollPoint s None).

(** ** The manager driven from outside

    The public methods called by the consumer, and the events the browser
    delivers.  A browser event reaches its handler only while the handler
    is attached: to the document for the input events, through a connected
    observer for mutations and position changes. *)

Inductive Action :=
| CallRegister (opts : ForesightRegisterOptions) (env : RegisterEnv)
| CallUnregister (el : ForesightElement)
| CallAlterGlobalSettings (props : UpdateForsightManagerSettings)
                          (getBoundingClientRect : ForesightElement -> Rect)
| CallAddEventListener (eventType : ForesightEventType) (listener : Listener)
                       (signalAborted : option bool)
| CallRemoveEventListener (eventType : ForesightEventType) (listener : Listener)
| MouseMoved (e : MouseEvent)
| KeyPressed (e : KeyboardEvent)
| FocusMoved (focusTarget : option ForesightElement)
             (tabbableNow : list ForesightElement)
| DomMutated (mutationsList : list MutationRecord)
             (isConnected : ForesightElement -> bool)
| PositionsChanged (entries : list PositionObserverEntry).

(** What an action does, and how it is left.  The public methods and the
    handlers that call no consumer code return. *)
Definition dispatch (s : Manager) (a : Action) : Outcome :=
  match a with
  | CallRegister opts env => (Normal, fst (register s opts env))
  | CallUnregister el => (Normal, unregister s el apiCall)
  | CallAlterGlobalSettings props rects => (Normal, alterGlobalSettings s props rects)
  | CallAddEventListener ty l aborted => (Normal, addEventListener s ty l aborted)
  | CallRemoveEventListener ty l => (Normal, removeEventListener s ty l)
  | MouseMoved e =>
      if attached mousemove handleMouseMoveRef (documentListeners s)
      then handleMouseMove s e else (Normal, s)
  | KeyPressed e =>
      if attached keydown handleKeyDownRef (documentListeners s)
      then (Normal, handleKeyDown s e) else (Normal, s)
  | FocusMoved focusTarget tabbableNow =>
      if attached focusin handleFocusInRef (documentListeners s)
      then handleFocusIn s focusTarget tabbableNow else (Normal, s)
  | DomMutated mutationsList isConnected =>
      if domObserver s
      then (Normal, handleDomMutations s mutationsList isConnected) else (Normal, s)
  | PositionsChanged entries =>
      match positionObserver s with
      | Some _ => handlePositionChange s entries
      | None => (Normal, s)
      end
  end.

(** An exception that leaves a handler is reported by the browser; the
    manager stays as the handler left it. *)
Definition step (s : Manager) (a : Action) : Manager := state (dispatch s a).

Definition run (s : Manager) (actions : list Action) : Manager :=
  fold_left step actions s.

(** The states the manager can be in: those a run from the field
    initialisers leads to. *)
Definition reachable (s : Manager) : Prop :=
  exists actions, s = run newManager actions.

End ForesightManager.

(** ** Reading the trace *)

Definition countEffects (p : Effect -> bool) (tr : list Effect) : nat :=
  length (filter p tr).

Definition isCallbackOf (el : ForesightElement) (e : Effect) : bool :=
  match e with
  | CallbackInvoked _ el' => Nat.eqb el' el
  | _ => false
  end.

(** How many times the callback registered for [el] has been invoked. *)
Definition fires (el : ForesightElement) (s : Manager) : nat :=
  countEffects (isCallbackOf el) (trace s).

Definition isSettingsChanged (e : Effect) : bool :=
  match e with
  | Emitted (managerSettingsChanged _) => true
  | _ => false
  end.

Definition isScrollDirectionComputed (e : Effect) : bool :=
  match e with
  | ScrollDirectionComputed _ _ => true
  | _ => false
  end.

Definition isScrollPointComputed (e : Effect) : bool :=
  match e with
  | ScrollPointComputed _ _ _ => true
  | _ => false
  end.

(** The listeners that were handed an event, oldest call first. *)
Definition deliveredListeners (tr : list Effect) : list Listener :=
  rev (flat_map (fun e => match e with
                          | Delivered l _ => [l]
                          | _ => []
                          end) tr).

(** The listeners whose failure was logged, oldest first. *)
Definition loggedErrors (tr : list Effect) : list Listener :=
  rev (flat_map (fun e => match e with
                          | ConsoleError l _ => [l]
                          | _ => []
                          end) tr).

(** What one publication adds to the trace (newest first): every listener
    is called in subscription order, and a [console.error] follows the call
    of a listener that throws. *)
Definition deliveryLog `{Host} (ls : list Listener) (ev : ForesightEvent) : list Effect :=
  rev (flat_map
         (fun l => Delivered l ev
                   :: (if listenerThrows l ev then [ConsoleError l (eventType ev)] else []))
         ls).

(** The elements among the tab stops [i], [i+1], ..., [i+N] (forwards) or
    [i], [i-1], ..., [i-N] (reversed) of the tabbable list, as the
    specification words the selection. *)
Definition tabWindow (tabbables : list ForesightElement) (i N : Z) (isReversed : bool)
  : list ForesightElement :=
  flat_map
    (fun k => match arrayGet tabbables (if isReversed then i - k else i + k) with
              | Some el => [el]
              | None => []
              end)
    (upTo N).

(** The documented range of each numeric setting. *)
Definition minOf `{Constants} (k : NumericSettingKeys) : Z :=
  match k with
  | K_positionHistorySize => MIN_POSITION_HISTORY_SIZE
  | K_trajectoryPredictionTime => MIN_TRAJECTORY_PREDICTION_TIME
  | K_scrollMargin => MIN_SCROLL_MARGIN
  | K_tabOffset => MIN_TAB_OFFSET
  end.

Definition maxOf `{Constants} (k : NumericSettingKeys) : Z :=
  match k with
  | K_positionHistorySize => MAX_POSITION_HISTORY_SIZE
  | K_trajectoryPredictionTime => MAX_TRAJECTORY_PREDICTION_TIME
  | K_scrollMargin => MAX_SCROLL_MARGIN
  | K_tabOffset => MAX_TAB_OFFSET
  end.

Definition defaultOf `{Constants} (k : NumericSettingKeys) : Z :=
  match k with
  | K_positionHistorySize => DEFAULT_POSITION_HISTORY_SIZE
  | K_trajectoryPredictionTime => DEFAULT_TRAJECTORY_PREDICTION_TIME
  | K_scrollMargin => DEFAULT_SCROLL_MARGIN
  | K_tabOffset => DEFAULT_TAB_OFFSET
  end.

(** The constants are coherent when every range is non-empty and holds its
    default. *)
Definition coherent `{Constants} : Prop :=
  forall k, minOf k <= defaultOf k <= maxOf k.

(** The settings object with one numeric field given. *)
Definition numericProps (k : NumericSettingKeys) (v : Z) : UpdateForsightManagerSettings :=
  match k with
  | K_positionHistorySize => mkProps None None None (Some v) None None None None None None
  | K_trajectoryPredictionTime => mkProps None None None None (Some v) None None None None None
  | K_scrollMargin => mkProps None None None None None (Some v) None None None None
  | K_tabOffset => mkProps None None None None None None None None (Some v) None
  end.

Definition p_numeric (props : UpdateForsightManagerSettings) (k : NumericSettingKeys)
  : option Z :=
  match k with
  | K_positionHistorySize => p_positionHistorySize props
  | K_trajectoryPredictionTime => p_trajectoryPredictionTime props
  | K_scrollMargin => p_scrollMargin props
  | K_tabOffset => p_tabOffset props
  end.

(** ** A concrete page, for running the manager on examples *)

Module Sample.

(** Modelled from the spec: [isPointInRectangle] is an inclusive bounds
    test. *)
Definition pointInRect (p : Point) (r : Rect) : bool :=
  (rleft r <=? x p) && (x p <=? rright r) && (top r <=? y p) && (y p <=? bottom r).

(** Modelled from the spec: [getExpandedRect] grows each side by the
    corresponding hit-slop amount. *)
Definition expand (r slop : Rect) : Rect :=
  mkRect (top r - top slop) (rleft r - rleft slop) (rright r + rright slop)
    (bottom r + bottom slop).

(** Modelled from the spec: a hit slop is non-negative on every side; a
    number stands for all four sides. *)
Definition normalize (hs : HitSlop) : Rect :=
  match hs with
  | SlopNumber n => let n := Z.max 0 n in mkRect n n n n
  | SlopRect r =>
      mkRect (Z.max 0 (top r)) (Z.max 0 (rleft r)) (Z.max 0 (rright r))
        (Z.max 0 (bottom r))
  end.

(** Modelled from the spec: the segment meets the rectangle when no axis
    separates them: neither coordinate axis, nor the normal of the
    segment (all four corners strictly on one side of its line). *)
Definition segmentIntersectsRect (p q : Point) (r : Rect) : bool :=
  let side cx cy := (x q - x p) * (cy - y p) - (y q - y p) * (cx - x p) in
  let c1 := side (rleft r) (top r) in
  let c2 := side (rright r) (top r) in
  let c3 := side (rleft r) (bottom r) in
  let c4 := side (rright r) (bottom r) in
  negb ((Z.max (x p) (x q) <? rleft r) || (rright r <? Z.min (x p) (x q))
        || (Z.max (y p) (y q) <? top r) || (bottom r <? Z.min (y p) (y q)))
  && negb (((0 <? c1) && (0 <? c2) && (0 <? c3) && (0 <? c4))
           || ((c1 <? 0) && (c2 <? 0) && (c3 <? 0) && (c4 <? 0))).

Fixpoint indexOf (el : ForesightElement) (l : list ForesightElement) (from : Z) : Z :=
  match l with
  | [] => -1
  | e :: l' => if Nat.eqb e el then from else indexOf el l' (from + 1)
  end.

(** Modelled from the spec: the index of the focused element among the
    tab stops, [-1] when it is not one of them. *)
Definition focusedIndex (isReversed : bool) (lastFocusedIndex : option Z)
    (tabbables : list ForesightElement) (targetElement : ForesightElement) : Z :=
  indexOf targetElement tabbables 0.

(** Modelled from the spec: the direction is read off the displacement of
    the rectangle, content moving up meaning a scroll down. *)
Definition direction (oldRect newRect : Rect) : ScrollDirection :=
  if top newRect <? top oldRect then ScrollDown
  else if top oldRect <? top newRect then ScrollUp
  else if rleft newRect <? rleft oldRect then ScrollRight
  else if rleft oldRect <? rleft newRect then ScrollLeft
  else ScrollNone.

(** Modelled from the spec: the point at the scroll margin from the
    pointer, in the direction of the scroll. *)
Definition scrollPoint (p : Point) (d : ScrollDirection) (margin : Z) : Point :=
  match d with
  | ScrollDown => mkPoint (x p) (y p + margin)
  | ScrollUp => mkPoint (x p) (y p - margin)
  | ScrollLeft => mkPoint (x p - margin) (y p)
  | ScrollRight => mkPoint (x p + margin) (y p)
  | ScrollNone => p
  end.

(** Modelled from the spec: linear extrapolation from the oldest sample
    kept; no extrapolation without an earlier sample or without elapsed
    time. *)
Definition linear (current : MousePosition) (history : list MousePosition)
    (positionHistorySize trajectoryPredictionTime : Z) : Point :=
  match history with
  | [] => point current
  | first :: _ =>
      let dt := time current - time first in
      if dt =? 0 then point current
      else mkPoint
             (x (point current)
              + (x (point current) - x (point first)) * trajectoryPredictionTime / dt)
             (y (point current)
              + (y (point current) - y (point first)) * trajectoryPredictionTime / dt)
  end.

Definition helpers : Helpers :=
  Build_Helpers pointInRect expand normalize segmentIntersectsRect focusedIndex
    direction scrollPoint linear.

(** The defaults and ranges of the configuration guide; the guide does not
    list the scroll settings, whose values here are placeholders. *)
Definition constants : Constants :=
  {| DEFAULT_ENABLE_MOUSE_PREDICTION := true;
     DEFAULT_ENABLE_SCROLL_PREDICTION := true;
     DEFAULT_ENABLE_TAB_PREDICTION := true;
     DEFAULT_HITSLOP := 0;
     DEFAULT_POSITION_HISTORY_SIZE := 8;
     DEFAULT_SCROLL_MARGIN := 150;
     DEFAULT_TAB_OFFSET := 2;
     DEFAULT_TRAJECTORY_PREDICTION_TIME := 120;
     MAX_POSITION_HISTORY_SIZE := 30;
     MAX_SCROLL_MARGIN := 300;
     MAX_TAB_OFFSET := 20;
     MAX_TRAJECTORY_PREDICTION_TIME := 200;
     MIN_POSITION_HISTORY_SIZE := 0;
     MIN_SCROLL_MARGIN := 30;
     MIN_TAB_OFFSET := 0;
     MIN_TRAJECTORY_PREDICTION_TIME := 10 |}.

(** No element has an [id]; the listeners with an odd number throw; so
    do, at every call, the callbacks and the hooks numbered 90 and up. *)
Definition host : Host :=
  {| elementId := fun _ => EmptyString;
     listenerThrows := fun l _ => Nat.odd l;
     callbackThrows := fun cb _ => Nat.leb 90 cb;
     userHookThrows := fun h _ => Nat.leb 90 h |}.

Definition browser : RegisterEnv := mkRegisterEnv true false false true.

Definition plain (el : ForesightElement) : ForesightRegisterOptions :=
  mkRegisterOptions el el None None None.

Definition noRects : ForesightElement -> Rect := fun _ => mkRect 0 0 0 0.

Definition start : Manager := @newManager constants.

Definition exec : Manager -> list Action -> Manager := @run helpers constants host.

End Sample.

(** * Notions used in the statements *)

(** A predicate on effects that looks at none of the bookkeeping: the
    publications, the listener calls and their logged failures, the hook,
    the cancelled timers. *)
Definition bookkeepingFree (p : Effect -> bool) : Prop :=
  (forall ev, p (Emitted ev) = false)
  /\ (forall l ev, p (Delivered l ev) = false)
  /\ (forall l ty, p (ConsoleError l ty) = false)
  /\ (forall h el, p (AnyCallbackFired h el) = false)
  /\ (forall id, p (ClearTimeout id) = false).

(** [el] occurs in [l]. *)
Definition among (el : ForesightElement) (l : list ForesightElement) : bool :=
  existsb (Nat.eqb el) l.

(** The [n] most recent entries of a history kept oldest first. *)
Definition mostRecent {A : Type} (n : Z) (history : list A) : list A :=
  skipn (length history - Z.to_nat n) history.

(** ** Fields the registry machinery never writes

    [emit], [unregister], [removeGlobalListeners] and [callCallback] assign
    the registry, the counters, the listener bookkeeping and the trace.  A
    projection of the manager that is blind to those assignments is a
    bystander of all four. *)

Class Bystander {A : Type} (proj : Manager -> A) : Prop := {
  by_elements : forall s v, proj (set_elements s v) = proj s;
  by_isSetup : forall s v, proj (set_isSetup s v) = proj s;
  by_globalCallbackHits : forall s v, proj (set_globalCallbackHits s v) = proj s;
  by_domObserver : forall s v, proj (set_domObserver s v) = proj s;
  by_positionObserver : forall s v, proj (set_positionObserver s v) = proj s;
  by_globalListenersController :
    forall s v, proj (set_globalListenersController s v) = proj s;
  by_documentListeners : forall s v, proj (set_documentListeners s v) = proj s;
  by_nextController : forall s v, proj (set_nextController s v) = proj s;
  by_trace : forall s v, proj (set_trace s v) = proj s
}.

(** ** The settings update, field by field *)

Definition numericChange (g : ForesightManagerSettings) (newValue : option Z)
    (k : NumericSettingKeys) : bool :=
  shouldUpdateSetting Z.eqb newValue (getNumeric g k).

Definition numericUpdate (g : ForesightManagerSettings) (newValue : option Z)
    (k : NumericSettingKeys) (min max : Z) : ForesightManagerSettings :=
  match newValue with
  | Some v => if numericChange g newValue k
              then setNumeric g k (clampNumber v min max k) else g
  | None => g
  end.

Definition booleanChange (g : ForesightManagerSettings) (newValue : option bool)
    (k : ManagerBooleanSettingKeys) : bool :=
  shouldUpdateSetting Bool.eqb newValue (getBoolean g k).

Definition booleanUpdate (g : ForesightManagerSettings) (newValue : option bool)
    (k : ManagerBooleanSettingKeys) : ForesightManagerSettings :=
  match newValue with
  | Some v => if booleanChange g newValue k then setBoolean g k v else g
  | None => g
  end.

Definition numericKey_eqb (k k' : NumericSettingKeys) : bool :=
  match k, k' with
  | K_positionHistorySize, K_positionHistorySize
  | K_trajectoryPredictionTime, K_trajectoryPredictionTime
  | K_scrollMargin, K_scrollMargin
  | K_tabOffset, K_tabOffset => true
  | _, _ => false
  end.

(** ** The listeners on the document *)

Definition mousemoveListener : DocListener :=
  mkDocListener mousemove handleMouseMoveRef None.

Definition keydownListener (c : AbortController) : DocListener :=
  mkDocListener keydown handleKeyDownRef (Some c).

Definition focusinListener (c : AbortController) : DocListener :=
  mkDocListener focusin handleFocusInRef (Some c).

(** While set up, the manager holds a controller and the document has the
    three listeners, the last two bound to the controller's signal; while
    not set up, it holds no controller and the document has at most the
    mousemove listener.  An empty registry is never set up. *)
Definition listenersFollowSetup (s : Manager) : Prop :=
  (elements s = [] -> isSetup s = false)
  /\ match isSetup s, globalListenersController s with
     | true, Some c =>
         documentListeners s = [mousemoveListener; keydownListener c; focusinListener c]
     | false, None =>
         documentListeners s = [] \/ documentListeners s = [mousemoveListener]
     | _, _ => False
     end.

(** The listeners follow the setup, and the mousemove listener is on the
    document. *)
Definition mousemoveAttached (s : Manager) : Prop :=
  listenersFollowSetup s
  /\ attached mousemove handleMouseMoveRef (documentListeners s) = true.

(** Every numeric value that is given lies in the range of its setting. *)
Definition givenInRange `{Constants} (props : UpdateForsightManagerSettings) : Prop :=
  forall k v, p_numeric props k = Some v -> minOf k <= v <= maxOf k.

Definition p_boolean (props : UpdateForsightManagerSettings)
    (k : ManagerBooleanSettingKeys) : option bool :=
  match k with
  | K_enableMousePrediction => p_enableMousePrediction props
  | K_enableScrollPrediction => p_enableScrollPrediction props
  | K_enableTabPrediction => p_enableTabPrediction props
  end.

(** The settings hold everything [props] gives: a second application has
    nothing to change. *)
Definition settled `{Helpers} (g : ForesightManagerSettings)
    (props : UpdateForsightManagerSettings) : Prop :=
  (forall k v, p_numeric props k = Some v -> getNumeric g k = v)
  /\ (forall k v, p_boolean props k = Some v -> getBoolean g k = v)
  /\ (forall h, p_onAnyCallbackFired props = Some h -> onAnyCallbackFired g = h)
  /\ (forall hs, p_defaultHitSlop props = Some hs ->
                 defaultHitSlop g = normalizeHitSlop hs).

Section Notions.

Context {helpers : Helpers} {constants : Constants} {host : Host}.

(** ** Properties that survive the handlers

    A property of the manager is stable when the primitive moves of the
    handlers keep it: publishing an event, unregistering, firing a stored
    record, overwriting a stored record, filling an empty slot of the
    scroll cache with a freshly computed value, and assigning the scratch
    fields of the keyboard handlers.  Every handler built from these moves
    then keeps it too.  Firing a record may be left by an exception of the
    callback or of the hook; a property can be asked to survive that as
    well, or only the firings that return. *)

(** [callCallback] up to the call of the callback: the counters are
    raised and the invocation is on record. *)
Definition counted (s : Manager) (d : ForesightElementData) (h : HitType) : Manager :=
  let s1 := snd (updateHitCounters s d h) in
  set_trace s1 (CallbackInvoked (callback d) (element d) :: trace s1).

(** [callCallback] up to the call of the hook. *)
Definition hooked (s : Manager) (d : ForesightElementData) : Manager :=
  set_trace s
    (AnyCallbackFired (onAnyCallbackFired (globalSettings s)) (element d) :: trace s).

(** An outcome counts for a property that is to hold however the handlers
    are left ([always]); for a property of the handlers that return, only
    a return counts. *)
Definition counts (always : bool) (r : Outcome) : Prop :=
  always = true \/ returns r.

(** The moves of the handlers that store no record and do not touch the
    scroll cache. *)
Class Firm (always : bool) (P : Manager -> Prop) : Prop := {
  firm_emit : forall s ev, P s -> P (emit s ev);
  firm_unregister : forall s el r, P s -> P (unregister s el r);
  firm_callCallback :
    forall s d h,
      Registry.has (element d) (elements s) = true ->
      P s ->
      counts always (callCallback s (Some d) h) ->
      P (state (callCallback s (Some d) h));
  firm_tabbableElementsCache : forall s v, P s -> P (set_tabbableElementsCache s v);
  firm_lastFocusedIndex : forall s v, P s -> P (set_lastFocusedIndex s v);
  firm_lastKeyDown : forall s v, P s -> P (set_lastKeyDown s v);
  firm_eventListeners : forall s v, P s -> P (set_eventListeners s v)
}.

Class Stable (always : bool) (P : Manager -> Prop) : Prop := {
  stable_firm : Firm always P;
  stable_store :
    forall s d,
      Registry.has (element d) (elements s) = true ->
      P s -> P (set_elements s (Registry.set d (elements s)));
  stable_direction :
    forall s oldRect newRect direction,
      scrollDirection s = None ->
      P s ->
      P (set_scrollDirection
           (set_trace s (ScrollDirectionComputed oldRect newRect :: trace s))
           (Some direction));
  stable_point :
    forall s current direction margin predicted,
      predictedScrollPoint s = None ->
      P s ->
      P (set_predictedScrollPoint
           (set_trace s (ScrollPointComputed current direction margin :: trace s))
           (Some predicted))
}.

(** The end of a batch empties the scroll cache. *)
Definition survivesReset (P : Manager -> Prop) : Prop :=
  forall s, P s -> P (set_predictedScrollPoint (set_scrollDirection s None) None).

(** A property that does not look at the settings or at the pointer
    state. *)
Definition configBlind (P : Manager -> Prop) : Prop :=
  forall s g t, P s -> P (set_trajectoryPositions (set_globalSettings s g) t).

(** [alterGlobalSettings] in stages: the settings after the numeric and
    boolean updates and the hook, whether the default hit slop changes,
    the settings it leaves behind, whether anything counted as a change,
    and the history it leaves behind. *)
Definition settingsBeforeHitSlop (g : ForesightManagerSettings)
    (props : UpdateForsightManagerSettings) : ForesightManagerSettings :=
  let g := numericUpdate g (p_positionHistorySize props) K_positionHistorySize
             MIN_POSITION_HISTORY_SIZE MAX_POSITION_HISTORY_SIZE in
  let g := numericUpdate g (p_trajectoryPredictionTime props) K_trajectoryPredictionTime
             MIN_TRAJECTORY_PREDICTION_TIME MAX_TRAJECTORY_PREDICTION_TIME in
  let g := numericUpdate g (p_scrollMargin props) K_scrollMargin
             MIN_SCROLL_MARGIN MAX_SCROLL_MARGIN in
  let g := numericUpdate g (p_tabOffset props) K_tabOffset
             MIN_TAB_OFFSET MAX_TAB_OFFSET in
  let g := booleanUpdate g (p_enableMousePrediction props) K_enableMousePrediction in
  let g := booleanUpdate g (p_enableScrollPrediction props) K_enableScrollPrediction in
  let g := booleanUpdate g (p_enableTabPrediction props) K_enableTabPrediction in
  match p_onAnyCallbackFired props with
  | Some h => set_onAnyCallbackFired g h
  | None => g
  end.

Definition hitSlopChange (g : ForesightManagerSettings)
    (props : UpdateForsightManagerSettings) : bool :=
  match p_defaultHitSlop props with
  | Some hs =>
      negb (areRectsEqual (defaultHitSlop (settingsBeforeHitSlop g props))
              (normalizeHitSlop hs))
  | None => false
  end.

Definition alteredSettings (g : ForesightManagerSettings)
    (props : UpdateForsightManagerSettings) : ForesightManagerSettings :=
  match p_defaultHitSlop props with
  | Some hs =>
      if hitSlopChange g props
      then set_defaultHitSlop (settingsBeforeHitSlop g props) (normalizeHitSlop hs)
      else settingsBeforeHitSlop g props
  | None => settingsBeforeHitSlop g props
  end.

Definition anyChange (g : ForesightManagerSettings)
    (props : UpdateForsightManagerSettings) : bool :=
  let g1 := numericUpdate g (p_positionHistorySize props) K_positionHistorySize
              MIN_POSITION_HISTORY_SIZE MAX_POSITION_HISTORY_SIZE in
  let g2 := numericUpdate g1 (p_trajectoryPredictionTime props)
              K_trajectoryPredictionTime
              MIN_TRAJECTORY_PREDICTION_TIME MAX_TRAJECTORY_PREDICTION_TIME in
  let g3 := numericUpdate g2 (p_scrollMargin props) K_scrollMargin
              MIN_SCROLL_MARGIN MAX_SCROLL_MARGIN in
  let g4 := numericUpdate g3 (p_tabOffset props) K_tabOffset
              MIN_TAB_OFFSET MAX_TAB_OFFSET in
  let g5 := booleanUpdate g4 (p_enableMousePrediction props) K_enableMousePrediction in
  let g6 := booleanUpdate g5 (p_enableScrollPrediction props) K_enableScrollPrediction in
  numericChange g (p_positionHistorySize props) K_positionHistorySize
  || numericChange g1 (p_trajectoryPredictionTime props) K_trajectoryPredictionTime
  || numericChange g3 (p_tabOffset props) K_tabOffset
  || booleanChange g4 (p_enableMousePrediction props) K_enableMousePrediction
  || booleanChange g6 (p_enableTabPrediction props) K_enableTabPrediction
  || booleanChange g5 (p_enableScrollPrediction props) K_enableScrollPrediction
  || hitSlopChange g props
  || numericChange g2 (p_scrollMargin props) K_scrollMargin.

Definition alteredHistory (g : ForesightManagerSettings)
    (props : UpdateForsightManagerSettings) (t : TrajectoryPositions)
  : TrajectoryPositions :=
  let g1 := numericUpdate g (p_positionHistorySize props) K_positionHistorySize
              MIN_POSITION_HISTORY_SIZE MAX_POSITION_HISTORY_SIZE in
  if numericChange g (p_positionHistorySize props) K_positionHistorySize
     && (positionHistorySize g1 <? positionHistorySize g)
  then
    if positionHistorySize g1 <? Z.of_nat (length (positions t))
    then mkTrajectoryPositions
           (slice (Z.of_nat (length (positions t)) - positionHistorySize g1)
              (positions t))
           (currentPoint t) (predictedPoint t)
    else t
  else t.

(** Every numeric setting lies in its documented range. *)
Definition settingsInRange (s : Manager) : Prop :=
  forall k, minOf k <= getNumeric (globalSettings s) k <= maxOf k.

(** The bound of the range of [k] that is nearest to an out-of-range [v]. *)
Definition nearestBound (k : NumericSettingKeys) (v : Z) : Z :=
  if v <? minOf k then minOf k else maxOf k.

(** The length of the position history, and its bound. *)
Definition historyLength (s : Manager) : Z :=
  Z.of_nat (length (positions (trajectoryPositions s))).

Definition historyBounded (s : Manager) : Prop :=
  historyLength s <= positionHistorySize (globalSettings s).

(** How often a batch called [getScrollDirection] and
    [predictNextScrollPosition]. *)
Definition directionComputations (s : Manager) : nat :=
  countEffects isScrollDirectionComputed (trace s).

Definition pointComputations (s : Manager) : nat :=
  countEffects isScrollPointComputed (trace s).

(** The computations made so far, plus the one an empty slot still
    allows. *)
Definition directionBudget (s : Manager) : nat :=
  (directionComputations s
   + match scrollDirection s with Some _ => 0 | None => 1 end)%nat.

Definition pointBudget (s : Manager) : nat :=
  (pointComputations s
   + match predictedScrollPoint s with Some _ => 0 | None => 1 end)%nat.



(** The hit test [handleCallbackInteraction] applies to a rectangle: the
    pointer inside it when mouse prediction is off, the segment from the
    pointer to the predicted point meeting it when it is on. *)
Definition mouseHit (s : Manager) (rect : Rect) : bool :=
  if negb (enableMousePrediction (globalSettings s))
  then isPointInRectangle (currentPoint (trajectoryPositions s)) rect
  else lineSegmentIntersectsRect (currentPoint (trajectoryPositions s))
         (predictedPoint (trajectoryPositions s)) rect.

(** Whether a mouse move fires [el]: it is registered, marked as
    intersecting the viewport, and its expanded rectangle is hit. *)
Definition mouseFires (s : Manager) (el : ForesightElement) : bool :=
  match Registry.get el (elements s) with
  | Some d => isIntersectingWithViewport d && mouseHit s (expandedRect (elementBounds d))
  | None => false
  end.

(** The body of the loop of [handleMouseMove]. *)
Definition mouseBody (acc : Manager) (currentData : ForesightElementData) : Outcome :=
  if negb (isIntersectingWithViewport currentData) then (Normal, acc)
  else handleCallbackInteraction acc currentData.

(** One turn of that loop: the record is read when its turn comes. *)
Definition mouseTurn (acc : Manager) (k : ForesightElement) : Outcome :=
  match Registry.get k (elements acc) with
  | Some d => mouseBody acc d
  | None => (Normal, acc)
  end.

(** The handler of the action returns. *)
Definition returnsAt (s : Manager) (a : Action) : Prop := returns (dispatch s a).

(** No callback and no hook of the consumer ever throws. *)
Definition neverThrows : Prop :=
  (forall cb tr, callbackThrows cb tr = false)
  /\ (forall id tr, userHookThrows id tr = false).

(** The action is not a position batch that is left by an exception. *)
Definition batchReturns (s : Manager) (a : Action) : Prop :=
  match a with
  | PositionsChanged _ => returnsAt s a
  | _ => True
  end.

(** A condition on every step of a run: on the state the step starts
    from, and on its action. *)
Fixpoint alongRun (Q : Manager -> Action -> Prop) (s : Manager) (actions : list Action)
  : Prop :=
  match actions with
  | [] => True
  | a :: rest => Q s a /\ alongRun Q (step s a) rest
  end.

(** The bounds a record is registered with: it counts as intersecting
    the viewport, there is no original rectangle, and the expanded
    rectangle is the zero rectangle. *)
Definition hasInitialBounds (d : ForesightElementData) : Prop :=
  isIntersectingWithViewport d = true
  /\ originalRect (elementBounds d) = None
  /\ expandedRect (elementBounds d) = mkRect 0 0 0 0.

(** The element is registered with its initial bounds, or not at all. *)
Definition initialOrGone (el : ForesightElement) (s : Manager) : Prop :=
  match Registry.get el (elements s) with
  | Some d => hasInitialBounds d
  | None => True
  end.

(** The action does not read the bounds of [el] afresh: it is neither a
    position batch with an entry for [el] nor a settings update that
    changes the default hit slop. *)
Definition keepsBounds (el : ForesightElement) (s : Manager) (a : Action) : Prop :=
  match a with
  | PositionsChanged entries =>
      forallb (fun entry => negb (Nat.eqb (target entry) el)) entries = true
  | CallAlterGlobalSettings props _ => hitSlopChange (globalSettings s) props = false
  | _ => True
  end.

(** How often [managerSettingsChanged] was published. *)
Definition settingsChanges (s : Manager) : nat :=
  countEffects isSettingsChanged (trace s).

End Notions.

#[export] Existing Instance stable_firm.

(** ** The manager at work on the sample page *)

Module Scenario.

Import Sample.

Definition tabKey : KeyboardEvent := mkKeyboardEvent "Tab" false.

(** One element registered in a browser. *)
Definition registered : Manager := exec start [CallRegister (plain 16%nat) browser].


(** The registry filled and emptied again. *)
Definition emptied : Manager :=
  exec start [CallRegister (plain 1%nat) browser; CallUnregister 1%nat].



(** Three pointer positions recorded. *)
Definition threeMoves : Manager :=
  exec start
    [ CallRegister (plain 16%nat) browser;
      MouseMoved (mkMouseEvent 50 50 1); MouseMoved (mkMouseEvent 60 50 2);
      MouseMoved (mkMouseEvent 70 50 3) ].

(** Nine tab stops; elements 16 and 17, at indices 6 and 7, are
    registered; a Tab key was pressed. *)
Definition tabStops : list ForesightElement :=
  [10; 11; 12; 13; 14; 15; 16; 17; 18]%nat.

Definition beforeFocus : Manager :=
  exec start
    [CallRegister (plain 16%nat) browser; CallRegister (plain 17%nat) browser;
     KeyPressed tabKey].

(** Two elements whose rectangles moved up by five pixels. *)
Definition scrolling : Manager :=
  exec start
    [CallRegister (plain 16%nat) browser; CallRegister (plain 17%nat) browser;
     PositionsChanged [mkEntry 16%nat true (mkRect 100 0 10 110);
                       mkEntry 17%nat true (mkRect 200 0 10 210)]].


(** Three listeners of [elementRegistered]; the one numbered 1 throws. *)
Definition listening : Manager :=
  exec start
    [CallAddEventListener T_elementRegistered 0%nat None;
     CallAddEventListener T_elementRegistered 1%nat None;
     CallAddEventListener T_elementRegistered 2%nat None].

Definition registration : ForesightEvent :=
  elementRegistered
    (mkElementData 16%nat 16%nat noHits
       (mkElementBounds None (mkRect 0 0 0 0) (mkRect 0 0 0 0)) false
       (mkTrajectoryHitData false 0 None) EmptyString true).

End Scenario.

(** ** Further notions *)

(** Any callback invocation. *)
Definition isCallbackInvoked (e : Effect) : bool :=
  match e with
  | CallbackInvoked _ _ => true
  | _ => false
  end.

(** How many callbacks the manager has invoked. *)
Definition invocations (s : Manager) : nat :=
  countEffects isCallbackInvoked (trace s).

(** The global [total] counter is the number of invocations. *)
Definition totalCountsInvocations (s : Manager) : Prop :=
  total (globalCallbackHits s) = Z.of_nat (invocations s).

(** The elements handed to [positionObserver.observe] and not yet to
    [unobserve]. *)
Definition observes (s : Manager) (el : ForesightElement) : bool :=
  match positionObserver s with
  | Some observed => among el observed
  | None => false
  end.

(** The registry has no two records for one element. *)
Definition oneRecordPerElement (s : Manager) : Prop :=
  NoDup (Registry.keys (elements s)).

(** The action is one a page in a browser can make: a registration finds
    [window] and [document]. *)
Definition inBrowser (a : Action) : bool :=
  match a with
  | CallRegister _ env => hasWindowAndDocument env
  | _ => true
  end.

(** The manager is set up exactly while an element is registered, both
    observers exist exactly while it is set up, and the position observer
    observes the registered elements. *)
Definition observersFollowRegistry (s : Manager) : Prop :=
  isSetup s = negb (Nat.eqb (length (elements s)) 0)
  /\ domObserver s = isSetup s
  /\ match positionObserver s with
     | Some _ => isSetup s = true
     | None => isSetup s = false
     end
  /\ forall el, observes s el = Registry.has el (elements s).

(** The record [register] stores for [opts]: the counters at zero, no
    original rectangle, the zero rectangle as expanded rectangle, the
    default hit slop when none (or the number zero) is given, and the
    element taken to be in the viewport. *)
Definition freshRecord `{Helpers} `{Host} (s : Manager) (opts : ForesightRegisterOptions)
  : ForesightElementData :=
  mkElementData (o_element opts) (o_callback opts) noHits
    (mkElementBounds None (mkRect 0 0 0 0)
       match o_hitSlop opts with
       | None | Some (SlopNumber 0) => defaultHitSlop (globalSettings s)
       | Some hs => normalizeHitSlop hs
       end)
    false (mkTrajectoryHitData false 0 None)
    match o_name opts with
    | Some n => n
    | None => elementId (o_element opts)
    end
    true.

(** A field that, besides the registry machinery, the settings, the
    pointer state, the keyboard scratch fields and the subscriptions leave
    alone. *)
Class Offstage {A : Type} (proj : Manager -> A) : Prop := {
  off_globalSettings : forall s v, proj (set_globalSettings s v) = proj s;
  off_trajectoryPositions : forall s v, proj (set_trajectoryPositions s v) = proj s;
  off_tabbableElementsCache :
    forall s v, proj (set_tabbableElementsCache s v) = proj s;
  off_lastFocusedIndex : forall s v, proj (set_lastFocusedIndex s v) = proj s;
  off_lastKeyDown : forall s v, proj (set_lastKeyDown s v) = proj s;
  off_eventListeners : forall s v, proj (set_eventListeners s v) = proj s
}.

(** What [forceUpdateElementBounds] leaves of a record: the bounding
    rectangle is read afresh and expanded by the record's own hit slop;
    the record is rewritten when that gives another expanded rectangle
    than the stored one. *)
Definition refreshed `{Helpers} (getBoundingClientRect : ForesightElement -> Rect)
    (d : ForesightElementData) : ForesightElementData :=
  let expanded :=
    getExpandedRect (getBoundingClientRect (element d)) (hitSlop (elementBounds d)) in
  if negb (areRectsEqual expanded (expandedRect (elementBounds d)))
  then set_elementBounds d
         (mkElementBounds (Some (getBoundingClientRect (element d))) expanded
            (hitSlop (elementBounds d)))
  else d.

(** [forceUpdateAllElementBounds] on one record: only the records marked
    as intersecting the viewport are refreshed. *)
Definition refreshedIfVisible `{Helpers} (getBoundingClientRect : ForesightElement -> Rect)
    (d : ForesightElementData) : ForesightElementData :=
  if isIntersectingWithViewport d then refreshed getBoundingClientRect d else d.

(** The record [updateElementBounds] stores for [d] and the rectangle an
    observer entry reports. *)
Definition withBounds `{Helpers} (newRect : Rect) (d : ForesightElementData)
  : ForesightElementData :=
  set_elementBounds d
    (mkElementBounds (Some newRect)
       (getExpandedRect newRect (hitSlop (elementBounds d)))
       (hitSlop (elementBounds d))).

(** The action is one of a page rendered on a server: a registration finds
    no [window] or no [document]. *)
Definition onServer (a : Action) : bool :=
  match a with
  | CallRegister _ env => negb (hasWindowAndDocument env)
  | _ => true
  end.

(** The action is an event delivered by the browser. *)
Definition fromBrowser (a : Action) : bool :=
  match a with
  | MouseMoved _ | KeyPressed _ | FocusMoved _ _ | DomMutated _ _
  | PositionsChanged _ => true
  | _ => false
  end.

(** Nothing of the global machinery exists. *)
Definition notSetUp (s : Manager) : Prop :=
  isSetup s = false
  /\ globalListenersController s = None
  /\ documentListeners s = []
  /\ domObserver s = false
  /\ positionObserver s = None.

(** The hit test a position update applies to a record, against the
    expanded rectangle the record had before the update.  With scroll
    prediction on: the record has an original rectangle, the scroll
    direction (the cached one, else the one computed from the original and
    the new rectangle) is not [none], and the segment from the pointer to
    the predicted scroll point (the cached one, else the one computed for
    that direction) meets the rectangle.  With scroll prediction off: the
    pointer is inside the rectangle. *)
Definition positionHit `{Helpers} (s : Manager) (d : ForesightElementData)
    (newRect : Rect) : bool :=
  if enableScrollPrediction (globalSettings s) then
    match originalRect (elementBounds d) with
    | None => false
    | Some original =>
        let direction :=
          match scrollDirection s with
          | Some direction => direction
          | None => getScrollDirection original newRect
          end in
        match direction with
        | ScrollNone => false
        | _ =>
            lineSegmentIntersectsRect (currentPoint (trajectoryPositions s))
              match predictedScrollPoint s with
              | Some predicted => predicted
              | None =>
                  predictNextScrollPosition (currentPoint (trajectoryPositions s))
                    direction (scrollMargin (globalSettings s))
              end
              (expandedRect (elementBounds d))
        end
    end
  else isPointInRectangle (currentPoint (trajectoryPositions s))
         (expandedRect (elementBounds d)).

(** The settings object that gives the hook and nothing else. *)
Definition hookProps (h : Hook) : UpdateForsightManagerSettings :=
  mkProps None None None None None None None None None (Some h).

(** A mutation record that makes [handleDomMutations] look for
    disconnected elements. *)
Definition reportsRemoval (mutation : MutationRecord) : bool :=
  match mutationType mutation, removedNodes mutation with
  | childList, S _ => true
  | _, _ => false
  end.

(** ** More of the manager at work on the sample page *)

Module Tour.

Import Sample.

(** A page rendered on a server: no [window], no [document]. *)
Definition server : RegisterEnv := mkRegisterEnv true false false false.

(** An element registered, a callback fired by a tab onto it. *)
Definition afterTab : Manager :=
  exec start
    [CallRegister (plain 16%nat) browser; KeyPressed Scenario.tabKey;
     FocusMoved (Some 16%nat) [16%nat]].

(** Two elements registered, the first one unregistered again. *)
Definition twoThenOne : list Action :=
  [CallRegister (plain 16%nat) browser; CallRegister (plain 17%nat) browser;
   CallUnregister 16%nat].

(** Registrations and events on the server. *)
Definition serverSide : list Action :=
  [CallRegister (plain 16%nat) server; CallRegister (plain 17%nat) server;
   CallUnregister 16%nat; CallRegister (plain 16%nat) server].

(** Element 16 reported outside the viewport. *)
Definition hidden : PositionObserverEntry := mkEntry 16%nat false (mkRect 0 0 10 10).

(** A tab offset inside its range. *)
Definition tabOffsetFive : UpdateForsightManagerSettings :=
  numericProps K_tabOffset 5.

End Tour.

(** ** Callbacks that throw, and other turns of events on the sample page *)

Module Faults.

Import Sample.


(** Nine tab stops; the elements at indices 6 and 7 are registered, and
    the callback of the one at index 6 throws; a Tab key was pressed. *)
Definition tabStops : list ForesightElement :=
  [10; 11; 12; 13; 14; 15; 90; 17; 18]%nat.

Definition beforeFocus : Manager :=
  exec start
    [CallRegister (plain 90%nat) browser; CallRegister (plain 17%nat) browser;
     KeyPressed Scenario.tabKey].

(** The default hit slop set to ten pixels, where every element is the
    square from 100 to 110. *)
Definition tenPixels : UpdateForsightManagerSettings :=
  mkProps None None None None None None (Some (SlopNumber 10)) None None None.

Definition squareAt100 : ForesightElement -> Rect := fun _ => mkRect 100 100 110 110.

Definition slopChanged : Manager :=
  exec start
    [CallRegister (plain 16%nat) browser; CallAlterGlobalSettings tenPixels squareAt100].

(** Element 90, with the callback that throws, after its first position
    update; the batch that follows reports it five pixels further up. *)
Definition throwerInPlace : Manager :=
  exec start
    [CallRegister (plain 90%nat) browser;
     PositionsChanged [mkEntry 90%nat true (mkRect 100 0 10 110)]].

Definition scrollOverThrower : list PositionObserverEntry :=
  [mkEntry 90%nat true (mkRect 95 0 10 105)].

(** What may happen between a registration and the first position
    update of the element: the pointer moves elsewhere, a setting other
    than the default hit slop changes, another element is reported by the
    position observer. *)
Definition meanwhile : list Action :=
  [ MouseMoved (mkMouseEvent 40 40 1);
    CallAlterGlobalSettings Tour.tabOffsetFive noRects;
    PositionsChanged [mkEntry 17%nat true (mkRect 0 0 10 10)] ].


(** Two elements registered, and a position batch for both. *)
Definition scrolled : list Action :=
  [CallRegister (plain 16%nat) browser; CallRegister (plain 17%nat) browser;
   PositionsChanged [mkEntry 16%nat true (mkRect 100 0 10 110);
                     mkEntry 17%nat true (mkRect 200 0 10 210)]].

End Faults.

(** * Properties *)

(** ** The registry *)

Module RegistryFacts.
Import Registry.

Lemma get_element el m d : get el m = Some d -> element d = el.
Proof.
  unfold get. intros Hf. apply find_some in Hf. destruct Hf as [_ Hf].
  now apply Nat.eqb_eq in Hf.
Qed.

Lemma get_delete_same el m : get el (delete el m) = None.
Proof.
  unfold get, delete. induction m as [|r m IH]; simpl; [reflexivity|].
  destruct (Nat.eqb (element r) el) eqn:E; simpl; [exact IH|].
  now rewrite E.
Qed.

Lemma get_delete_other el el' m : el <> el' -> get el (delete el' m) = get el m.
Proof.
  intros Hne. unfold get, delete. induction m as [|r m IH]; simpl; [reflexivity|].
  destruct (Nat.eqb (element r) el') eqn:E; simpl.
  - apply Nat.eqb_eq in E.
    destruct (Nat.eqb (element r) el) eqn:E'; [|exact IH].
    apply Nat.eqb_eq in E'. congruence.
  - destruct (Nat.eqb (element r) el); [reflexivity | exact IH].
Qed.

Lemma delete_absent el m : get el m = None -> delete el m = m.
Proof.
  unfold get, delete. induction m as [|r m IH]; simpl; [reflexivity|].
  destruct (Nat.eqb (element r) el); simpl; [discriminate|].
  intros Hn. now rewrite IH.
Qed.

Lemma get_set_same d m : get (element d) (set d m) = Some d.
Proof.
  unfold get. induction m as [|r m IH]; simpl.
  - now rewrite Nat.eqb_refl.
  - destruct (Nat.eqb (element r) (element d)) eqn:E; simpl.
    + now rewrite Nat.eqb_refl.
    + now rewrite E.
Qed.

Lemma get_set_other el d m : el <> element d -> get el (set d m) = get el m.
Proof.
  intros Hne. unfold get. induction m as [|r m IH]; simpl.
  - destruct (Nat.eqb (element d) el) eqn:E; [|reflexivity].
    apply Nat.eqb_eq in E. congruence.
  - destruct (Nat.eqb (element r) (element d)) eqn:E; simpl.
    + apply Nat.eqb_eq in E.
      destruct (Nat.eqb (element d) el) eqn:E1.
      * apply Nat.eqb_eq in E1. congruence.
      * rewrite E. now rewrite E1.
    + destruct (Nat.eqb (element r) el); [reflexivity | exact IH].
Qed.

Lemma set_not_nil d m : set d m <> [].
Proof. destruct m as [|r m]; simpl; [discriminate|]. now destruct (Nat.eqb _ _). Qed.

Lemma get_mutate el el' f m :
  (forall d, element (f d) = element d) ->
  get el (mutate el' f m)
  = if Nat.eqb el el' then option_map f (get el m) else get el m.
Proof.
  intros Hf. unfold get, mutate. induction m as [|r m IH]; simpl.
  - now destruct (Nat.eqb el el').
  - destruct (Nat.eqb (element r) el') eqn:E1.
    + rewrite Hf. destruct (Nat.eqb (element r) el) eqn:E2.
      * apply Nat.eqb_eq in E1, E2. subst. now rewrite Nat.eqb_refl.
      * exact IH.
    + destruct (Nat.eqb (element r) el) eqn:E2; [|exact IH].
      apply Nat.eqb_eq in E2. subst. now rewrite E1.
Qed.

Lemma mutate_nil el f m : mutate el f m = [] <-> m = [].
Proof. destruct m; simpl; split; intros; congruence. Qed.

Lemma has_true el m : has el m = true <-> exists d, get el m = Some d.
Proof.
  unfold has. destruct (get el m) as [d|]; split; intros Hx.
  - now exists d.
  - reflexivity.
  - discriminate.
  - destruct Hx as [? Hx]; discriminate.
Qed.

Lemma has_delete el el' m :
  has el (delete el' m) = has el m && negb (Nat.eqb el el').
Proof.
  unfold has. destruct (Nat.eqb el el') eqn:E.
  - apply Nat.eqb_eq in E. subst. rewrite get_delete_same. now rewrite andb_false_r.
  - apply Nat.eqb_neq in E. rewrite get_delete_other by assumption.
    now rewrite andb_true_r.
Qed.

Lemma has_mutate el el' f m :
  (forall d, element (f d) = element d) ->
  has el (mutate el' f m) = has el m.
Proof.
  intros Hf. unfold has. rewrite get_mutate by assumption.
  destruct (Nat.eqb el el'); [|reflexivity]. now destruct (get el m).
Qed.

Lemma has_set el d m :
  has el (set d m) = Nat.eqb el (element d) || has el m.
Proof.
  unfold has. destruct (Nat.eqb el (element d)) eqn:E.
  - apply Nat.eqb_eq in E. subst. now rewrite get_set_same.
  - apply Nat.eqb_neq in E. now rewrite get_set_other.
Qed.

End RegistryFacts.

(** ** Counting in the trace *)

Lemma countEffects_app p tr1 tr2 :
  countEffects p (tr1 ++ tr2) = (countEffects p tr1 + countEffects p tr2)%nat.
Proof. unfold countEffects. now rewrite filter_app, length_app. Qed.

Lemma countEffects_cons p e tr :
  countEffects p (e :: tr) = ((if p e then 1 else 0) + countEffects p tr)%nat.
Proof. unfold countEffects. simpl. now destruct (p e). Qed.

Lemma isCallbackOf_free el : bookkeepingFree (isCallbackOf el).
Proof. repeat split. Qed.

Lemma isScrollDirectionComputed_free : bookkeepingFree isScrollDirectionComputed.
Proof. repeat split. Qed.

Lemma isScrollPointComputed_free : bookkeepingFree isScrollPointComputed.
Proof. repeat split. Qed.

Section Dispatch.

Context {host : Host}.

Lemma emitEff_spec ls ev tr :
  emitEff ls ev tr = (Normal, deliveryLog ls ev ++ tr).
Proof.
  revert tr. unfold emitEff, deliveryLog.
  induction ls as [|l ls IH]; intros tr; [reflexivity|].
  cbn [forEachEff flat_map]. unfold andThen at 1.
  rewrite rev_app_distr, <- app_assoc.
  unfold tryCatch, callListener, consoleError.
  destruct (listenerThrows l ev); rewrite IH; reflexivity.
Qed.

Lemma emit_eq s ev :
  emit s ev
  = set_trace s (deliveryLog (eventListeners s (eventType ev)) ev
                 ++ Emitted ev :: trace s).
Proof. unfold emit. now rewrite emitEff_spec. Qed.

Lemma deliveredListeners_log ls ev : deliveredListeners (deliveryLog ls ev) = ls.
Proof.
  unfold deliveredListeners, deliveryLog.
  induction ls as [|l ls IH]; [reflexivity|].
  cbn [flat_map]. rewrite rev_app_distr, flat_map_app, rev_app_distr, IH.
  now destruct (listenerThrows l ev).
Qed.

Lemma loggedErrors_log ls ev :
  loggedErrors (deliveryLog ls ev) = filter (fun l => listenerThrows l ev) ls.
Proof.
  unfold loggedErrors, deliveryLog.
  induction ls as [|l ls IH]; [reflexivity|].
  cbn [flat_map filter]. rewrite rev_app_distr, flat_map_app, rev_app_distr, IH.
  now destruct (listenerThrows l ev).
Qed.

Lemma countEffects_log p ls ev :
  bookkeepingFree p -> countEffects p (deliveryLog ls ev) = 0%nat.
Proof.
  intros (_ & Hd & He & _). unfold deliveryLog, countEffects.
  induction ls as [|l ls IH]; [reflexivity|].
  cbn [flat_map]. rewrite rev_app_distr, filter_app, length_app, IH.
  destruct (listenerThrows l ev); simpl; now rewrite ?Hd, ?He.
Qed.

End Dispatch.

(** ** Bystanders *)

Ltac bystander := constructor; intros; reflexivity.

#[export] Instance globalSettings_bystander : Bystander globalSettings.
Proof. bystander. Qed.
#[export] Instance trajectoryPositions_bystander : Bystander trajectoryPositions.
Proof. bystander. Qed.
#[export] Instance scrollDirection_bystander : Bystander scrollDirection.
Proof. bystander. Qed.
#[export] Instance predictedScrollPoint_bystander : Bystander predictedScrollPoint.
Proof. bystander. Qed.
#[export] Instance tabbableElementsCache_bystander : Bystander tabbableElementsCache.
Proof. bystander. Qed.
#[export] Instance lastFocusedIndex_bystander : Bystander lastFocusedIndex.
Proof. bystander. Qed.
#[export] Instance lastKeyDown_bystander : Bystander lastKeyDown.
Proof. bystander. Qed.
#[export] Instance eventListeners_bystander : Bystander eventListeners.
Proof. bystander. Qed.

Ltac by_setters :=
  repeat first
    [ rewrite by_elements | rewrite by_isSetup | rewrite by_globalCallbackHits
    | rewrite by_domObserver | rewrite by_positionObserver
    | rewrite by_globalListenersController | rewrite by_documentListeners
    | rewrite by_nextController | rewrite by_trace ].

Section Bystanders.

Context {helpers : Helpers} {constants : Constants} {host : Host}.
Context {A : Type} (proj : Manager -> A) {bystander : Bystander proj}.

Lemma emit_bystander s ev : proj (emit s ev) = proj s.
Proof. unfold emit. now by_setters. Qed.

Lemma removeGlobalListeners_bystander s : proj (removeGlobalListeners s) = proj s.
Proof.
  unfold removeGlobalListeners. by_setters.
  destruct (globalListenersController (set_isSetup s false)); now by_setters.
Qed.

Lemma initializeGlobalListeners_bystander s b :
  proj (initializeGlobalListeners s b) = proj s.
Proof.
  unfold initializeGlobalListeners.
  destruct (isSetup s); [reflexivity|]. destruct (negb b); [reflexivity|].
  now by_setters.
Qed.

Lemma unregister_bystander s el r : proj (unregister s el r) = proj s.
Proof.
  unfold unregister. destruct (Registry.get el (elements s)) as [d|]; [|reflexivity].
  match goal with |- proj (if ?c then _ else _) = _ => destruct c end;
    rewrite ?removeGlobalListeners_bystander; by_setters;
    destruct (trajectoryHitExpirationTimeoutId (trajectoryHitData d)) as [[|id]|];
    by_setters; apply emit_bystander.
Qed.

(** However [callCallback] is left. *)
Lemma callCallback_bystander s d h : proj (state (callCallback s d h)) = proj s.
Proof.
  unfold callCallback. destruct d as [d|]; [|reflexivity].
  unfold updateHitCounters. cbv zeta.
  destruct (callbackThrows _ _); [cbn [state snd]; now by_setters|].
  destruct (hookThrows _ _); cbn [state snd]; [now by_setters|].
  rewrite unregister_bystander, emit_bystander. now by_setters.
Qed.

Lemma register_bystander s opts env : proj (fst (register s opts env)) = proj s.
Proof.
  unfold register. destruct (negb (shouldRegister env)); [reflexivity|].
  cbn [fst]. rewrite emit_bystander. by_setters.
  destruct (negb (isSetup s)); [apply initializeGlobalListeners_bystander | reflexivity].
Qed.

End Bystanders.

(** ** Leaving a method *)

Lemma returned_true r : returned r = true <-> returns r.
Proof.
  unfold returned, returns. destruct (fst r); split; intros H;
    solve [reflexivity | discriminate H].
Qed.

Lemma returned_of_returns r : returns r -> returned r = true.
Proof. apply returned_true. Qed.

Lemma counts_always r : counts true r.
Proof. now left. Qed.

Lemma counts_returned always s : counts always (Normal, s).
Proof. now right. Qed.

Lemma counts_andThenDo always r k :
  counts always (andThenDo r k) ->
  counts always r /\ forall s, r = (Normal, s) -> counts always (k s).
Proof.
  destruct r as [[|e] s']; cbn [andThenDo]; intros Hc; split.
  - apply counts_returned.
  - intros s [= <-]. exact Hc.
  - exact Hc.
  - intros s [=].
Qed.

Lemma returns_andThenDo r k :
  returns (andThenDo r k) <-> exists s, r = (Normal, s) /\ returns (k s).
Proof.
  destruct r as [[|e] s']; cbn [andThenDo]; split.
  - intros Hr. now exists s'.
  - intros [s [[= <-] Hr]]. exact Hr.
  - intros [=].
  - intros [s [[=] _]].
Qed.

(** A loop keeps what its body keeps. *)
Lemma forEachOrThrow_kept {A : Type} always (P : Manager -> Prop)
    (body : Manager -> A -> Outcome) l :
  (forall acc a, P acc -> counts always (body acc a) -> P (state (body acc a))) ->
  forall s,
    P s -> counts always (forEachOrThrow body l s) ->
    P (state (forEachOrThrow body l s)).
Proof.
  intros Hbody. induction l as [|a l IH]; intros s HP Hc; cbn [forEachOrThrow] in *;
    [exact HP|].
  pose proof (Hbody s a HP) as Ha.
  destruct (body s a) as [[|e] s'] eqn:E; cbn [andThenDo] in *.
  - apply IH; [|exact Hc]. apply Ha, counts_returned.
  - now apply Ha.
Qed.

(** A loop that returns has run its body on every entry, and every run
    of the body has returned. *)
Lemma forEachOrThrow_returns {A : Type} (body : Manager -> A -> Outcome) l s :
  returns (forEachOrThrow body l s) ->
  forEachOrThrow body l s
  = (Normal, fold_left (fun acc a => state (body acc a)) l s).
Proof.
  revert s. induction l as [|a l IH]; intros s Hr; cbn [forEachOrThrow fold_left] in *;
    [reflexivity|].
  destruct (body s a) as [[|e] s'] eqn:E; cbn [andThenDo state snd] in *;
    [now apply IH | discriminate Hr].
Qed.

(** ** The three ways out of [callCallback] *)

Section WaysOut.

Context {helpers : Helpers} {constants : Constants} {host : Host}.

Lemma callCallback_eq s d h :
  callCallback s (Some d) h
  = let s1 := counted s d h in
    if callbackThrows (callback d) (trace s1) then (Throw (element d), s1)
    else
      let s2 := hooked s1 d in
      if hookThrows (onAnyCallbackFired (globalSettings s)) (trace s2)
      then (Throw (element d), s2)
      else
        (Normal,
         unregister (emit s2 (callbackFired (fst (updateHitCounters s d h)) h))
           (element d) callbackHit).
Proof. reflexivity. Qed.

(** A property kept by each move of [callCallback] is kept by
    [callCallback], however it is left. *)
Lemma callCallback_kept (P : Manager -> Prop) s d h :
  (forall s0 ev, P s0 -> P (emit s0 ev)) ->
  (forall s0 el r, P s0 -> P (unregister s0 el r)) ->
  P (counted s d h) ->
  (forall s0, P s0 -> P (hooked s0 d)) ->
  P (state (callCallback s (Some d) h)).
Proof.
  intros Hemit Hunregister Hcounted Hhooked. rewrite callCallback_eq. cbv zeta.
  destruct (callbackThrows _ _); [exact Hcounted|].
  destruct (hookThrows _ _); cbn [state snd]; [now apply Hhooked|].
  now apply Hunregister, Hemit, Hhooked.
Qed.

(** Stability from the moves. *)
Lemma stable_by_moves always (P : Manager -> Prop) :
  (forall s ev, P s -> P (emit s ev)) ->
  (forall s el r, P s -> P (unregister s el r)) ->
  (forall s d h,
      Registry.has (element d) (elements s) = true -> P s -> P (counted s d h)) ->
  (forall s d, P s -> P (hooked s d)) ->
  (forall s d,
      Registry.has (element d) (elements s) = true ->
      P s -> P (set_elements s (Registry.set d (elements s)))) ->
  (forall s oldRect newRect direction,
      scrollDirection s = None ->
      P s ->
      P (set_scrollDirection
           (set_trace s (ScrollDirectionComputed oldRect newRect :: trace s))
           (Some direction))) ->
  (forall s current direction margin predicted,
      predictedScrollPoint s = None ->
      P s ->
      P (set_predictedScrollPoint
           (set_trace s (ScrollPointComputed current direction margin :: trace s))
           (Some predicted))) ->
  (forall s v, P s -> P (set_tabbableElementsCache s v)) ->
  (forall s v, P s -> P (set_lastFocusedIndex s v)) ->
  (forall s v, P s -> P (set_lastKeyDown s v)) ->
  (forall s v, P s -> P (set_eventListeners s v)) ->
  Stable always P.
Proof.
  intros Hemit Hunregister Hcounted Hhooked Hstore Hdirection Hpoint H1 H2 H3 H4.
  constructor; [constructor|..]; try assumption.
  intros s d h Hhas HP _. apply callCallback_kept; auto.
Qed.

End WaysOut.

(** ** Stability of the handlers *)

Lemma has_of_get el m d : Registry.get el m = Some d -> Registry.has (element d) m = true.
Proof.
  intros Hg. rewrite (RegistryFacts.get_element _ _ _ Hg).
  unfold Registry.has. now rewrite Hg.
Qed.

Section Firmness.

Context {helpers : Helpers} {constants : Constants} {host : Host}.

Context (always : bool) (P : Manager -> Prop) {firm : Firm always P}.

Lemma firm_callCallback_get s el h :
  P s ->
  counts always (callCallback s (Registry.get el (elements s)) h) ->
  P (state (callCallback s (Registry.get el (elements s)) h)).
Proof.
  intros HP. destruct (Registry.get el (elements s)) as [d|] eqn:Hg; [|intros _; exact HP].
  apply firm_callCallback; [now apply has_of_get with el | exact HP].
Qed.

Lemma firm_handleCallbackInteraction s d :
  Registry.has (element d) (elements s) = true ->
  P s ->
  counts always (handleCallbackInteraction s d) ->
  P (state (handleCallbackInteraction s d)).
Proof.
  intros Hh HP. unfold handleCallbackInteraction.
  destruct (negb (enableMousePrediction (globalSettings s)));
    match goal with |- context [if ?c then _ else _] => destruct c end;
    try (intros _; exact HP); now apply firm_callCallback.
Qed.

Lemma firm_forEachElementOrThrow body s :
  (forall acc d,
      Registry.has (element d) (elements acc) = true ->
      P acc -> counts always (body acc d) -> P (state (body acc d))) ->
  P s ->
  counts always (forEachElementOrThrow body s) ->
  P (state (forEachElementOrThrow body s)).
Proof.
  intros Hbody. unfold forEachElementOrThrow.
  apply forEachOrThrow_kept. intros acc el HP.
  destruct (Registry.get el (elements acc)) as [d|] eqn:Hg; [|intros _; exact HP].
  apply Hbody; [now apply has_of_get with el | exact HP].
Qed.

Lemma firm_mouseLoop s :
  P s ->
  counts always (forEachElementOrThrow mouseBody s) ->
  P (state (forEachElementOrThrow mouseBody s)).
Proof.
  apply firm_forEachElementOrThrow. intros acc d Hh HP. unfold mouseBody.
  destruct (negb (isIntersectingWithViewport d)); [intros _; exact HP|].
  now apply firm_handleCallbackInteraction.
Qed.

(** [handleMouseMove] keeps what its first step, [updatePointerState],
    establishes. *)
Lemma firm_handleMouseMove s e :
  P (updatePointerState s e) ->
  counts always (handleMouseMove s e) ->
  P (state (handleMouseMove s e)).
Proof.
  intros HP. unfold handleMouseMove. fold mouseBody. intros Hc.
  apply counts_andThenDo in Hc. destruct Hc as [Hloop _].
  pose proof (firm_mouseLoop _ HP Hloop) as H1.
  destruct (forEachElementOrThrow mouseBody (updatePointerState s e)) as [[|thrower] s1];
    cbn [andThenDo state snd] in *; [now apply firm_emit | exact H1].
Qed.

Lemma firm_handleKeyDown s e : P s -> P (handleKeyDown s e).
Proof.
  intros HP. unfold handleKeyDown.
  destruct (String.eqb (key e) "Tab"); [now apply firm_lastKeyDown | exact HP].
Qed.

Lemma firm_fireAll (l : list ForesightElement) h s :
  P s ->
  counts always
    (forEachOrThrow (fun acc el => callCallback acc (Registry.get el (elements acc)) h)
       l s) ->
  P (state
       (forEachOrThrow (fun acc el => callCallback acc (Registry.get el (elements acc)) h)
          l s)).
Proof.
  apply forEachOrThrow_kept. intros acc el. apply firm_callCallback_get.
Qed.

Lemma firm_handleFocusIn s focusTarget tabbableNow :
  P s ->
  counts always (handleFocusIn s focusTarget tabbableNow) ->
  P (state (handleFocusIn s focusTarget tabbableNow)).
Proof.
  intros HP. unfold handleFocusIn.
  destruct (lastKeyDown s) as [lastKey|]; [|intros _; exact HP].
  destruct (negb (enableTabPrediction (globalSettings s))); [intros _; exact HP|].
  destruct focusTarget as [targetElement|]; [|intros _; exact HP].
  apply firm_fireAll. apply firm_lastKeyDown, firm_lastFocusedIndex.
  destruct (tabbableElementsCache s); [now apply firm_tabbableElementsCache | exact HP].
Qed.

Lemma firm_unregisterAll (l : list ForesightElement) (skip : ForesightElement -> bool) r s :
  P s ->
  P (fold_left (fun acc el => if skip el then unregister acc el r else acc) l s).
Proof.
  revert s. induction l as [|el l IH]; intros s HP; simpl; [exact HP|].
  apply IH. destruct (skip el); [now apply firm_unregister | exact HP].
Qed.

Lemma firm_handleDomMutations s mutationsList isConnected :
  P s -> P (handleDomMutations s mutationsList isConnected).
Proof.
  intros HP. unfold handleDomMutations.
  match goal with |- P (fold_left _ _ ?s0) => assert (H0 : P s0) end.
  { destruct mutationsList; [exact HP|].
    now apply firm_lastFocusedIndex, firm_tabbableElementsCache. }
  revert H0. generalize mutationsList at 2 as l.
  match goal with |- forall l, P ?s0 -> _ => generalize s0 end.
  intros s0 l. revert s0.
  induction l as [|m l IH]; intros s0 H0; simpl; [exact H0|].
  apply IH. destruct (mutationType m); try exact H0.
  destruct (removedNodes m); [exact H0|].
  now apply (firm_unregisterAll _ (fun el => negb (isConnected el))).
Qed.

Lemma firm_addEventListener s ty l aborted : P s -> P (addEventListener s ty l aborted).
Proof.
  intros HP. unfold addEventListener.
  destruct aborted as [[|]|]; try exact HP; now apply firm_eventListeners.
Qed.

Lemma firm_removeEventListener s ty l : P s -> P (removeEventListener s ty l).
Proof. intros HP. now apply firm_eventListeners. Qed.

End Firmness.

Section Stability.

Context {helpers : Helpers} {constants : Constants} {host : Host}.

Context (always : bool) (P : Manager -> Prop) {stable : Stable always P}.

Lemma stable_forEachElement body s :
  (forall acc d,
      Registry.has (element d) (elements acc) = true -> P acc -> P (body acc d)) ->
  P s -> P (forEachElement body s).
Proof.
  intros Hbody. unfold forEachElement.
  generalize (Registry.keys (elements s)) as l. intros l. revert s.
  induction l as [|el l IH]; intros s HP; simpl; [exact HP|].
  apply IH. destruct (Registry.get el (elements s)) as [d|] eqn:Hg; [|exact HP].
  apply Hbody; [now apply has_of_get with el | exact HP].
Qed.

Lemma stable_updateElementBounds s newRect d :
  Registry.has (element d) (elements s) = true ->
  P s -> P (updateElementBounds s newRect d).
Proof.
  intros Hh HP. unfold updateElementBounds.
  apply firm_emit. now apply stable_store.
Qed.

Lemma stable_forceUpdateElementBounds s d rects :
  Registry.has (element d) (elements s) = true ->
  P s -> P (forceUpdateElementBounds s d rects).
Proof.
  intros Hh HP. unfold forceUpdateElementBounds.
  match goal with |- P (if ?c then _ else _) => destruct c end; [|exact HP].
  apply firm_emit. now apply stable_store.
Qed.

Lemma stable_forceUpdateAllElementBounds s rects :
  P s -> P (forceUpdateAllElementBounds s rects).
Proof.
  apply stable_forEachElement. intros acc d Hh HP.
  destruct (isIntersectingWithViewport d); [|exact HP].
  now apply stable_forceUpdateElementBounds.
Qed.

(** The tail of [handleScrollPrefetch]: the hit test, and the
    publication when the callback returns. *)
Lemma stable_scrollFire s d h (hit : bool) (ev : Manager -> ForesightEvent) :
  Registry.has (element d) (elements s) = true ->
  P s ->
  counts always
    (let! s1 := if hit then callCallback s (Some d) h else (Normal, s) in
     (Normal, emit s1 (ev s1))) ->
  P (state
       (let! s1 := if hit then callCallback s (Some d) h else (Normal, s) in
        (Normal, emit s1 (ev s1)))).
Proof.
  intros Hh HP Hc. apply counts_andThenDo in Hc. destruct Hc as [Hfire _].
  destruct hit.
  - pose proof (firm_callCallback _ _ h Hh HP Hfire) as H1.
    destruct (callCallback s (Some d) h) as [[|thrower] s1];
      cbn [andThenDo state snd] in *; [now apply firm_emit | exact H1].
  - cbn [andThenDo state snd]. now apply firm_emit.
Qed.

Lemma stable_handleScrollPrefetch s d newRect :
  Registry.has (element d) (elements s) = true ->
  P s ->
  counts always (handleScrollPrefetch s d newRect) ->
  P (state (handleScrollPrefetch s d newRect)).
Proof.
  intros Hh HP. unfold handleScrollPrefetch.
  destruct (enableScrollPrediction (globalSettings s)).
  - destruct (originalRect (elementBounds d)) as [original|]; [|intros _; exact HP].
    destruct (scrollDirection s) as [direction|] eqn:Edir.
    + destruct direction; try (intros _; exact HP);
        (destruct (predictedScrollPoint s) eqn:Ept;
         apply stable_scrollFire; auto; now apply stable_point).
    + assert (H1 : P (set_scrollDirection
                        (set_trace s (ScrollDirectionComputed original newRect :: trace s))
                        (Some (getScrollDirection original newRect)))).
      { now apply stable_direction. }
      destruct (getScrollDirection original newRect); try (intros _; exact H1);
        match goal with
        | |- context [predictedScrollPoint ?s'] =>
            destruct (predictedScrollPoint s') eqn:Ept
        end;
        apply stable_scrollFire; auto; now apply stable_point.
  - match goal with |- context [if ?c then _ else _] => destruct c end;
      [|intros _; exact HP].
    now apply firm_callCallback.
Qed.

Lemma stable_handlePositionEntry s entry :
  P s ->
  counts always (handlePositionEntry s entry) ->
  P (state (handlePositionEntry s entry)).
Proof.
  intros HP. unfold handlePositionEntry.
  destruct (Registry.get (target entry) (elements s)) as [d|] eqn:Hg;
    [|intros _; exact HP].
  pose proof (has_of_get _ _ _ Hg) as Hh.
  set (d1 := set_isIntersectingWithViewport d (isIntersecting entry)).
  assert (H1 : P (set_elements s (Registry.set d1 (elements s)))).
  { now apply stable_store. }
  assert (Hh1 : Registry.has (element d1)
                  (elements (set_elements s (Registry.set d1 (elements s)))) = true).
  { cbn [elements set_elements]. rewrite RegistryFacts.has_set.
    now rewrite Nat.eqb_refl. }
  cbv zeta.
  match goal with
  | |- context [updateElementBounds ?s1 _ _] =>
      assert (H2 : P s1 /\ Registry.has (element d1) (elements s1) = true)
  end.
  { match goal with |- context [if ?c then _ else _] => destruct c end;
      split; auto. now apply firm_emit. }
  destruct H2 as [H2 Hh2].
  destruct (isIntersecting entry); [|intros _; exact H2].
  apply stable_handleScrollPrefetch.
  - unfold updateElementBounds. cbn [elements set_elements emit set_trace].
    rewrite RegistryFacts.has_set. cbn. now rewrite Nat.eqb_refl.
  - now apply stable_updateElementBounds.
Qed.

Lemma stable_positionEntries s entries :
  P s ->
  counts always (forEachOrThrow handlePositionEntry entries s) ->
  P (state (forEachOrThrow handlePositionEntry entries s)).
Proof.
  apply forEachOrThrow_kept. intros acc entry. apply stable_handlePositionEntry.
Qed.

(** The reset is reached only when the loop returns. *)
Lemma stable_handlePositionChange s entries :
  survivesReset P ->
  P s ->
  counts always (handlePositionChange s entries) ->
  P (state (handlePositionChange s entries)).
Proof.
  intros Hreset HP. unfold handlePositionChange. intros Hc.
  apply counts_andThenDo in Hc. destruct Hc as [Hloop _].
  pose proof (stable_positionEntries _ _ HP Hloop) as H1.
  destruct (forEachOrThrow handlePositionEntry entries s) as [[|thrower] s1];
    cbn [andThenDo state snd] in *; [now apply Hreset | exact H1].
Qed.

End Stability.

(** ** Reachable states *)

Section Reachability.

Context {helpers : Helpers} {constants : Constants} {host : Host}.

Lemma reachable_new : reachable newManager.
Proof. now exists []. Qed.

Lemma reachable_step s a : reachable s -> reachable (step s a).
Proof.
  intros [actions ->]. exists (actions ++ [a]).
  unfold run. now rewrite fold_left_app.
Qed.

Lemma reachable_invariant (P : Manager -> Prop) :
  P newManager ->
  (forall s a, reachable s -> P s -> P (step s a)) ->
  forall s, reachable s -> P s.
Proof.
  intros Hnew Hstep s [actions ->].
  induction actions as [|a actions IH] using rev_ind; [exact Hnew|].
  unfold run. rewrite fold_left_app. cbn [fold_left].
  apply Hstep; [now exists actions | exact IH].
Qed.

(** A stable property is kept by a step as soon as the moves that are not
    built from the primitives keep it: registering, altering the settings,
    recording the pointer, and emptying the scroll cache. *)
Lemma stable_step (P : Manager -> Prop) {always : bool} {stable : Stable always P} s a :
  P s ->
  counts always (dispatch s a) ->
  (forall opts env, a = CallRegister opts env -> P (fst (register s opts env))) ->
  (forall props rects,
      a = CallAlterGlobalSettings props rects -> P (alterGlobalSettings s props rects)) ->
  (forall e, a = MouseMoved e -> P (updatePointerState s e)) ->
  survivesReset P ->
  P (step s a).
Proof.
  intros HP Hc Hreg Halter Hmouse Hreset. unfold step.
  destruct a; cbn [dispatch] in *; cbn [state snd].
  - now apply Hreg.
  - now apply firm_unregister.
  - now apply Halter.
  - now apply (firm_addEventListener always P).
  - now apply (firm_removeEventListener always P).
  - destruct (attached _ _ _); [|exact HP].
    apply (firm_handleMouseMove always P); [now apply Hmouse | exact Hc].
  - destruct (attached _ _ _); [|exact HP]. now apply (firm_handleKeyDown always P).
  - destruct (attached _ _ _); [|exact HP]. now apply (firm_handleFocusIn always P).
  - destruct (domObserver s); [|exact HP]. now apply (firm_handleDomMutations always P).
  - destruct (positionObserver s); [|exact HP].
    now apply (stable_handlePositionChange always P).
Qed.

(** The same for a property that is only firm, outside the position
    batches. *)
Lemma firm_step (P : Manager -> Prop) {always : bool} {firm : Firm always P} s a :
  P s ->
  counts always (dispatch s a) ->
  (forall opts env, a = CallRegister opts env -> P (fst (register s opts env))) ->
  (forall props rects,
      a = CallAlterGlobalSettings props rects -> P (alterGlobalSettings s props rects)) ->
  (forall e, a = MouseMoved e -> P (updatePointerState s e)) ->
  (forall entries, a = PositionsChanged entries -> P (step s a)) ->
  P (step s a).
Proof.
  intros HP Hc Hreg Halter Hmouse Hbatch.
  destruct a; try (now apply (Hbatch entries)); unfold step; cbn [dispatch] in *;
    cbn [state snd].
  - now apply Hreg.
  - now apply firm_unregister.
  - now apply Halter.
  - now apply (firm_addEventListener always P).
  - now apply (firm_removeEventListener always P).
  - destruct (attached _ _ _); [|exact HP].
    apply (firm_handleMouseMove always P); [now apply Hmouse | exact Hc].
  - destruct (attached _ _ _); [|exact HP]. now apply (firm_handleKeyDown always P).
  - destruct (attached _ _ _); [|exact HP]. now apply (firm_handleFocusIn always P).
  - destruct (domObserver s); [|exact HP]. now apply (firm_handleDomMutations always P).
Qed.

(** What every step keeps under a condition is kept by a run whose steps
    meet the condition. *)
Lemma alongRun_invariant (Q : Manager -> Action -> Prop) (P : Manager -> Prop) :
  (forall s a, P s -> Q s a -> P (step s a)) ->
  forall actions s, P s -> alongRun Q s actions -> P (run s actions).
Proof.
  intros Hstep. induction actions as [|a actions IH]; intros s HP Halong;
    [exact HP|].
  destruct Halong as [Ha Hrest].
  change (run s (a :: actions)) with (run (step s a) actions).
  apply IH; [now apply Hstep | exact Hrest].
Qed.

Lemma alongRun_weaken (Q Q' : Manager -> Action -> Prop) :
  (forall s a, Q s a -> Q' s a) ->
  forall actions s, alongRun Q s actions -> alongRun Q' s actions.
Proof.
  intros Hweak. induction actions as [|a actions IH]; intros s Halong; [exact I|].
  destruct Halong as [Ha Hrest]. split; [now apply Hweak | now apply IH].
Qed.

(** Whatever is said of the settings and the pointer state alone is
    stable, however the handlers are left. *)
Lemma stable_of_config always
    (Q : ForesightManagerSettings -> TrajectoryPositions -> Prop) :
  Stable always (fun s => Q (globalSettings s) (trajectoryPositions s)).
Proof.
  constructor; [constructor|..]; intros;
    rewrite ?(emit_bystander globalSettings), ?(emit_bystander trajectoryPositions),
      ?(unregister_bystander globalSettings), ?(unregister_bystander trajectoryPositions),
      ?(callCallback_bystander globalSettings),
      ?(callCallback_bystander trajectoryPositions);
    assumption.
Qed.

End Reachability.

(** ** Altering the settings *)

Lemma set_globalSettings_same s : set_globalSettings s (globalSettings s) = s.
Proof. now destruct s. Qed.

Lemma numericKey_eqb_eq k k' : numericKey_eqb k k' = true <-> k = k'.
Proof. destruct k, k'; simpl; split; congruence. Qed.

Lemma numericKey_eqb_refl k : numericKey_eqb k k = true.
Proof. now destruct k. Qed.

Lemma getNumeric_setNumeric g k k' v :
  getNumeric (setNumeric g k' v) k = if numericKey_eqb k k' then v else getNumeric g k.
Proof. destruct k, k'; reflexivity. Qed.

Lemma getNumeric_setBoolean g k k' v : getNumeric (setBoolean g k' v) k = getNumeric g k.
Proof. destruct k, k'; reflexivity. Qed.

Lemma getNumeric_numericUpdate g nv k k' lo hi :
  getNumeric (numericUpdate g nv k' lo hi) k
  = if numericKey_eqb k k'
    then match nv with
         | Some v => if v =? getNumeric g k then getNumeric g k
                     else clampNumber v lo hi k
         | None => getNumeric g k
         end
    else getNumeric g k.
Proof.
  unfold numericUpdate, numericChange, shouldUpdateSetting.
  destruct nv as [v|]; [|now destruct (numericKey_eqb k k')].
  destruct (numericKey_eqb k k') eqn:E.
  - apply numericKey_eqb_eq in E. subst k'.
    destruct (v =? getNumeric g k); cbn [negb]; [reflexivity|].
    rewrite getNumeric_setNumeric, numericKey_eqb_refl. now destruct k.
  - destruct (v =? getNumeric g k'); cbn [negb]; [reflexivity|].
    rewrite getNumeric_setNumeric. now rewrite E.
Qed.

Lemma getNumeric_booleanUpdate g nv k k' :
  getNumeric (booleanUpdate g nv k') k = getNumeric g k.
Proof.
  unfold booleanUpdate. destruct nv as [v|]; [|reflexivity].
  destruct (booleanChange g (Some v) k'); [apply getNumeric_setBoolean | reflexivity].
Qed.

Section Settings.

Context {helpers : Helpers} {constants : Constants} {host : Host}.

Lemma updateNumericSettings_eq s newValue k lo hi :
  updateNumericSettings s newValue k lo hi
  = (numericChange (globalSettings s) newValue k,
     set_globalSettings s (numericUpdate (globalSettings s) newValue k lo hi)).
Proof.
  unfold updateNumericSettings, numericUpdate, numericChange.
  destruct newValue as [v|]; cbn [shouldUpdateSetting negb].
  - destruct (negb (v =? getNumeric (globalSettings s) k)); cbn [negb];
      [reflexivity | now rewrite set_globalSettings_same].
  - now rewrite set_globalSettings_same.
Qed.

Lemma updateBooleanSetting_eq s newValue k :
  updateBooleanSetting s newValue k
  = (booleanChange (globalSettings s) newValue k,
     set_globalSettings s (booleanUpdate (globalSettings s) newValue k)).
Proof.
  unfold updateBooleanSetting, booleanUpdate, booleanChange.
  destruct newValue as [v|]; cbn [shouldUpdateSetting negb].
  - destruct (negb (Bool.eqb v (getBoolean (globalSettings s) k))); cbn [negb];
      [reflexivity | now rewrite set_globalSettings_same].
  - now rewrite set_globalSettings_same.
Qed.

Lemma set_trajectoryPositions_same s :
  set_trajectoryPositions s (trajectoryPositions s) = s.
Proof. now destruct s. Qed.

(** [alterGlobalSettings] assigns the settings and the history, recomputes
    the bounds when the default hit slop changed, and publishes when
    anything counted as a change. *)
Lemma alterGlobalSettings_stages s props rects :
  alterGlobalSettings s props rects
  = let g := globalSettings s in
    let s1 := set_trajectoryPositions (set_globalSettings s (alteredSettings g props))
                (alteredHistory g props (trajectoryPositions s)) in
    let s2 := if hitSlopChange g props
              then forceUpdateAllElementBounds s1 rects else s1 in
    if anyChange g props
    then emit s2 (managerSettingsChanged (globalSettings s2)) else s2.
Proof.
  unfold alterGlobalSettings.
  rewrite updateNumericSettings_eq. cbv beta iota zeta.
  unfold alteredHistory, anyChange, alteredSettings, hitSlopChange, settingsBeforeHitSlop.
  cbn [globalSettings set_globalSettings].
  set (g := globalSettings s).
  set (g1 := numericUpdate g (p_positionHistorySize props) K_positionHistorySize
               MIN_POSITION_HISTORY_SIZE MAX_POSITION_HISTORY_SIZE).
  set (c1 := numericChange g (p_positionHistorySize props) K_positionHistorySize).
  cbn [trajectoryPositions set_globalSettings].
  set (t := trajectoryPositions s).
  destruct (c1 && (positionHistorySize g1 <? positionHistorySize g)) eqn:Etrunc;
    [destruct (positionHistorySize g1 <? Z.of_nat (length (positions t))) eqn:Elen|].
  all: repeat (rewrite ?updateNumericSettings_eq, ?updateBooleanSetting_eq;
               cbv beta iota;
               cbn [globalSettings set_globalSettings set_trajectoryPositions]).
  all: destruct (p_onAnyCallbackFired props) as [h|];
    destruct (p_defaultHitSlop props) as [hs|];
    cbn [globalSettings set_globalSettings set_trajectoryPositions];
    try match goal with
        | |- context [negb (areRectsEqual ?a ?b)] => destruct (negb (areRectsEqual a b))
        end;
    cbv beta iota; cbn [globalSettings set_globalSettings set_trajectoryPositions];
    reflexivity.
Qed.

End Settings.

Section NumericSettings.

Context {helpers : Helpers} {constants : Constants} {host : Host}.

Lemma forceUpdateAllElementBounds_config s rects :
  globalSettings (forceUpdateAllElementBounds s rects) = globalSettings s
  /\ trajectoryPositions (forceUpdateAllElementBounds s rects) = trajectoryPositions s.
Proof.
  apply (stable_forceUpdateAllElementBounds true
           (fun s' => globalSettings s' = globalSettings s
                      /\ trajectoryPositions s' = trajectoryPositions s)
           (stable := stable_of_config true
                        (fun g t => g = globalSettings s /\ t = trajectoryPositions s))).
  now split.
Qed.

Lemma forceUpdateAllElementBounds_settings s rects :
  globalSettings (forceUpdateAllElementBounds s rects) = globalSettings s.
Proof. apply forceUpdateAllElementBounds_config. Qed.

Lemma forceUpdateAllElementBounds_pointer s rects :
  trajectoryPositions (forceUpdateAllElementBounds s rects) = trajectoryPositions s.
Proof. apply forceUpdateAllElementBounds_config. Qed.

Lemma alterGlobalSettings_settings s props rects :
  globalSettings (alterGlobalSettings s props rects)
  = alteredSettings (globalSettings s) props.
Proof.
  rewrite alterGlobalSettings_stages. cbv zeta.
  destruct (anyChange (globalSettings s) props);
    rewrite ?(emit_bystander globalSettings);
    destruct (hitSlopChange (globalSettings s) props);
    rewrite ?forceUpdateAllElementBounds_settings; reflexivity.
Qed.

Lemma alterGlobalSettings_history s props rects :
  trajectoryPositions (alterGlobalSettings s props rects)
  = alteredHistory (globalSettings s) props (trajectoryPositions s).
Proof.
  rewrite alterGlobalSettings_stages. cbv zeta.
  destruct (anyChange (globalSettings s) props);
    rewrite ?(emit_bystander trajectoryPositions);
    destruct (hitSlopChange (globalSettings s) props);
    rewrite ?forceUpdateAllElementBounds_pointer; reflexivity.
Qed.

Lemma getNumeric_settingsBeforeHitSlop g props k :
  getNumeric (settingsBeforeHitSlop g props) k
  = match p_numeric props k with
    | Some v => if v =? getNumeric g k then getNumeric g k
                else clampNumber v (minOf k) (maxOf k) k
    | None => getNumeric g k
    end.
Proof.
  unfold settingsBeforeHitSlop.
  assert (Hhook : forall g', getNumeric
                               match p_onAnyCallbackFired props with
                               | Some h => set_onAnyCallbackFired g' h
                               | None => g'
                               end k = getNumeric g' k).
  { intros g'. destruct (p_onAnyCallbackFired props); now destruct k. }
  rewrite Hhook, !getNumeric_booleanUpdate, !getNumeric_numericUpdate.
  destruct k; reflexivity.
Qed.

Lemma getNumeric_alteredSettings g props k :
  getNumeric (alteredSettings g props) k
  = match p_numeric props k with
    | Some v => if v =? getNumeric g k then getNumeric g k
                else clampNumber v (minOf k) (maxOf k) k
    | None => getNumeric g k
    end.
Proof.
  rewrite <- getNumeric_settingsBeforeHitSlop. unfold alteredSettings.
  destruct (p_defaultHitSlop props); [|reflexivity].
  destruct (hitSlopChange g props); [|reflexivity]. now destruct k.
Qed.

Lemma clampNumber_range v lo hi k : lo <= hi -> lo <= clampNumber v lo hi k <= hi.
Proof.
  intros Hle. unfold clampNumber.
  destruct (v <? lo) eqn:E1; [lia|]. destruct (hi <? v) eqn:E2; lia.
Qed.

Lemma settingsInRange_alter s props rects :
  coherent -> settingsInRange s -> settingsInRange (alterGlobalSettings s props rects).
Proof.
  intros Hco Hin k. rewrite alterGlobalSettings_settings, getNumeric_alteredSettings.
  specialize (Hin k). specialize (Hco k).
  destruct (p_numeric props k) as [v|]; [|exact Hin].
  destruct (v =? getNumeric (globalSettings s) k); [exact Hin|].
  apply clampNumber_range. lia.
Qed.

Lemma settingsInRange_stable : Stable true settingsInRange.
Proof. exact (stable_of_config true (fun g _ => forall k, minOf k <= getNumeric g k <= maxOf k)). Qed.

Lemma updatePointerState_settings s e :
  globalSettings (updatePointerState s e) = globalSettings s.
Proof.
  unfold updatePointerState. destruct (enableMousePrediction (globalSettings s)); reflexivity.
Qed.

Lemma settingsInRange_reachable s : coherent -> reachable s -> settingsInRange s.
Proof.
  intros Hco. revert s. apply reachable_invariant.
  - intros k. specialize (Hco k). now destruct k.
  - intros s a _ Hin. apply (stable_step settingsInRange (stable := settingsInRange_stable)); [exact Hin | apply counts_always |..].
    + intros opts env _ k. rewrite (register_bystander globalSettings). apply Hin.
    + intros props rects _. now apply settingsInRange_alter.
    + intros e _ k. rewrite updatePointerState_settings. apply Hin.
    + intros s' Hs'. exact Hs'.
Qed.

Lemma numericProps_given k v : p_numeric (numericProps k v) k = Some v.
Proof. now destruct k. Qed.

Lemma stored_after_out_of_range s k v props rects :
  coherent ->
  settingsInRange s ->
  p_numeric props k = Some v ->
  v < minOf k \/ maxOf k < v ->
  getNumeric (globalSettings (alterGlobalSettings s props rects)) k = nearestBound k v.
Proof.
  intros Hco Hin Hv Hout. specialize (Hin k).
  rewrite alterGlobalSettings_settings, getNumeric_alteredSettings, Hv.
  destruct (v =? getNumeric (globalSettings s) k) eqn:E; [lia|].
  specialize (Hco k). unfold nearestBound, clampNumber.
  destruct (v <? minOf k) eqn:E1; [lia|].
  destruct (maxOf k <? v) eqn:E2; lia.
Qed.

(** C3.  In every state the manager can reach, altering a numeric
    setting with a value outside its documented range stores the nearest
    bound of the range, never the value itself; the update is applied, not
    rejected. *)
Theorem out_of_range_value_is_clamped (s : Manager) (k : NumericSettingKeys) (v : Z)
    (props : UpdateForsightManagerSettings) (rects : ForesightElement -> Rect) :
  coherent ->
  reachable s ->
  p_numeric props k = Some v ->
  v < minOf k \/ maxOf k < v ->
  getNumeric (globalSettings (alterGlobalSettings s props rects)) k = nearestBound k v
  /\ getNumeric (globalSettings (alterGlobalSettings s props rects)) k <> v.
Proof.
  intros Hco Hre Hv Hout.
  pose proof (settingsInRange_reachable s Hco Hre) as Hin.
  rewrite (stored_after_out_of_range s k v props rects Hco Hin Hv Hout).
  split; [reflexivity|].
  specialize (Hco k). unfold nearestBound.
  destruct (v <? minOf k) eqn:E1; lia.
Qed.

End NumericSettings.

(** ** The position history *)

Section History.

Context {helpers : Helpers} {constants : Constants} {host : Host}.

Lemma pushPosition_length current history size :
  Z.of_nat (length history) <= size ->
  Z.of_nat (length (pushPosition current history size)) <= size.
Proof.
  intros Hle. unfold pushPosition.
  destruct (size <? Z.of_nat (length (history ++ [current]))) eqn:E.
  - destruct history as [|p history]; simpl in *; [lia|].
    rewrite length_app. simpl. lia.
  - lia.
Qed.

Lemma historyBounded_pointer s e : historyBounded s -> historyBounded (updatePointerState s e).
Proof.
  unfold historyBounded, historyLength. intros Hb.
  rewrite updatePointerState_settings. unfold updatePointerState.
  destruct (enableMousePrediction (globalSettings s)); [|exact Hb].
  cbn. now apply pushPosition_length.
Qed.

Lemma positionHistorySize_altered g props :
  positionHistorySize (alteredSettings g props)
  = positionHistorySize
      (numericUpdate g (p_positionHistorySize props) K_positionHistorySize
         MIN_POSITION_HISTORY_SIZE MAX_POSITION_HISTORY_SIZE).
Proof.
  change (getNumeric (alteredSettings g props) K_positionHistorySize
          = getNumeric
              (numericUpdate g (p_positionHistorySize props) K_positionHistorySize
                 MIN_POSITION_HISTORY_SIZE MAX_POSITION_HISTORY_SIZE)
              K_positionHistorySize).
  now rewrite getNumeric_alteredSettings, getNumeric_numericUpdate.
Qed.

Lemma numericUpdate_unchanged g nv k lo hi :
  numericChange g nv k = false -> numericUpdate g nv k lo hi = g.
Proof. unfold numericUpdate. intros ->. now destruct nv. Qed.

Lemma slice_mostRecent {A : Type} (n : Z) (l : list A) :
  0 <= n -> n < Z.of_nat (length l) ->
  slice (Z.of_nat (length l) - n) l = mostRecent n l.
Proof.
  intros H0 Hlt. unfold slice, mostRecent.
  destruct (Z.of_nat (length l) - n <? 0) eqn:E; [lia|].
  f_equal. lia.
Qed.

Lemma mostRecent_all {A : Type} (n : Z) (l : list A) :
  Z.of_nat (length l) <= n -> mostRecent n l = l.
Proof.
  intros Hle. unfold mostRecent.
  replace (length l - Z.to_nat n)%nat with 0%nat by lia. reflexivity.
Qed.

Lemma mostRecent_length {A : Type} (n : Z) (l : list A) :
  0 <= n -> Z.of_nat (length (mostRecent n l)) <= n.
Proof. intros H0. unfold mostRecent. rewrite length_skipn. lia. Qed.

(** What [alterGlobalSettings] leaves of the history, given a size that
    is not negative. *)
Lemma alteredHistory_positions g props t :
  0 <= positionHistorySize (alteredSettings g props) ->
  Z.of_nat (length (positions t)) <= positionHistorySize g ->
  positions (alteredHistory g props t)
  = mostRecent (positionHistorySize (alteredSettings g props)) (positions t).
Proof.
  rewrite positionHistorySize_altered. intros H0 Hb. unfold alteredHistory.
  destruct (numericChange g (p_positionHistorySize props) K_positionHistorySize) eqn:Ec.
  - cbn [andb].
    match goal with |- context [if ?a <? ?b then _ else _] => destruct (a <? b) eqn:Elt end.
    + match goal with
      | |- context [if ?a <? ?b then _ else _] => destruct (a <? b) eqn:Elen
      end.
      * cbn [positions]. apply slice_mostRecent; lia.
      * symmetry. apply mostRecent_all. lia.
    + symmetry. apply mostRecent_all. lia.
  - cbn [andb]. rewrite numericUpdate_unchanged by assumption.
    symmetry. now apply mostRecent_all.
Qed.

Lemma historyBounded_alter s props rects :
  coherent -> 0 <= MIN_POSITION_HISTORY_SIZE -> settingsInRange s ->
  historyBounded s -> historyBounded (alterGlobalSettings s props rects).
Proof.
  intros Hco Hmin Hin Hb. unfold historyBounded, historyLength in *.
  pose proof (settingsInRange_alter s props rects Hco Hin K_positionHistorySize) as Hin'.
  cbn [getNumeric minOf maxOf] in Hin'.
  rewrite alterGlobalSettings_history.
  rewrite alterGlobalSettings_settings in *.
  rewrite alteredHistory_positions by lia.
  apply mostRecent_length. lia.
Qed.

Lemma historyBounded_stable : Stable true historyBounded.
Proof.
  exact (stable_of_config true
           (fun g t => Z.of_nat (length (positions t)) <= positionHistorySize g)).
Qed.

Lemma historyBounded_reachable s :
  coherent -> 0 <= MIN_POSITION_HISTORY_SIZE -> reachable s -> historyBounded s.
Proof.
  intros Hco Hmin. revert s. apply reachable_invariant.
  - unfold historyBounded, historyLength. cbn.
    specialize (Hco K_positionHistorySize). cbn in Hco. lia.
  - intros s a Hre Hb.
    apply (stable_step historyBounded (stable := historyBounded_stable)); [exact Hb | apply counts_always |..].
    + intros opts env _. unfold historyBounded, historyLength.
      now rewrite (register_bystander globalSettings),
        (register_bystander trajectoryPositions).
    + intros props rects _. apply historyBounded_alter; auto.
      now apply settingsInRange_reachable.
    + intros e _. now apply historyBounded_pointer.
    + intros s' Hs'. exact Hs'.
Qed.

(** C6.  In every state the manager can reach, the position history is
    no longer than the configured [positionHistorySize]; and a settings
    update that lowers [positionHistorySize] leaves exactly the most
    recent positions that fit the new size. *)
Theorem history_fits_configured_size (s : Manager) :
  coherent ->
  0 <= MIN_POSITION_HISTORY_SIZE ->
  reachable s ->
  historyLength s <= positionHistorySize (globalSettings s)
  /\ forall props rects,
      let s' := alterGlobalSettings s props rects in
      positionHistorySize (globalSettings s') < positionHistorySize (globalSettings s) ->
      positions (trajectoryPositions s')
      = mostRecent (positionHistorySize (globalSettings s'))
          (positions (trajectoryPositions s))
      /\ historyLength s' <= positionHistorySize (globalSettings s').
Proof.
  intros Hco Hmin Hre.
  pose proof (historyBounded_reachable s Hco Hmin Hre) as Hb.
  split; [exact Hb|]. intros props rects s' Hlt.
  pose proof (settingsInRange_reachable s Hco Hre) as Hin.
  pose proof (settingsInRange_alter s props rects Hco Hin K_positionHistorySize) as Hin'.
  cbn [getNumeric minOf maxOf] in Hin'.
  split.
  - subst s'. rewrite alterGlobalSettings_history, alterGlobalSettings_settings in *.
    apply alteredHistory_positions; [lia | exact Hb].
  - now apply historyBounded_alter.
Qed.

End History.

(** ** What the primitives add to the trace *)

Section TraceOfPrimitives.

Context {helpers : Helpers} {constants : Constants} {host : Host}.
Context (p : Effect -> bool) (free : bookkeepingFree p).

Lemma count_emit s ev :
  countEffects p (trace (emit s ev)) = countEffects p (trace s).
Proof.
  rewrite emit_eq. cbn [trace set_trace].
  rewrite countEffects_app, countEffects_log, countEffects_cons by assumption.
  destruct free as (He & _). now rewrite He.
Qed.

Lemma count_removeGlobalListeners s :
  countEffects p (trace (removeGlobalListeners s)) = countEffects p (trace s).
Proof.
  unfold removeGlobalListeners. cbn.
  now destruct (globalListenersController s).
Qed.

Lemma count_unregister s el r :
  countEffects p (trace (unregister s el r)) = countEffects p (trace s).
Proof.
  unfold unregister. destruct (Registry.get el (elements s)) as [d|]; [|reflexivity].
  assert (Hclear :
            countEffects p
              (trace
                 match trajectoryHitExpirationTimeoutId (trajectoryHitData d) with
                 | Some (S id) =>
                     set_trace (emit s (elementUnregistered d r))
                       (ClearTimeout (S id) :: trace (emit s (elementUnregistered d r)))
                 | _ => emit s (elementUnregistered d r)
                 end)
            = countEffects p (trace s)).
  { destruct (trajectoryHitExpirationTimeoutId (trajectoryHitData d)) as [[|id]|];
      cbn [trace set_trace]; rewrite ?countEffects_cons, count_emit; try reflexivity.
    destruct free as (_ & _ & _ & _ & Hc). now rewrite Hc. }
  match goal with |- context [if ?c then _ else _] => destruct c end;
    rewrite ?count_removeGlobalListeners; exact Hclear.
Qed.

(** However [callCallback] is left: the invocation is recorded before
    the callback runs. *)
Lemma count_callCallback s d h :
  countEffects p (trace (state (callCallback s (Some d) h)))
  = ((if p (CallbackInvoked (callback d) (element d)) then 1 else 0)
     + countEffects p (trace s))%nat.
Proof.
  unfold callCallback, updateHitCounters. cbv zeta.
  destruct free as (_ & _ & _ & Hh & _).
  destruct (callbackThrows _ _);
    [|destruct (hookThrows _ _)]; cbn [state snd];
    rewrite ?count_unregister, ?count_emit;
    cbn [trace set_trace callback element set_callbackHits];
    rewrite !countEffects_cons, ?Hh; reflexivity.
Qed.

End TraceOfPrimitives.

(** ** The scroll cache within a batch *)

Section ScrollCache.

Context {helpers : Helpers} {constants : Constants} {host : Host}.

Lemma directionBudget_stable n : Stable true (fun s => (directionBudget s <= n)%nat).
Proof.
  unfold directionBudget, directionComputations.
  constructor; [constructor|..]; intros; try assumption.
  - now rewrite count_emit, (emit_bystander scrollDirection)
      by apply isScrollDirectionComputed_free.
  - now rewrite count_unregister, (unregister_bystander scrollDirection)
      by apply isScrollDirectionComputed_free.
  - now rewrite count_callCallback, (callCallback_bystander scrollDirection)
      by apply isScrollDirectionComputed_free.
  - cbn [trace set_trace set_scrollDirection scrollDirection].
    rewrite countEffects_cons. cbn [isScrollDirectionComputed].
    match goal with H : scrollDirection _ = None |- _ => rewrite H in * end. lia.
Qed.

Lemma pointBudget_stable n : Stable true (fun s => (pointBudget s <= n)%nat).
Proof.
  unfold pointBudget, pointComputations.
  constructor; [constructor|..]; intros; try assumption.
  - now rewrite count_emit, (emit_bystander predictedScrollPoint)
      by apply isScrollPointComputed_free.
  - now rewrite count_unregister, (unregister_bystander predictedScrollPoint)
      by apply isScrollPointComputed_free.
  - now rewrite count_callCallback, (callCallback_bystander predictedScrollPoint)
      by apply isScrollPointComputed_free.
  - cbn [trace set_trace set_predictedScrollPoint predictedScrollPoint].
    rewrite countEffects_cons. cbn [isScrollPointComputed].
    match goal with H : predictedScrollPoint _ = None |- _ => rewrite H in * end. lia.
Qed.

(** An entry processed while a slot of the cache is filled makes no call
    for that slot. *)
Lemma handlePositionEntry_direction_cached s entry :
  scrollDirection s <> None ->
  (directionComputations (state (handlePositionEntry s entry))
   <= directionComputations s)%nat.
Proof.
  intros Hfilled.
  pose proof (stable_handlePositionEntry true
                (fun s' => (directionBudget s' <= directionBudget s)%nat)
                (stable := directionBudget_stable (directionBudget s))
                s entry (le_n _) (counts_always _)) as Hbudget.
  cbv beta in Hbudget. unfold directionBudget in Hbudget.
  destruct (scrollDirection s); [lia | congruence].
Qed.

Lemma handlePositionEntry_point_cached s entry :
  predictedScrollPoint s <> None ->
  (pointComputations (state (handlePositionEntry s entry)) <= pointComputations s)%nat.
Proof.
  intros Hfilled.
  pose proof (stable_handlePositionEntry true
                (fun s' => (pointBudget s' <= pointBudget s)%nat)
                (stable := pointBudget_stable (pointBudget s))
                s entry (le_n _) (counts_always _)) as Hbudget.
  cbv beta in Hbudget. unfold pointBudget in Hbudget.
  destruct (predictedScrollPoint s); [lia | congruence].
Qed.

End ScrollCache.

(** ** Properties that do not look at the settings *)

Section ConfigBlind.

Context {helpers : Helpers} {constants : Constants} {host : Host}.

Lemma stable_alterGlobalSettings (P : Manager -> Prop) {always : bool}
    {stable : Stable always P} s props rects :
  configBlind P -> P s -> P (alterGlobalSettings s props rects).
Proof.
  intros Hblind HP. rewrite alterGlobalSettings_stages. cbv zeta.
  pose proof (Hblind s (alteredSettings (globalSettings s) props)
                (alteredHistory (globalSettings s) props (trajectoryPositions s)) HP)
    as H1.
  destruct (anyChange (globalSettings s) props);
    destruct (hitSlopChange (globalSettings s) props);
    try apply (firm_emit (always := always));
    try apply (stable_forceUpdateAllElementBounds always P);
    assumption.
Qed.

Lemma configBlind_updatePointerState (P : Manager -> Prop) s e :
  configBlind P -> P s -> P (updatePointerState s e).
Proof.
  intros Hblind HP. unfold updatePointerState.
  pose proof (Hblind s (globalSettings s)) as H1.
  rewrite set_globalSettings_same in H1.
  destruct (enableMousePrediction (globalSettings s)); now apply H1.
Qed.

End ConfigBlind.

(** ** The listeners on the document *)

Section Listeners.

Context {helpers : Helpers} {constants : Constants} {host : Host}.

Lemma removeGlobalListeners_elements s :
  elements (removeGlobalListeners s) = elements s.
Proof.
  unfold removeGlobalListeners. cbn. now destruct (globalListenersController s).
Qed.

Lemma unregister_elements s el r :
  elements (unregister s el r) = Registry.delete el (elements s).
Proof.
  unfold unregister. destruct (Registry.get el (elements s)) as [d|] eqn:Hg.
  - match goal with |- context [if ?c then _ else _] => destruct c end;
      rewrite ?removeGlobalListeners_elements; cbn [elements set_elements];
      destruct (trajectoryHitExpirationTimeoutId (trajectoryHitData d)) as [[|id]|];
      reflexivity.
  - symmetry. now apply RegistryFacts.delete_absent.
Qed.

Lemma listenersFollowSetup_removed s m :
  listenersFollowSetup s ->
  listenersFollowSetup
    (if Nat.eqb (length (elements (set_elements s m))) 0 && isSetup (set_elements s m)
     then removeGlobalListeners (set_elements s m)
     else set_elements s m).
Proof.
  intros [Hempty Hshape]. cbn [elements set_elements isSetup].
  destruct m as [|d m]; cbn [length Nat.eqb andb].
  - destruct (isSetup s) eqn:Eset.
    + destruct (globalListenersController s) as [c|] eqn:Ec; [|contradiction].
      unfold listenersFollowSetup, removeGlobalListeners. cbn. rewrite Ec. cbn.
      rewrite Hshape. cbn. rewrite Nat.eqb_refl. cbn. split; [reflexivity | now right].
    + unfold listenersFollowSetup. cbn. rewrite Eset. split; [reflexivity | exact Hshape].
  - unfold listenersFollowSetup. cbn. split; [discriminate | exact Hshape].
Qed.

Lemma listenersFollowSetup_unregister s el r :
  listenersFollowSetup s -> listenersFollowSetup (unregister s el r).
Proof.
  intros HP. unfold unregister.
  destruct (Registry.get el (elements s)) as [d|]; [|exact HP].
  cbv zeta. apply listenersFollowSetup_removed.
  destruct (trajectoryHitExpirationTimeoutId (trajectoryHitData d)) as [[|id]|];
    exact HP.
Qed.

Lemma listenersFollowSetup_counted s d h :
  listenersFollowSetup s -> listenersFollowSetup (counted s d h).
Proof.
  intros [Hempty Hshape]. split; [|exact Hshape]. cbn. intros Hnil.
  apply RegistryFacts.mutate_nil in Hnil. now apply Hempty.
Qed.

Lemma listenersFollowSetup_stable always : Stable always listenersFollowSetup.
Proof.
  apply stable_by_moves; intros; try assumption.
  - now apply listenersFollowSetup_unregister.
  - now apply listenersFollowSetup_counted.
  - match goal with H : listenersFollowSetup _ |- _ => destruct H as [Hempty Hshape] end.
    split; [|exact Hshape]. cbn. intros Hnil. now apply RegistryFacts.set_not_nil in Hnil.
Qed.

Lemma listenersFollowSetup_register s opts env :
  listenersFollowSetup s -> listenersFollowSetup (fst (register s opts env)).
Proof.
  intros [Hempty Hshape]. unfold register.
  destruct (negb (shouldRegister env)); [now split|]. cbn [fst].
  unfold listenersFollowSetup. cbn [emit elements isSetup globalListenersController
    documentListeners set_trace set_positionObserver set_elements].
  split; [intros Hnil; now apply RegistryFacts.set_not_nil in Hnil|].
  destruct (isSetup s) eqn:Eset; cbn [negb].
  - rewrite Eset. exact Hshape.
  - unfold initializeGlobalListeners. rewrite Eset.
    destruct (hasWindowAndDocument env); cbn [negb].
    + destruct (globalListenersController s); [contradiction|].
      cbn. destruct Hshape as [-> | ->]; reflexivity.
    + rewrite Eset. exact Hshape.
Qed.

Lemma listenersFollowSetup_alter s props rects :
  listenersFollowSetup s -> listenersFollowSetup (alterGlobalSettings s props rects).
Proof.
  intros HP. rewrite alterGlobalSettings_stages. cbv zeta.
  assert (H1 : listenersFollowSetup
                 (set_trajectoryPositions
                    (set_globalSettings s (alteredSettings (globalSettings s) props))
                    (alteredHistory (globalSettings s) props (trajectoryPositions s))))
    by exact HP.
  pose proof (listenersFollowSetup_stable true) as stable.
  destruct (anyChange (globalSettings s) props);
    destruct (hitSlopChange (globalSettings s) props);
    try apply (firm_emit (always := true));
    try apply (stable_forceUpdateAllElementBounds true listenersFollowSetup);
    exact H1.
Qed.

Lemma listenersFollowSetup_reachable s : reachable s -> listenersFollowSetup s.
Proof.
  revert s. apply reachable_invariant.
  - split; [reflexivity | now left].
  - intros s a _ HP.
    apply (stable_step listenersFollowSetup (stable := listenersFollowSetup_stable true));
      [exact HP | apply counts_always |..].
    + intros opts env _. now apply listenersFollowSetup_register.
    + intros props rects _. now apply listenersFollowSetup_alter.
    + intros e _. unfold updatePointerState.
      destruct (enableMousePrediction (globalSettings s)); exact HP.
    + intros s' Hs'. exact Hs'.
Qed.

(** What unregistering does to the listeners on the document: when it
    empties the registry of a manager that is set up, the controller is
    aborted, and the mousemove listener, which was added without the
    signal, is what remains. *)
Lemma unregister_documentListeners s el r :
  listenersFollowSetup s ->
  documentListeners (unregister s el r)
  = if Registry.has el (elements s)
       && Nat.eqb (length (Registry.delete el (elements s))) 0
       && isSetup s
    then [mousemoveListener]
    else documentListeners s.
Proof.
  intros [Hempty Hshape]. unfold unregister, Registry.has.
  destruct (Registry.get el (elements s)) as [d|]; [|reflexivity].
  cbv zeta. cbn [andb].
  assert (Hfields :
            forall s0 : Manager,
              isSetup s0 = isSetup s ->
              globalListenersController s0 = globalListenersController s ->
              documentListeners s0 = documentListeners s ->
              documentListeners
                (if Nat.eqb
                      (length (elements
                                 (set_elements s0 (Registry.delete el (elements s))))) 0
                    && isSetup (set_elements s0 (Registry.delete el (elements s)))
                 then removeGlobalListeners
                        (set_elements s0 (Registry.delete el (elements s)))
                 else set_elements s0 (Registry.delete el (elements s)))
              = if Nat.eqb (length (Registry.delete el (elements s))) 0 && isSetup s
                then [mousemoveListener]
                else documentListeners s).
  { intros s0 H1 H2 H3. cbn [elements set_elements isSetup]. rewrite H1.
    destruct (Nat.eqb (length (Registry.delete el (elements s))) 0 && isSetup s) eqn:E;
      [|exact H3].
    apply andb_true_iff in E. destruct E as [_ Eset]. rewrite Eset in Hshape.
    unfold removeGlobalListeners.
    cbn [documentListeners set_positionObserver set_domObserver
         set_globalListenersController set_isSetup globalListenersController
         set_elements].
    rewrite H2. destruct (globalListenersController s) as [c|]; [|contradiction].
    cbn [documentListeners set_documentListeners set_isSetup set_elements].
    rewrite H3, Hshape. cbn. now rewrite Nat.eqb_refl. }
  destruct (trajectoryHitExpirationTimeoutId (trajectoryHitData d)) as [[|id]|];
    apply Hfields; reflexivity.
Qed.

Lemma attached_addDocListener ev h ev' h' signal ls :
  attached ev h ls = true -> attached ev h (addDocListener ev' h' signal ls) = true.
Proof.
  intros Hat. unfold addDocListener. destruct (attached ev' h' ls); [exact Hat|].
  unfold attached in *. rewrite existsb_app, Hat. reflexivity.
Qed.

Lemma mousemoveAttached_stable : Stable true mousemoveAttached.
Proof.
  pose proof (listenersFollowSetup_stable true) as Hstable.
  apply stable_by_moves; intros;
    match goal with H : mousemoveAttached _ |- _ => destruct H as [Hfollow Hat] end;
    try (split; [|exact Hat]).
  - now apply (firm_emit (always := true)).
  - split; [now apply listenersFollowSetup_unregister|].
    rewrite unregister_documentListeners by assumption.
    match goal with |- context [if ?c then _ else _] => destruct c end;
      [reflexivity | exact Hat].
  - now apply listenersFollowSetup_counted.
  - exact Hfollow.
  - now apply (stable_store (always := true)).
  - exact Hfollow.
  - exact Hfollow.
  - exact Hfollow.
  - exact Hfollow.
  - exact Hfollow.
  - exact Hfollow.
Qed.

Lemma mousemoveAttached_step s a : mousemoveAttached s -> mousemoveAttached (step s a).
Proof.
  intros HP.
  apply (stable_step mousemoveAttached (stable := mousemoveAttached_stable));
    [exact HP | apply counts_always |..].
  - intros opts env _. destruct HP as [Hfollow Hat].
    split; [now apply listenersFollowSetup_register|].
    unfold register. destruct (negb (shouldRegister env)); [exact Hat|]. cbn [fst].
    cbn [emit documentListeners set_trace set_positionObserver set_elements].
    destruct (negb (isSetup s)); [|exact Hat].
    unfold initializeGlobalListeners.
    destruct (isSetup s); [exact Hat|].
    destruct (negb (hasWindowAndDocument env)); [exact Hat|].
    cbn [documentListeners set_isSetup set_positionObserver set_domObserver
         set_documentListeners].
    now repeat apply attached_addDocListener.
  - intros props rects _. destruct HP as [Hfollow Hat].
    apply (stable_alterGlobalSettings mousemoveAttached
             (stable := mousemoveAttached_stable)); [|now split].
    intros s0 g t H0. exact H0.
  - intros e _. apply configBlind_updatePointerState; [|exact HP].
    intros s0 g t H0. exact H0.
  - intros s0 H0. exact H0.
Qed.

(** C4, as the code has it.  In every state the manager can reach:
    a listener bound to an abort signal is the keydown or the focusin
    listener and its signal is that of the one controller the manager
    holds; the mousemove listener is bound to no signal; while the
    registry is empty neither keydown nor focusin is attached, and nothing
    but the mousemove listener may be; a registration into the empty
    registry, in a browser, attaches all three listeners; an
    unregistration that empties the registry leaves the mousemove
    listener, and nothing else, on the document and the manager without a
    controller; and no call and no event detaches the mousemove listener
    once it is attached. *)
Theorem keyboard_listeners_follow_registry (s : Manager) :
  reachable s ->
  (forall l c,
      In l (documentListeners s) -> dl_signal l = Some c ->
      globalListenersController s = Some c /\ dl_event l <> mousemove)
  /\ (forall l,
        In l (documentListeners s) -> dl_event l = mousemove -> dl_signal l = None)
  /\ (elements s = [] ->
      attached keydown handleKeyDownRef (documentListeners s) = false
      /\ attached focusin handleFocusInRef (documentListeners s) = false
      /\ (documentListeners s = [] \/ documentListeners s = [mousemoveListener]))
  /\ (forall opts env,
        elements s = [] ->
        shouldRegister env = true -> hasWindowAndDocument env = true ->
        let s' := fst (register s opts env) in
        exists c,
          globalListenersController s' = Some c
          /\ documentListeners s'
             = [mousemoveListener; keydownListener c; focusinListener c])
  /\ (forall el r,
        isSetup s = true ->
        elements (unregister s el r) = [] ->
        documentListeners (unregister s el r) = [mousemoveListener]
        /\ globalListenersController (unregister s el r) = None)
  /\ (forall a,
        attached mousemove handleMouseMoveRef (documentListeners s) = true ->
        attached mousemove handleMouseMoveRef (documentListeners (step s a)) = true).
Proof.
  intros Hre. pose proof (listenersFollowSetup_reachable s Hre) as [Hempty Hshape].
  assert (Hall : forall l,
             In l (documentListeners s) ->
             l = mousemoveListener
             \/ exists c, globalListenersController s = Some c
                          /\ (l = keydownListener c \/ l = focusinListener c)).
  { intros l Hin.
    destruct (isSetup s), (globalListenersController s) as [c'|]; try contradiction.
    - rewrite Hshape in Hin. cbn in Hin.
      destruct Hin as [<- | [<- | [<- | []]]]; [now left | right | right];
        exists c'; auto.
    - destruct Hshape as [Hd | Hd]; rewrite Hd in Hin; cbn in Hin;
        [contradiction | destruct Hin as [<- | []]; now left]. }
  split; [|split; [|split; [|split; [|split]]]].
  - intros l c Hin Hsig.
    destruct (Hall l Hin) as [-> | (c' & Hc & [-> | ->])]; cbn in Hsig;
      [discriminate | ..]; injection Hsig as <-; (split; [exact Hc | discriminate]).
  - intros l Hin Hev.
    destruct (Hall l Hin) as [-> | (c' & Hc & [-> | ->])]; cbn in Hev;
      [reflexivity | discriminate ..].
  - intros Hnil. specialize (Hempty Hnil). rewrite Hempty in Hshape.
    destruct (globalListenersController s); [contradiction|].
    destruct Hshape as [Hd | Hd]; rewrite Hd; cbn; auto.
  - intros opts env Hnil Hsr Hdom s'.
    specialize (Hempty Hnil). rewrite Hempty in Hshape.
    destruct (globalListenersController s) eqn:Ec; [contradiction|].
    subst s'. unfold register. rewrite Hsr, Hempty. cbn [negb fst].
    unfold initializeGlobalListeners. rewrite Hempty, Hdom. cbn [negb].
    exists (nextController s). cbn.
    destruct Hshape as [-> | ->]; split; reflexivity.
  - intros el r Hset Hnil.
    pose proof (listenersFollowSetup_unregister s el r (conj Hempty Hshape))
      as [Hempty' Hshape'].
    rewrite (Hempty' Hnil) in Hshape'.
    destruct (globalListenersController (unregister s el r)); [contradiction|].
    split; [|reflexivity].
    rewrite unregister_documentListeners by (split; assumption).
    rewrite unregister_elements in Hnil. rewrite Hnil, Hset. cbn [length Nat.eqb andb].
    destruct (Registry.has el (elements s)) eqn:Ehas; [reflexivity|].
    unfold Registry.has in Ehas.
    destruct (Registry.get el (elements s)) eqn:Eg; [discriminate|].
    rewrite (RegistryFacts.delete_absent _ _ Eg) in Hnil.
    rewrite (Hempty Hnil) in Hset. discriminate.
  - intros a Hat. now apply (mousemoveAttached_step s a (conj (conj Hempty Hshape) Hat)).
Qed.

End Listeners.

(** ** Firing and the registry *)

Section Firing.

Context {helpers : Helpers} {constants : Constants} {host : Host}.

(** What [updateHitCounters] does to a stored record. *)
Lemma counted_elements s d h :
  elements (counted s d h)
  = Registry.mutate (element d)
      (fun r => set_callbackHits r (bumpHits (callbackHits r) h)) (elements s).
Proof. reflexivity. Qed.

(** When [callCallback] returns, the element is gone; when it is left by
    an exception, the element is still there, with its counters raised. *)
Lemma callCallback_elements s d h :
  elements (state (callCallback s (Some d) h))
  = if returned (callCallback s (Some d) h)
    then Registry.delete (element d)
           (Registry.mutate (element d)
              (fun r => set_callbackHits r (bumpHits (callbackHits r) h)) (elements s))
    else Registry.mutate (element d)
           (fun r => set_callbackHits r (bumpHits (callbackHits r) h)) (elements s).
Proof.
  rewrite callCallback_eq. cbv zeta.
  destruct (callbackThrows _ _); [reflexivity|].
  destruct (hookThrows _ _); [reflexivity|].
  cbn [state snd returned fst]. now rewrite unregister_elements.
Qed.

Lemma callCallback_has s d h el :
  Registry.has el (elements (state (callCallback s (Some d) h)))
  = Registry.has el (elements s)
    && negb (Nat.eqb el (element d) && returned (callCallback s (Some d) h)).
Proof.
  rewrite callCallback_elements.
  destruct (returned (callCallback s (Some d) h)).
  - rewrite RegistryFacts.has_delete, andb_true_r.
    now rewrite RegistryFacts.has_mutate by reflexivity.
  - rewrite andb_false_r, andb_true_r.
    now rewrite RegistryFacts.has_mutate by reflexivity.
Qed.

Lemma callCallback_get_other s d h el :
  el <> element d ->
  Registry.get el (elements (state (callCallback s (Some d) h)))
  = Registry.get el (elements s).
Proof.
  intros Hne. rewrite callCallback_elements.
  assert (Hmut : Registry.get el
                   (Registry.mutate (element d)
                      (fun r => set_callbackHits r (bumpHits (callbackHits r) h))
                      (elements s))
                 = Registry.get el (elements s)).
  { rewrite RegistryFacts.get_mutate by reflexivity.
    destruct (Nat.eqb el (element d)) eqn:E; [|reflexivity].
    apply Nat.eqb_eq in E. contradiction. }
  destruct (returned _); [|exact Hmut].
  now rewrite RegistryFacts.get_delete_other by assumption.
Qed.

Lemma callCallback_get_self s d h :
  Registry.get (element d) (elements (state (callCallback s (Some d) h)))
  = if returned (callCallback s (Some d) h) then None
    else option_map (fun r => set_callbackHits r (bumpHits (callbackHits r) h))
           (Registry.get (element d) (elements s)).
Proof.
  rewrite callCallback_elements. destruct (returned _).
  - apply RegistryFacts.get_delete_same.
  - rewrite RegistryFacts.get_mutate by reflexivity. now rewrite Nat.eqb_refl.
Qed.

(** However [callCallback] is left, the callback has been invoked. *)
Lemma callCallback_fires s d h el :
  fires el (state (callCallback s (Some d) h))
  = ((if Nat.eqb (element d) el then 1 else 0) + fires el s)%nat.
Proof. unfold fires. now rewrite count_callCallback by apply isCallbackOf_free. Qed.



Lemma register_elements s opts env :
  shouldRegister env = true ->
  exists d,
    elements (fst (register s opts env)) = Registry.set d (elements s)
    /\ element d = o_element opts
    /\ callback d = o_callback opts
    /\ isIntersectingWithViewport d = true
    /\ originalRect (elementBounds d) = None
    /\ expandedRect (elementBounds d) = mkRect 0 0 0 0.
Proof.
  intros Hsr. unfold register. rewrite Hsr. cbn [negb fst].
  eexists. split.
  - cbn [emit elements set_trace set_positionObserver set_elements].
    destruct (negb (isSetup s)); [|reflexivity].
    unfold initializeGlobalListeners.
    destruct (isSetup s); [reflexivity|].
    destruct (negb (hasWindowAndDocument env)); reflexivity.
  - repeat split.
Qed.

Lemma register_trace_count p s opts env :
  bookkeepingFree p ->
  countEffects p (trace (fst (register s opts env))) = countEffects p (trace s).
Proof.
  intros Hfree. unfold register.
  destruct (negb (shouldRegister env)); [reflexivity|]. cbn [fst].
  rewrite count_emit by assumption. cbn [trace set_positionObserver set_elements].
  destruct (negb (isSetup s)); [|reflexivity].
  unfold initializeGlobalListeners.
  destruct (isSetup s); [reflexivity|].
  destruct (negb (hasWindowAndDocument env)); reflexivity.
Qed.




End Firing.

(** ** Tab prediction *)

Section TabPrediction.

Context {helpers : Helpers} {constants : Constants} {host : Host}.

(** Firing the record stored for [x], if there is one: however it is
    left, the callback has been invoked; the element is gone when it
    returns. *)
Lemma callCallback_get_fires s el x h :
  let r := callCallback s (Registry.get x (elements s)) h in
  fires el (state r)
  = (fires el s + if Registry.has el (elements s) && Nat.eqb el x then 1 else 0)%nat
  /\ Registry.has el (elements (state r))
     = Registry.has el (elements s) && negb (Nat.eqb el x && returned r).
Proof.
  cbv zeta. destruct (Registry.get x (elements s)) as [d|] eqn:Hg.
  - pose proof (RegistryFacts.get_element _ _ _ Hg) as Hd.
    rewrite callCallback_fires, callCallback_has, Hd. clear Hd.
    split; [|reflexivity].
    destruct (Nat.eqb el x) eqn:E.
    + apply Nat.eqb_eq in E. subst x. rewrite Nat.eqb_refl.
      unfold Registry.has. rewrite Hg. cbn. lia.
    + rewrite Nat.eqb_sym, E, andb_false_r. lia.
  - cbn [callCallback state snd returned fst]. split.
    + destruct (Nat.eqb el x) eqn:E; [|rewrite andb_false_r; lia].
      apply Nat.eqb_eq in E. subst x. unfold Registry.has. rewrite Hg. cbn. lia.
    + destruct (Nat.eqb el x) eqn:E; [|now rewrite andb_true_r].
      apply Nat.eqb_eq in E. subst x. unfold Registry.has. now rewrite Hg.
Qed.

(** Firing a list of elements in turn, each one if it is still
    registered when its turn comes, when every firing returns. *)
Lemma fireAll_returns l h s el :
  let r :=
    forEachOrThrow (fun acc x => callCallback acc (Registry.get x (elements acc)) h) l s in
  returns r ->
  fires el (state r)
  = (fires el s + if Registry.has el (elements s) && among el l then 1 else 0)%nat
  /\ Registry.has el (elements (state r))
     = Registry.has el (elements s) && negb (among el l).
Proof.
  cbv zeta. revert s.
  induction l as [|x l IH]; intros s Hr; cbn [forEachOrThrow among existsb] in *.
  - cbn [state snd]. rewrite andb_false_r, andb_true_r. split; [lia | reflexivity].
  - apply returns_andThenDo in Hr. destruct Hr as [s1 [E Hr]].
    destruct (callCallback_get_fires s el x h) as [Hf Hh]. cbv zeta in Hf, Hh.
    rewrite E in *. cbn [andThenDo state snd returned fst] in *.
    destruct (IH s1 Hr) as [-> ->]. rewrite Hf, Hh. fold (among el l).
    generalize (fires el s). intros n.
    destruct (Registry.has el (elements s)), (Nat.eqb el x), (among el l);
      cbn [andb orb negb]; split; solve [lia | reflexivity].
Qed.


Lemma fireAll_bystander {A : Type} (proj : Manager -> A) {bystander : Bystander proj}
    l h s :
  proj (state
          (forEachOrThrow
             (fun acc x => callCallback acc (Registry.get x (elements acc)) h) l s))
  = proj s.
Proof.
  apply (forEachOrThrow_kept true (fun s' => proj s' = proj s));
    [|reflexivity | apply counts_always].
  intros acc x Hacc _. now rewrite (callCallback_bystander proj).
Qed.

Lemma among_flat_map {A : Type} el (f g : A -> list ForesightElement) (b : bool) l :
  (forall a, among el (f a) = b && among el (g a)) ->
  among el (flat_map f l) = b && among el (flat_map g l).
Proof.
  intros Hfg. induction l as [|a l IH].
  - cbn. now rewrite andb_false_r.
  - change (flat_map f (a :: l)) with (f a ++ flat_map f l).
    change (flat_map g (a :: l)) with (g a ++ flat_map g l).
    unfold among in *. rewrite !existsb_app.
    etransitivity; [apply f_equal2; [exact (Hfg a) | exact IH]|].
    now destruct b.
Qed.

(** The elements [handleFocusIn] fires are the registered ones of the tab
    window. *)
Lemma among_elementsToPredict el m tabbables i N (isReversed : bool) :
  among el
    (flat_map
       (fun k => match arrayGet tabbables (if isReversed then i - k else i + k) with
                 | Some x => if Registry.has x m then [x] else []
                 | None => []
                 end)
       (upTo N))
  = Registry.has el m && among el (tabWindow tabbables i N isReversed).
Proof.
  unfold tabWindow. apply among_flat_map.
  intros k. destruct (arrayGet tabbables _) as [x|]; [|now rewrite andb_false_r].
  cbn. destruct (Nat.eqb el x) eqn:E.
  - apply Nat.eqb_eq in E. subst x.
    destruct (Registry.has el m); cbn; now rewrite ?Nat.eqb_refl.
  - destruct (Registry.has x m); cbn; rewrite ?E; now rewrite ?andb_false_r.
Qed.

(** [handleFocusIn] after a Tab key, with tab prediction on: the loop it
    runs, and the state the loop starts from. *)
Lemma handleFocusIn_loop s lastKey targetElement tabbableNow :
  lastKeyDown s = Some lastKey ->
  enableTabPrediction (globalSettings s) = true ->
  let tabbables :=
    match tabbableElementsCache s with
    | [] => tabbableNow
    | _ => tabbableElementsCache s
    end in
  let i := getFocusedElementIndex (shiftKey lastKey) (lastFocusedIndex s) tabbables
             targetElement in
  handleFocusIn s (Some targetElement) tabbableNow
  = forEachOrThrow
      (fun acc el =>
         callCallback acc (Registry.get el (elements acc))
           (HitTab (if shiftKey lastKey then reverse else forwards)))
      (flat_map
         (fun k => match arrayGet tabbables
                           (if shiftKey lastKey then i - k else i + k) with
                   | Some x => if Registry.has x (elements s) then [x] else []
                   | None => []
                   end)
         (upTo (tabOffset (globalSettings s))))
      (set_lastKeyDown
         (set_lastFocusedIndex (set_tabbableElementsCache s tabbables) (Some i)) None).
Proof.
  intros Hkey Htab tabbables i. unfold handleFocusIn. rewrite Hkey, Htab. cbn [negb].
  subst i tabbables. destruct (tabbableElementsCache s) eqn:E.
  - reflexivity.
  - cbn [tabbableElementsCache elements globalSettings lastFocusedIndex
         set_lastKeyDown set_lastFocusedIndex].
    rewrite E. f_equal. now destruct s; cbn in *; subst.
Qed.

End TabPrediction.

(** ** Mouse moves *)

Section MouseMoves.

Context {helpers : Helpers} {constants : Constants} {host : Host}.

Lemma mouseBody_eq s d :
  mouseBody s d
  = if isIntersectingWithViewport d && mouseHit s (expandedRect (elementBounds d))
    then callCallback s (Some d)
           (HitMouse (if negb (enableMousePrediction (globalSettings s))
                      then hover else trajectory))
    else (Normal, s).
Proof.
  unfold mouseBody, handleCallbackInteraction, mouseHit.
  destruct (isIntersectingWithViewport d); cbn [negb andb]; [|reflexivity].
  destruct (negb (enableMousePrediction (globalSettings s)));
    match goal with |- context [if ?c then _ else _] => destruct c end; reflexivity.
Qed.

Lemma mouseHit_callCallback s d h rect :
  mouseHit (state (callCallback s (Some d) h)) rect = mouseHit s rect.
Proof.
  unfold mouseHit.
  now rewrite (callCallback_bystander globalSettings),
    (callCallback_bystander trajectoryPositions).
Qed.

Lemma mouseTurn_eq s k :
  mouseTurn s k
  = match Registry.get k (elements s) with
    | Some d =>
        if isIntersectingWithViewport d && mouseHit s (expandedRect (elementBounds d))
        then callCallback s (Some d)
               (HitMouse (if negb (enableMousePrediction (globalSettings s))
                          then hover else trajectory))
        else (Normal, s)
    | None => (Normal, s)
    end.
Proof.
  unfold mouseTurn. destruct (Registry.get k (elements s)); [|reflexivity].
  apply mouseBody_eq.
Qed.

Lemma mouseHit_mouseTurn s k rect : mouseHit (state (mouseTurn s k)) rect = mouseHit s rect.
Proof.
  rewrite mouseTurn_eq. destruct (Registry.get k (elements s)) as [d|]; [|reflexivity].
  destruct (isIntersectingWithViewport d && mouseHit s (expandedRect (elementBounds d)));
    [|reflexivity].
  apply mouseHit_callCallback.
Qed.

Lemma mouseFires_ext s1 s el :
  Registry.get el (elements s1) = Registry.get el (elements s) ->
  (forall rect, mouseHit s1 rect = mouseHit s rect) ->
  mouseFires s1 el = mouseFires s el.
Proof.
  intros Hg Hh. unfold mouseFires. rewrite Hg.
  destruct (Registry.get el (elements s)); [|reflexivity]. now rewrite Hh.
Qed.

(** The turn of another element, or of an element the move does not
    fire: however the turn is left, [el] is not invoked and its record
    is as it was. *)
Lemma mouseTurn_miss s k el :
  Nat.eqb k el && mouseFires s el = false ->
  fires el (state (mouseTurn s k)) = fires el s
  /\ Registry.get el (elements (state (mouseTurn s k))) = Registry.get el (elements s).
Proof.
  intros Hmiss. rewrite mouseTurn_eq.
  destruct (Registry.get k (elements s)) as [d|] eqn:Hg; [|now split].
  pose proof (RegistryFacts.get_element _ _ _ Hg) as Hd.
  destruct (isIntersectingWithViewport d
            && mouseHit s (expandedRect (elementBounds d))) eqn:Ehit; [|now split].
  assert (Hne : Nat.eqb k el = false).
  { destruct (Nat.eqb k el) eqn:E; [|reflexivity].
    apply Nat.eqb_eq in E. subst k. cbn [andb] in Hmiss.
    unfold mouseFires in Hmiss. rewrite Hg in Hmiss. congruence. }
  rewrite callCallback_fires, Hd, Hne. split; [reflexivity|].
  apply callCallback_get_other. rewrite Hd. intros ->.
  now rewrite Nat.eqb_refl in Hne.
Qed.

(** The turn of an element the move fires: its callback is invoked, and
    the element is gone when the turn returns. *)
Lemma mouseTurn_hit s el :
  mouseFires s el = true ->
  fires el (state (mouseTurn s el)) = (fires el s + 1)%nat
  /\ (returns (mouseTurn s el) ->
      Registry.get el (elements (state (mouseTurn s el))) = None).
Proof.
  intros Hhit. rewrite mouseTurn_eq. unfold mouseFires in Hhit.
  destruct (Registry.get el (elements s)) as [d|] eqn:Hg; [|discriminate].
  pose proof (RegistryFacts.get_element _ _ _ Hg) as Hd.
  rewrite Hhit, callCallback_fires, Hd, Nat.eqb_refl. split; [lia|].
  intros Hr. rewrite <- Hd at 1.
  now rewrite callCallback_get_self, (returned_of_returns _ Hr).
Qed.

(** The loop of [handleMouseMove] over the keys [l], for an element the
    move does not fire, however the loop is left. *)
Lemma mouseLoop_miss l s el :
  mouseFires s el = false ->
  fires el (state (forEachOrThrow mouseTurn l s)) = fires el s
  /\ Registry.get el (elements (state (forEachOrThrow mouseTurn l s)))
     = Registry.get el (elements s).
Proof.
  revert s. induction l as [|k l IH]; intros s Hmiss; cbn [forEachOrThrow];
    [now split|].
  assert (Hk : Nat.eqb k el && mouseFires s el = false)
    by (rewrite Hmiss; apply andb_false_r).
  destruct (mouseTurn_miss s k el Hk) as [Hf Hg].
  assert (Hm : mouseFires (state (mouseTurn s k)) el = false).
  { rewrite <- Hmiss. apply mouseFires_ext; [exact Hg | apply mouseHit_mouseTurn]. }
  destruct (mouseTurn s k) as [[|thrower] s1]; cbn [andThenDo state snd] in *.
  - destruct (IH s1 Hm) as [-> ->]. now split.
  - now split.
Qed.

(** However the loop is left, an element is invoked at most once, and
    only if the move fires it. *)
Lemma mouseLoop_bounds l s el :
  (fires el s <= fires el (state (forEachOrThrow mouseTurn l s)))%nat
  /\ (fires el (state (forEachOrThrow mouseTurn l s))
      <= fires el s + if among el l && mouseFires s el then 1 else 0)%nat.
Proof.
  revert s. induction l as [|k l IH]; intros s; cbn [forEachOrThrow among existsb].
  - cbn [state snd]. lia.
  - fold (among el l). destruct (Nat.eqb k el && mouseFires s el) eqn:Ek.
    + apply andb_true_iff in Ek. destruct Ek as [Ek Ehit].
      apply Nat.eqb_eq in Ek. subst k.
      destruct (mouseTurn_hit s el Ehit) as [Hf Hgone].
      rewrite Nat.eqb_refl, Ehit. cbn [orb andb].
      destruct (mouseTurn s el) as [[|thrower] s1]; cbn [andThenDo state snd] in *.
      * assert (Hm : mouseFires s1 el = false).
        { unfold mouseFires. now rewrite (Hgone eq_refl). }
        destruct (mouseLoop_miss l s1 el Hm) as [-> _]. lia.
      * lia.
    + destruct (mouseTurn_miss s k el Ek) as [Hf Hg].
      assert (Hm : mouseFires (state (mouseTurn s k)) el = mouseFires s el).
      { apply mouseFires_ext; [exact Hg | apply mouseHit_mouseTurn]. }
      destruct (mouseTurn s k) as [[|thrower] s1]; cbn [andThenDo state snd] in *.
      * destruct (IH s1) as [Hlo Hhi]. rewrite Hm, Hf in *.
        revert Hlo Hhi.
        generalize (fires el (state (forEachOrThrow mouseTurn l s1))).
        generalize (fires el s). intros n m.
        destruct (Nat.eqb el k), (among el l), (mouseFires s el); cbn [andb orb]; lia.
      * rewrite Hf. lia.
Qed.

(** When the loop returns, every element the move fires has been invoked
    and is gone. *)
Lemma mouseLoop_returns l s el :
  returns (forEachOrThrow mouseTurn l s) ->
  fires el (state (forEachOrThrow mouseTurn l s))
  = (fires el s + if among el l && mouseFires s el then 1 else 0)%nat
  /\ Registry.get el (elements (state (forEachOrThrow mouseTurn l s)))
     = if among el l && mouseFires s el then None else Registry.get el (elements s).
Proof.
  revert s. induction l as [|k l IH]; intros s Hr; cbn [forEachOrThrow among existsb] in *.
  - cbn [state snd andb]. split; [lia | reflexivity].
  - fold (among el l). apply returns_andThenDo in Hr. destruct Hr as [s1 [E Hr]].
    destruct (Nat.eqb k el && mouseFires s el) eqn:Ek.
    + apply andb_true_iff in Ek. destruct Ek as [Ek Ehit].
      apply Nat.eqb_eq in Ek. subst k.
      destruct (mouseTurn_hit s el Ehit) as [Hf Hgone].
      rewrite Nat.eqb_refl, Ehit. cbn [orb andb].
      rewrite E in *. cbn [andThenDo state snd] in *.
      assert (Hm : mouseFires s1 el = false).
      { unfold mouseFires. now rewrite (Hgone eq_refl). }
      destruct (mouseLoop_miss l s1 el Hm) as [-> ->].
      split; [exact Hf | now apply Hgone].
    + destruct (mouseTurn_miss s k el Ek) as [Hf Hg].
      assert (Hm : mouseFires (state (mouseTurn s k)) el = mouseFires s el).
      { apply mouseFires_ext; [exact Hg | apply mouseHit_mouseTurn]. }
      rewrite E in *. cbn [andThenDo state snd] in *.
      destruct (IH s1 Hr) as [-> ->]. rewrite Hm, Hf, Hg.
      rewrite (Nat.eqb_sym el k).
      destruct (Nat.eqb k el), (among el l), (mouseFires s el);
        cbn [andb orb] in *; try discriminate Ek; split; reflexivity.
Qed.

Lemma among_keys el m d : Registry.get el m = Some d -> among el (Registry.keys m) = true.
Proof.
  intros Hg. unfold among, Registry.keys. apply existsb_exists.
  exists el. split; [|apply Nat.eqb_refl].
  unfold Registry.get in Hg. apply find_some in Hg. destruct Hg as [Hin He].
  apply Nat.eqb_eq in He. subst el. now apply in_map.
Qed.

Lemma among_keys_mouseFires s el :
  among el (Registry.keys (elements s)) && mouseFires s el = mouseFires s el.
Proof.
  unfold mouseFires.
  destruct (Registry.get el (elements s)) as [d|] eqn:Hg; [|apply andb_false_r].
  now rewrite (among_keys _ _ _ Hg).
Qed.

Lemma updatePointerState_elements s e : elements (updatePointerState s e) = elements s.
Proof.
  unfold updatePointerState. now destruct (enableMousePrediction (globalSettings s)).
Qed.

Lemma updatePointerState_trace s e : trace (updatePointerState s e) = trace s.
Proof.
  unfold updatePointerState. now destruct (enableMousePrediction (globalSettings s)).
Qed.

(** [handleMouseMove] is its loop, and a publication when the loop
    returns. *)
Lemma handleMouseMove_loop s e :
  let r :=
    forEachOrThrow mouseTurn (Registry.keys (elements (updatePointerState s e)))
      (updatePointerState s e) in
  (forall el, fires el (state (handleMouseMove s e)) = fires el (state r))
  /\ elements (state (handleMouseMove s e)) = elements (state r)
  /\ (returns (handleMouseMove s e) <-> returns r).
Proof.
  cbv zeta.
  change (handleMouseMove s e)
    with (let! s1 :=
            forEachOrThrow mouseTurn
              (Registry.keys (elements (updatePointerState s e))) (updatePointerState s e) in
          (Normal,
           emit s1 (mouseTrajectoryUpdate (enableMousePrediction (globalSettings s1))
                      (trajectoryPositions s1)))).
  destruct (forEachOrThrow mouseTurn (Registry.keys (elements (updatePointerState s e)))
              (updatePointerState s e)) as [[|thrower] s1];
    cbn [andThenDo state snd]; (split; [|split; [reflexivity|tauto]]);
    intros el; unfold fires; now rewrite ?count_emit by apply isCallbackOf_free.
Qed.

Lemma updatePointerState_fires s e el : fires el (updatePointerState s e) = fires el s.
Proof. unfold fires. now rewrite updatePointerState_trace. Qed.

(** A mouse move, for an element it does not fire: however the handler
    is left, the callback is not invoked and the record is as it was. *)
Lemma handleMouseMove_miss s e el :
  mouseFires (updatePointerState s e) el = false ->
  fires el (state (handleMouseMove s e)) = fires el s
  /\ Registry.get el (elements (state (handleMouseMove s e)))
     = Registry.get el (elements s).
Proof.
  intros Hmiss. destruct (handleMouseMove_loop s e) as (Hf & He & _). cbv zeta in *.
  rewrite Hf, He.
  destruct (mouseLoop_miss (Registry.keys (elements (updatePointerState s e)))
              (updatePointerState s e) el Hmiss) as [-> ->].
  now rewrite updatePointerState_elements, updatePointerState_fires.
Qed.

(** However a mouse move is left, it invokes a callback at most once, and
    only if the move fires the element. *)
Lemma handleMouseMove_bounds s e el :
  (fires el s <= fires el (state (handleMouseMove s e)))%nat
  /\ (fires el (state (handleMouseMove s e))
      <= fires el s + if mouseFires (updatePointerState s e) el then 1 else 0)%nat.
Proof.
  destruct (handleMouseMove_loop s e) as (Hf & _ & _). cbv zeta in *. rewrite Hf.
  pose proof (mouseLoop_bounds (Registry.keys (elements (updatePointerState s e)))
                (updatePointerState s e) el) as Hb.
  now rewrite among_keys_mouseFires, updatePointerState_fires in Hb.
Qed.

(** A mouse move that returns has invoked the callback of every element
    it fires, once, and has removed these elements and no other. *)
Lemma handleMouseMove_returns s e el :
  returns (handleMouseMove s e) ->
  fires el (state (handleMouseMove s e))
  = (fires el s + if mouseFires (updatePointerState s e) el then 1 else 0)%nat
  /\ Registry.get el (elements (state (handleMouseMove s e)))
     = if mouseFires (updatePointerState s e) el then None
       else Registry.get el (elements s).
Proof.
  intros Hr. destruct (handleMouseMove_loop s e) as (Hf & He & Hret). cbv zeta in *.
  rewrite Hf, He. apply Hret in Hr.
  pose proof (mouseLoop_returns (Registry.keys (elements (updatePointerState s e)))
                (updatePointerState s e) el Hr) as Hb.
  rewrite among_keys_mouseFires, updatePointerState_fires in Hb.
  destruct Hb as [Hb1 Hb2]. split; [exact Hb1|].
  rewrite Hb2. now rewrite (updatePointerState_elements s e).
Qed.

End MouseMoves.

(** ** Callbacks that do not throw *)

Section NeverThrows.

Context {helpers : Helpers} {constants : Constants} {host : Host}.

Hypothesis quiet : neverThrows.

Lemma callCallback_quiet s d h : returns (callCallback s d h).
Proof.
  destruct quiet as [Hcallback Hhook]. destruct d as [d|]; [|reflexivity].
  rewrite callCallback_eq. cbv zeta. rewrite Hcallback.
  unfold hookThrows. destruct (onAnyCallbackFired (globalSettings s)); [reflexivity|].
  now rewrite Hhook.
Qed.

Lemma forEachOrThrow_quiet {A : Type} (body : Manager -> A -> Outcome) l s :
  (forall acc a, returns (body acc a)) -> returns (forEachOrThrow body l s).
Proof.
  intros Hbody. revert s. induction l as [|a l IH]; intros s; [reflexivity|].
  cbn [forEachOrThrow]. apply returns_andThenDo.
  pose proof (Hbody s a) as Ha. unfold returns in Ha.
  destruct (body s a) as [c s1]. cbn in Ha. subst c. exists s1. split; [reflexivity|].
  apply IH.
Qed.

Lemma handleMouseMove_quiet s e : returns (handleMouseMove s e).
Proof.
  destruct (handleMouseMove_loop s e) as (_ & _ & Hret). apply Hret.
  apply forEachOrThrow_quiet.
  intros acc k. rewrite mouseTurn_eq.
  destruct (Registry.get k (elements acc)) as [d|]; [|reflexivity].
  destruct (isIntersectingWithViewport d && mouseHit acc (expandedRect (elementBounds d)));
    [apply callCallback_quiet | reflexivity].
Qed.

Lemma handleFocusIn_quiet s focusTarget tabbableNow :
  returns (handleFocusIn s focusTarget tabbableNow).
Proof.
  unfold handleFocusIn.
  destruct (lastKeyDown s); [|reflexivity].
  destruct (negb (enableTabPrediction (globalSettings s))); [reflexivity|].
  destruct focusTarget; [|reflexivity].
  apply forEachOrThrow_quiet. intros acc el. apply callCallback_quiet.
Qed.







End NeverThrows.

(** ** Publication *)

Section Publication.

Context {helpers : Helpers} {constants : Constants} {host : Host}.

(** C9.  Publishing an event completes normally whichever listeners
    throw; every listener subscribed to the event's type is handed the
    event, in subscription order; the failures that are logged are those
    of the listeners that throw; and nothing but the trace of the manager
    changes. *)
Theorem throwing_listener_is_isolated (s : Manager) (ev : ForesightEvent) :
  let ls := eventListeners s (eventType ev) in
  fst (emitEff ls ev (Emitted ev :: trace s)) = Normal
  /\ emit s ev = set_trace s (deliveryLog ls ev ++ Emitted ev :: trace s)
  /\ deliveredListeners (deliveryLog ls ev) = ls
  /\ loggedErrors (deliveryLog ls ev) = filter (fun l => listenerThrows l ev) ls.
Proof.
  cbv zeta. rewrite emitEff_spec. repeat split.
  - apply emit_eq.
  - apply deliveredListeners_log.
  - apply loggedErrors_log.
Qed.

Lemma setNumeric_same g k : setNumeric g k (getNumeric g k) = g.
Proof. now destruct g, k. Qed.

Lemma settingsChanges_emit s g :
  settingsChanges (emit s (managerSettingsChanged g)) = S (settingsChanges s).
Proof.
  unfold settingsChanges. rewrite emit_eq. cbn [trace set_trace].
  rewrite countEffects_app, countEffects_cons. cbn [isSettingsChanged].
  replace (countEffects isSettingsChanged (deliveryLog _ _)) with 0%nat; [reflexivity|].
  unfold deliveryLog, countEffects.
  induction (eventListeners s (eventType (managerSettingsChanged g))) as [|l ls IH];
    [reflexivity|].
  cbn [flat_map]. rewrite rev_app_distr, filter_app, length_app, <- IH.
  now destruct (listenerThrows l (managerSettingsChanged g)).
Qed.

(** A numeric setting that sits at the bound nearest to an out-of-range
    value is left as it is when that value is given, and the change is
    published all the same. *)
Lemma stored_bound_republishes (s : Manager) (k : NumericSettingKeys) (v : Z)
    (rects : ForesightElement -> Rect) :
  v < minOf k \/ maxOf k < v ->
  minOf k <= maxOf k ->
  getNumeric (globalSettings s) k = nearestBound k v ->
  globalSettings (alterGlobalSettings s (numericProps k v) rects) = globalSettings s
  /\ settingsChanges (alterGlobalSettings s (numericProps k v) rects)
     = S (settingsChanges s).
Proof.
  intros Hv Hrange Hstored.
  assert (Hclamp : clampNumber v (minOf k) (maxOf k) k = getNumeric (globalSettings s) k).
  { rewrite Hstored. unfold clampNumber, nearestBound.
    destruct (v <? minOf k) eqn:E1; [reflexivity|].
    destruct (maxOf k <? v) eqn:E2; [reflexivity | lia]. }
  assert (Hne : (v =? getNumeric (globalSettings s) k) = false).
  { rewrite Hstored. unfold nearestBound. destruct (v <? minOf k) eqn:E1; lia. }
  rewrite alterGlobalSettings_stages. cbv zeta.
  assert (Hg : alteredSettings (globalSettings s) (numericProps k v) = globalSettings s).
  { unfold alteredSettings, settingsBeforeHitSlop, numericUpdate, numericChange,
      shouldUpdateSetting.
    destruct k; cbn [numericProps p_positionHistorySize p_trajectoryPredictionTime
                       p_scrollMargin p_tabOffset p_enableMousePrediction
                       p_enableScrollPrediction p_enableTabPrediction
                       p_onAnyCallbackFired p_defaultHitSlop booleanUpdate] in *;
      rewrite Hne; cbn [negb]; cbn [minOf maxOf] in Hclamp; rewrite Hclamp;
      apply setNumeric_same. }
  assert (Hany : anyChange (globalSettings s) (numericProps k v) = true).
  { unfold anyChange, hitSlopChange, numericUpdate, numericChange, booleanChange,
      shouldUpdateSetting.
    destruct k; cbn [numericProps p_positionHistorySize p_trajectoryPredictionTime
                       p_scrollMargin p_tabOffset p_enableMousePrediction
                       p_enableScrollPrediction p_enableTabPrediction
                       p_onAnyCallbackFired p_defaultHitSlop] in *;
      rewrite Hne; cbn; now rewrite ?orb_true_r. }
  assert (Hslop : hitSlopChange (globalSettings s) (numericProps k v) = false).
  { unfold hitSlopChange. now destruct k. }
  rewrite Hany, Hslop, Hg.
  split.
  - now rewrite (emit_bystander globalSettings).
  - rewrite settingsChanges_emit. reflexivity.
Qed.

(** C2 at its failing input.  In every state the manager can reach,
    giving a numeric setting the same out-of-range value twice in a row
    publishes [managerSettingsChanged] the second time as well, although
    the second call leaves the settings as the first one left them. *)
Theorem out_of_range_value_republishes (s : Manager) (k : NumericSettingKeys) (v : Z)
    (rects : ForesightElement -> Rect) :
  coherent ->
  reachable s ->
  v < minOf k \/ maxOf k < v ->
  let s1 := alterGlobalSettings s (numericProps k v) rects in
  let s2 := alterGlobalSettings s1 (numericProps k v) rects in
  globalSettings s2 = globalSettings s1
  /\ settingsChanges s2 = S (settingsChanges s1).
Proof.
  intros Hco Hre Hout s1 s2. subst s2.
  apply stored_bound_republishes; [exact Hout | specialize (Hco k); lia |].
  subst s1. apply stored_after_out_of_range; try assumption.
  - now apply settingsInRange_reachable.
  - apply numericProps_given.
Qed.

(** The half of C2 that holds: a numeric value equal to the stored one,
    in range or not, changes nothing and publishes nothing. *)
Lemma equal_value_is_ignored (s : Manager) (k : NumericSettingKeys)
    (rects : ForesightElement -> Rect) :
  alterGlobalSettings s (numericProps k (getNumeric (globalSettings s) k)) rects = s.
Proof.
  rewrite alterGlobalSettings_stages. cbv zeta.
  set (props := numericProps k (getNumeric (globalSettings s) k)).
  assert (Hg : alteredSettings (globalSettings s) props = globalSettings s).
  { unfold alteredSettings, settingsBeforeHitSlop, numericUpdate, numericChange,
      shouldUpdateSetting. subst props.
    destruct k; cbn; now rewrite Z.eqb_refl. }
  assert (Hany : anyChange (globalSettings s) props = false).
  { unfold anyChange, hitSlopChange, numericUpdate, numericChange, booleanChange,
      shouldUpdateSetting. subst props.
    destruct k; cbn; now rewrite Z.eqb_refl. }
  assert (Hslop : hitSlopChange (globalSettings s) props = false).
  { unfold hitSlopChange. subst props. now destruct k. }
  assert (Ht : alteredHistory (globalSettings s) props (trajectoryPositions s)
               = trajectoryPositions s).
  { unfold alteredHistory, numericUpdate, numericChange, shouldUpdateSetting. subst props.
    destruct k; cbn; now rewrite ?Z.eqb_refl. }
  rewrite Hany, Hslop, Hg, Ht. now destruct s.
Qed.

End Publication.

(** ** Settings given twice *)

Section GivenTwice.

Context {helpers : Helpers} {constants : Constants} {host : Host}.

Lemma areRectsEqual_eq a b : areRectsEqual a b = true <-> a = b.
Proof.
  unfold areRectsEqual. destruct a, b; cbn. rewrite !andb_true_iff, !Z.eqb_eq.
  split; [intros [[[-> ->] ->] ->]; reflexivity | intros [= -> -> -> ->]; auto].
Qed.

Lemma numericUpdate_settled g nv k lo hi :
  (forall v, nv = Some v -> getNumeric g k = v) ->
  numericChange g nv k = false /\ numericUpdate g nv k lo hi = g.
Proof.
  intros Hv. assert (Hc : numericChange g nv k = false).
  { unfold numericChange, shouldUpdateSetting. destruct nv as [v|]; [|reflexivity].
    rewrite (Hv v eq_refl). now rewrite Z.eqb_refl. }
  split; [exact Hc | now apply numericUpdate_unchanged].
Qed.

Lemma booleanUpdate_settled g nv k :
  (forall v, nv = Some v -> getBoolean g k = v) ->
  booleanChange g nv k = false /\ booleanUpdate g nv k = g.
Proof.
  intros Hv. assert (Hc : booleanChange g nv k = false).
  { unfold booleanChange, shouldUpdateSetting. destruct nv as [v|]; [|reflexivity].
    rewrite (Hv v eq_refl). now destruct v. }
  split; [exact Hc|]. unfold booleanUpdate. rewrite Hc. now destruct nv.
Qed.

(** On settled settings [alterGlobalSettings] is the identity. *)
Lemma settled_is_fixed s props rects :
  settled (globalSettings s) props -> alterGlobalSettings s props rects = s.
Proof.
  intros (Hnum & Hbool & Hhook & Hslop).
  set (g := globalSettings s) in *.
  destruct (numericUpdate_settled g (p_positionHistorySize props) K_positionHistorySize
              MIN_POSITION_HISTORY_SIZE MAX_POSITION_HISTORY_SIZE
              (Hnum K_positionHistorySize)) as [C1 U1].
  destruct (numericUpdate_settled g (p_trajectoryPredictionTime props)
              K_trajectoryPredictionTime
              MIN_TRAJECTORY_PREDICTION_TIME MAX_TRAJECTORY_PREDICTION_TIME
              (Hnum K_trajectoryPredictionTime)) as [C2 U2].
  destruct (numericUpdate_settled g (p_scrollMargin props) K_scrollMargin
              MIN_SCROLL_MARGIN MAX_SCROLL_MARGIN (Hnum K_scrollMargin)) as [C3 U3].
  destruct (numericUpdate_settled g (p_tabOffset props) K_tabOffset
              MIN_TAB_OFFSET MAX_TAB_OFFSET (Hnum K_tabOffset)) as [C4 U4].
  destruct (booleanUpdate_settled g (p_enableMousePrediction props)
              K_enableMousePrediction (Hbool K_enableMousePrediction)) as [C5 U5].
  destruct (booleanUpdate_settled g (p_enableScrollPrediction props)
              K_enableScrollPrediction (Hbool K_enableScrollPrediction)) as [C6 U6].
  destruct (booleanUpdate_settled g (p_enableTabPrediction props)
              K_enableTabPrediction (Hbool K_enableTabPrediction)) as [C7 U7].
  assert (Hbefore : settingsBeforeHitSlop g props = g).
  { unfold settingsBeforeHitSlop. rewrite U1, U2, U3, U4, U5, U6, U7.
    destruct (p_onAnyCallbackFired props) as [h|]; [|reflexivity].
    specialize (Hhook h eq_refl). destruct g; cbn in *. now subst. }
  assert (Hchange : hitSlopChange g props = false).
  { unfold hitSlopChange. rewrite Hbefore.
    destruct (p_defaultHitSlop props) as [hs|]; [|reflexivity].
    rewrite (Hslop hs eq_refl).
    now rewrite (proj2 (areRectsEqual_eq _ _) eq_refl). }
  assert (Hg : alteredSettings g props = g).
  { unfold alteredSettings. rewrite Hchange, Hbefore.
    now destruct (p_defaultHitSlop props). }
  assert (Hany : anyChange g props = false).
  { unfold anyChange. rewrite U1, U2, U3, U4, U5, C1, C2, C3, C4, C5, C6, Hchange.
    rewrite U6, C7. reflexivity. }
  assert (Ht : alteredHistory g props (trajectoryPositions s) = trajectoryPositions s).
  { unfold alteredHistory. now rewrite C1. }
  rewrite alterGlobalSettings_stages. cbv zeta. fold g.
  rewrite Hany, Hchange, Hg, Ht. subst g. now destruct s.
Qed.

Lemma getBoolean_setNumeric g k k' v : getBoolean (setNumeric g k' v) k = getBoolean g k.
Proof. destruct k, k'; reflexivity. Qed.

Lemma getBoolean_numericUpdate g nv k k' lo hi :
  getBoolean (numericUpdate g nv k' lo hi) k = getBoolean g k.
Proof.
  unfold numericUpdate. destruct nv as [v|]; [|reflexivity].
  destruct (numericChange g (Some v) k'); [apply getBoolean_setNumeric | reflexivity].
Qed.

Lemma getBoolean_booleanUpdate g nv k k' :
  getBoolean (booleanUpdate g nv k') k
  = match k, k' with
    | K_enableMousePrediction, K_enableMousePrediction
    | K_enableScrollPrediction, K_enableScrollPrediction
    | K_enableTabPrediction, K_enableTabPrediction =>
        match nv with Some v => v | None => getBoolean g k end
    | _, _ => getBoolean g k
    end.
Proof.
  unfold booleanUpdate, booleanChange, shouldUpdateSetting.
  destruct nv as [v|]; [|now destruct k, k'].
  destruct k, k'; cbn [getBoolean];
    match goal with
    | |- context [Bool.eqb ?a ?b] => destruct (Bool.eqb a b) eqn:E
    end; cbn [negb]; try reflexivity;
    apply Bool.eqb_prop in E; now subst.
Qed.

(** After one application of settings whose numeric values are in range,
    the settings hold everything that was given. *)
Lemma altered_is_settled g props :
  givenInRange props -> settled (alteredSettings g props) props.
Proof.
  intros Hrange. repeat split.
  - intros k v Hk. rewrite getNumeric_alteredSettings, Hk.
    destruct (v =? getNumeric g k) eqn:E; [lia|].
    specialize (Hrange k v Hk). unfold clampNumber.
    destruct (v <? minOf k) eqn:E1; [lia|]. destruct (maxOf k <? v) eqn:E2; lia.
  - intros k v Hk.
    assert (Hb : getBoolean (alteredSettings g props) k
                 = getBoolean (settingsBeforeHitSlop g props) k).
    { unfold alteredSettings. destruct (p_defaultHitSlop props); [|reflexivity].
      destruct (hitSlopChange g props); [|reflexivity]. now destruct k. }
    rewrite Hb. unfold settingsBeforeHitSlop.
    assert (Hh : forall g', getBoolean
                              match p_onAnyCallbackFired props with
                              | Some h => set_onAnyCallbackFired g' h
                              | None => g'
                              end k = getBoolean g' k).
    { intros g'. destruct (p_onAnyCallbackFired props); now destruct k. }
    rewrite Hh, !getBoolean_booleanUpdate.
    destruct k; cbn [p_boolean] in Hk; rewrite Hk; reflexivity.
  - intros h Hh. unfold alteredSettings, settingsBeforeHitSlop. rewrite Hh.
    destruct (p_defaultHitSlop props); [|reflexivity].
    now destruct (hitSlopChange g props).
  - intros hs Hhs. unfold alteredSettings. rewrite Hhs.
    unfold hitSlopChange. rewrite Hhs.
    destruct (negb (areRectsEqual (defaultHitSlop (settingsBeforeHitSlop g props))
                      (normalizeHitSlop hs))) eqn:E; [reflexivity|].
    apply negb_false_iff, areRectsEqual_eq in E. exact E.
Qed.

(** Where C2 holds: settings whose numeric values are all in range,
    applied twice in a row, change nothing and publish nothing the second
    time. *)
Lemma in_range_settings_are_idempotent (s : Manager)
    (props : UpdateForsightManagerSettings) (rects rects' : ForesightElement -> Rect) :
  givenInRange props ->
  alterGlobalSettings (alterGlobalSettings s props rects) props rects'
  = alterGlobalSettings s props rects.
Proof.
  intros Hrange. apply settled_is_fixed.
  rewrite alterGlobalSettings_settings. now apply altered_is_settled.
Qed.

End GivenTwice.

(** ** More facts about the registry *)

Module RegistryMore.

Import Registry.

Lemma keys_set d m :
  keys (set d m) = if has (element d) m then keys m else keys m ++ [element d].
Proof.
  unfold has, get, keys. induction m as [|r m IH]; cbn; [reflexivity|].
  destruct (Nat.eqb (element r) (element d)) eqn:E; cbn.
  - apply Nat.eqb_eq in E. now rewrite E.
  - rewrite IH. now destruct (find _ m).
Qed.

Lemma keys_delete el m : keys (delete el m) = filter (fun k => negb (Nat.eqb k el)) (keys m).
Proof.
  unfold keys, delete. induction m as [|r m IH]; cbn; [reflexivity|].
  destruct (negb (Nat.eqb (element r) el)); cbn; now rewrite IH.
Qed.

Lemma keys_mutate el f m :
  (forall d, element (f d) = element d) -> keys (mutate el f m) = keys m.
Proof.
  intros Hf. unfold keys, mutate. rewrite map_map. apply map_ext.
  intros d. now destruct (Nat.eqb (element d) el).
Qed.

Lemma has_keys el m : has el m = among el (keys m).
Proof.
  unfold has, get, keys, among. induction m as [|r m IH]; cbn; [reflexivity|].
  rewrite (Nat.eqb_sym el). now destruct (Nat.eqb (element r) el).
Qed.

Lemma among_In el l : among el l = true <-> In el l.
Proof.
  unfold among. rewrite existsb_exists. split.
  - intros [x [Hin E]]. apply Nat.eqb_eq in E. now subst.
  - intros Hin. exists el. split; [exact Hin | apply Nat.eqb_refl].
Qed.

Lemma NoDup_set d m : NoDup (keys m) -> NoDup (keys (set d m)).
Proof.
  intros Hm. rewrite keys_set. destruct (has (element d) m) eqn:E; [exact Hm|].
  apply NoDup_app; [exact Hm | repeat constructor; intros [] | ].
  intros k Hin [<-|[]]. apply among_In in Hin. rewrite <- has_keys in Hin. congruence.
Qed.

Lemma NoDup_delete el m : NoDup (keys m) -> NoDup (keys (delete el m)).
Proof. intros Hm. rewrite keys_delete. now apply NoDup_filter. Qed.

Lemma delete_set_absent d m : get (element d) m = None -> delete (element d) (set d m) = m.
Proof.
  unfold get, delete. induction m as [|r m IH]; cbn.
  - intros _. now rewrite Nat.eqb_refl.
  - destruct (Nat.eqb (element r) (element d)) eqn:E; [discriminate|].
    intros Hm. cbn. rewrite E. cbn. now rewrite IH.
Qed.

Lemma length_mutate el f m : length (mutate el f m) = length m.
Proof. apply length_map. Qed.

End RegistryMore.

Lemma isCallbackInvoked_free : bookkeepingFree isCallbackInvoked.
Proof. repeat split; intros; reflexivity. Qed.

(** ** One record per element *)

Section OneRecord.

Context {helpers : Helpers} {constants : Constants} {host : Host}.

Lemma oneRecordPerElement_stable : Stable true oneRecordPerElement.
Proof.
  unfold oneRecordPerElement. apply stable_by_moves; intros; try assumption.
  - rewrite unregister_elements. now apply RegistryMore.NoDup_delete.
  - rewrite counted_elements. now rewrite RegistryMore.keys_mutate.
  - cbn [elements set_elements]. now apply RegistryMore.NoDup_set.
Qed.

Lemma register_record s opts env :
  shouldRegister env = true ->
  elements (fst (register s opts env))
  = Registry.set (freshRecord s opts) (elements s).
Proof.
  intros Hshould. unfold register, freshRecord. rewrite Hshould. cbn [negb fst].
  cbn [emit elements set_trace set_positionObserver set_elements].
  destruct (isSetup s) eqn:Eset; cbn [negb]; [reflexivity|].
  unfold initializeGlobalListeners. rewrite Eset.
  destruct (hasWindowAndDocument env); reflexivity.
Qed.

(** X1.  The registry never holds two records for one element, in any state
    the manager can reach.  Registering an element that is registered
    already overwrites its record in place: the keys and their order are
    as before, and the record stored is the fresh one of the new options,
    with the new callback and with all hit counters at zero. *)
Theorem register_replaces_record (s : Manager) :
  reachable s ->
  oneRecordPerElement s
  /\ forall opts env,
      shouldRegister env = true ->
      Registry.has (o_element opts) (elements s) = true ->
      let s' := fst (register s opts env) in
      Registry.keys (elements s') = Registry.keys (elements s)
      /\ Registry.get (o_element opts) (elements s') = Some (freshRecord s opts).
Proof.
  intros Hreach. split.
  - revert s Hreach. apply reachable_invariant; [constructor|].
    intros s a _ HP.
    apply (stable_step oneRecordPerElement (stable := oneRecordPerElement_stable));
      [exact HP | apply counts_always |..].
    + intros opts env _. unfold oneRecordPerElement.
      destruct (shouldRegister env) eqn:Eshould.
      * rewrite (register_record s opts env Eshould).
        now apply RegistryMore.NoDup_set.
      * unfold register. rewrite Eshould. exact HP.
    + intros props rects _.
      apply (stable_alterGlobalSettings oneRecordPerElement
               (stable := oneRecordPerElement_stable)); [|exact HP].
      intros s0 g t H0. exact H0.
    + intros e _. apply configBlind_updatePointerState; [|exact HP].
      intros s0 g t H0. exact H0.
    + intros s0 H0. exact H0.
  - intros opts env Hshould Hhas s'.
    subst s'. rewrite (register_record s opts env Hshould). split.
    + rewrite RegistryMore.keys_set. cbn [freshRecord element]. now rewrite Hhas.
    + apply (RegistryFacts.get_set_same (freshRecord s opts)).
Qed.

(** An element that is not registered is not unregistered: nothing is
    published and nothing changes. *)
Lemma unregister_absent s el r :
  Registry.get el (elements s) = None -> unregister s el r = s.
Proof. intros Hg. unfold unregister. now rewrite Hg. Qed.

(** X2.  Registering an element that was not registered and calling the
    [unregister] handle of the result leaves the registry as it was before
    the registration, and unregistering is idempotent: a second call for
    the same element changes nothing and publishes nothing. *)
Theorem register_then_unregister (s : Manager) (opts : ForesightRegisterOptions)
    (env : RegisterEnv) :
  shouldRegister env = true ->
  Registry.has (o_element opts) (elements s) = false ->
  let el := o_element opts in
  let s1 := fst (register s opts env) in
  let result := snd (register s opts env) in
  res_isRegistered result = true
  /\ res_unregister result = Some el
  /\ Registry.has el (elements s1) = true
  /\ elements (unregister s1 el apiCall) = elements s
  /\ forall r,
      unregister (unregister s1 el apiCall) el r = unregister s1 el apiCall.
Proof.
  intros Hshould Hhas el s1 result.
  pose proof (register_record s opts env Hshould) as Hel. fold s1 in Hel.
  assert (Hres : res_isRegistered result = true /\ res_unregister result = Some el).
  { subst result. unfold register. rewrite Hshould. now split. }
  destruct Hres as [Hres1 Hres2].
  repeat split; [exact Hres1 | exact Hres2 | | |].
  - rewrite Hel, RegistryFacts.has_set. cbn [freshRecord element].
    subst el. now rewrite Nat.eqb_refl.
  - rewrite unregister_elements, Hel.
    apply (RegistryMore.delete_set_absent (freshRecord s opts)).
    cbn [freshRecord element]. unfold Registry.has in Hhas.
    now destruct (Registry.get (o_element opts) (elements s)).
  - intros r. apply unregister_absent.
    rewrite unregister_elements. apply RegistryFacts.get_delete_same.
Qed.

End OneRecord.

(** ** The hit counters *)

Section Counters.

Context {helpers : Helpers} {constants : Constants} {host : Host}.

Lemma removeGlobalListeners_hits s :
  globalCallbackHits (removeGlobalListeners s) = globalCallbackHits s.
Proof.
  unfold removeGlobalListeners. cbn. now destruct (globalListenersController s).
Qed.

Lemma unregister_hits s el r :
  globalCallbackHits (unregister s el r) = globalCallbackHits s.
Proof.
  unfold unregister. destruct (Registry.get el (elements s)) as [d|]; [|reflexivity].
  match goal with |- context [if ?c then _ else _] => destruct c end;
    rewrite ?removeGlobalListeners_hits; cbn [globalCallbackHits set_elements];
    destruct (trajectoryHitExpirationTimeoutId (trajectoryHitData d)) as [[|id]|];
    reflexivity.
Qed.

(** The global counters are raised before the callback is called. *)
Lemma callCallback_hits s d h :
  globalCallbackHits (state (callCallback s (Some d) h))
  = bumpHits (globalCallbackHits s) h.
Proof.
  rewrite callCallback_eq. cbv zeta.
  destruct (callbackThrows _ _); [reflexivity|].
  destruct (hookThrows _ _); [reflexivity|].
  cbn [state snd]. now rewrite unregister_hits.
Qed.

Lemma register_hits s opts env :
  globalCallbackHits (fst (register s opts env)) = globalCallbackHits s.
Proof.
  unfold register. destruct (negb (shouldRegister env)); [reflexivity|]. cbn [fst].
  cbn [emit globalCallbackHits set_trace set_positionObserver set_elements].
  destruct (negb (isSetup s)); [|reflexivity].
  unfold initializeGlobalListeners.
  destruct (isSetup s); [reflexivity|].
  destruct (negb (hasWindowAndDocument env)); reflexivity.
Qed.

Lemma total_bumpHits hits h : total (bumpHits hits h) = total hits + 1.
Proof. destruct h as [[]|[]|[]]; reflexivity. Qed.

Lemma totalCountsInvocations_stable : Stable true totalCountsInvocations.
Proof.
  unfold totalCountsInvocations, invocations.
  constructor; [constructor|..]; intros; try assumption.
  - now rewrite count_emit by apply isCallbackInvoked_free.
  - rewrite count_unregister by apply isCallbackInvoked_free.
    now rewrite unregister_hits.
  - rewrite count_callCallback by apply isCallbackInvoked_free.
    rewrite callCallback_hits, total_bumpHits. cbn [isCallbackInvoked]. lia.
Qed.

(** X3.  The global [total] counter counts the callbacks: in every state
    the manager can reach it equals the number of callback invocations
    made so far, whatever their kind. *)
Theorem global_total_counts_callbacks (s : Manager) :
  reachable s -> total (globalCallbackHits s) = Z.of_nat (invocations s).
Proof.
  revert s. apply (reachable_invariant totalCountsInvocations); [reflexivity|].
  intros s a _ HP.
  apply (stable_step totalCountsInvocations (stable := totalCountsInvocations_stable));
    [exact HP | apply counts_always |..].
  - intros opts env _. unfold totalCountsInvocations, invocations.
    rewrite register_hits, register_trace_count by apply isCallbackInvoked_free.
    exact HP.
  - intros props rects _.
    apply (stable_alterGlobalSettings totalCountsInvocations
             (stable := totalCountsInvocations_stable)); [|exact HP].
    intros s0 g t H0. exact H0.
  - intros e _. apply configBlind_updatePointerState; [|exact HP].
    intros s0 g t H0. exact H0.
  - intros s0 H0. exact H0.
Qed.

End Counters.

(** ** The observers *)

Section Observers.

Context {helpers : Helpers} {constants : Constants} {host : Host}.

Lemma among_filter x el l :
  among x (filter (fun o => negb (Nat.eqb o el)) l) = among x l && negb (Nat.eqb x el).
Proof.
  unfold among. induction l as [|o l IH]; cbn; [reflexivity|].
  destruct (Nat.eqb o el) eqn:Eo; cbn.
  - rewrite IH. apply Nat.eqb_eq in Eo. subst o.
    destruct (Nat.eqb x el); cbn; [now rewrite andb_false_r | reflexivity].
  - rewrite IH. destruct (Nat.eqb x o) eqn:Ex; cbn; [|reflexivity].
    apply Nat.eqb_eq in Ex. subst o. now rewrite Eo.
Qed.

Lemma among_app x l l' : among x (l ++ l') = among x l || among x l'.
Proof. apply existsb_app. Qed.

Lemma nonempty_of_get el m d :
  Registry.get el m = Some d -> Nat.eqb (length m) 0 = false.
Proof. destruct m; [discriminate | reflexivity]. Qed.

Lemma observersFollowRegistry_removed s el d :
  Registry.get el (elements s) = Some d ->
  observersFollowRegistry s ->
  let s' :=
    set_elements
      (set_positionObserver s
         (option_map (filter (fun o => negb (Nat.eqb o el))) (positionObserver s)))
      (Registry.delete el (elements s)) in
  observersFollowRegistry
    (if Nat.eqb (length (elements s')) 0 && isSetup s'
     then removeGlobalListeners s' else s').
Proof.
  intros Hg [Hset [Hdom [Hobs Hall]]]. cbv zeta.
  rewrite (nonempty_of_get _ _ _ Hg) in Hset. cbn [negb] in Hset.
  cbn [elements set_elements isSetup set_positionObserver].
  destruct (Registry.delete el (elements s)) as [|r m] eqn:Edel;
    cbn [length Nat.eqb andb]; rewrite ?Hset.
  - unfold observersFollowRegistry, observes, removeGlobalListeners. cbn.
    destruct (globalListenersController s); cbn; repeat split.
  - unfold observersFollowRegistry, observes.
    cbn [elements set_elements isSetup set_positionObserver domObserver
         positionObserver length Nat.eqb negb].
    split; [exact Hset|]. split; [exact Hdom|].
    rewrite <- Edel. unfold observes in Hall.
    destruct (positionObserver s) as [obs|]; cbn [option_map]; [|congruence].
    split; [exact Hset|]. intros x.
    now rewrite among_filter, RegistryFacts.has_delete, Hall.
Qed.

Lemma observersFollowRegistry_unregister s el r :
  observersFollowRegistry s -> observersFollowRegistry (unregister s el r).
Proof.
  intros HP. unfold unregister.
  destruct (Registry.get el (elements s)) as [d|] eqn:Hg; [|exact HP].
  cbv zeta.
  destruct (trajectoryHitExpirationTimeoutId (trajectoryHitData d)) as [[|id]|];
    match goal with
    | |- context [set_positionObserver ?s0 _] =>
        apply (observersFollowRegistry_removed s0 el d); solve [exact Hg | exact HP]
    end.
Qed.

Lemma observersFollowRegistry_stable : Stable true observersFollowRegistry.
Proof.
  apply stable_by_moves; intros; try assumption.
  - now apply observersFollowRegistry_unregister.
  - match goal with
    | HP : observersFollowRegistry _ |- _ => destruct HP as [Hset [Hdom [Hobs Hall]]]
    end.
    unfold observersFollowRegistry, observes, counted, updateHitCounters in *.
    cbn [snd elements set_elements isSetup set_trace set_globalCallbackHits
         domObserver positionObserver].
    rewrite RegistryMore.length_mutate.
    repeat split; try assumption.
    intros x. now rewrite RegistryFacts.has_mutate.
  - match goal with
    | HP : observersFollowRegistry _ |- _ => destruct HP as [Hset [Hdom [Hobs Hall]]]
    end.
    unfold observersFollowRegistry, observes in *.
    cbn [elements set_elements isSetup domObserver positionObserver].
    assert (Hlen : Nat.eqb (length (Registry.set d (elements s))) 0 = false).
    { destruct (Registry.set d (elements s)) eqn:E; [|reflexivity].
      now apply RegistryFacts.set_not_nil in E. }
    rewrite Hlen. apply RegistryFacts.has_true in H. destruct H as [d0 Hd0].
    rewrite (nonempty_of_get _ _ _ Hd0) in Hset.
    repeat split; try assumption.
    intros x. rewrite RegistryFacts.has_set, Hall.
    destruct (Nat.eqb x (element d)) eqn:E; [|reflexivity].
    apply Nat.eqb_eq in E. subst x. unfold Registry.has. now rewrite Hd0.
Qed.

Lemma observersFollowRegistry_register s opts env :
  hasWindowAndDocument env = true ->
  observersFollowRegistry s -> observersFollowRegistry (fst (register s opts env)).
Proof.
  intros Hwin HP. pose proof HP as [Hset [Hdom [Hobs Hall]]].
  unfold register.
  destruct (negb (shouldRegister env)); [exact HP|]. cbn [fst].
  unfold observersFollowRegistry, observes in *.
  cbn [emit elements isSetup domObserver positionObserver set_trace set_positionObserver
       set_elements].
  match goal with
  | |- context [Registry.set ?d _] => set (record := d)
  end.
  destruct (isSetup s) eqn:Eset; cbn [negb].
  - rewrite Eset, Hdom.
    assert (Hlen : Nat.eqb (length (Registry.set record (elements s))) 0 = false).
    { destruct (Registry.set record (elements s)) eqn:E; [|reflexivity].
      now apply RegistryFacts.set_not_nil in E. }
    rewrite Hlen.
    destruct (positionObserver s) as [obs|]; [|discriminate]. cbn [option_map].
    repeat split. intros x.
    rewrite among_app, RegistryFacts.has_set, Hall. cbn [among existsb].
    subst record. cbn [element]. rewrite orb_false_r. apply orb_comm.
  - unfold initializeGlobalListeners. rewrite Eset, Hwin. cbn [negb].
    cbn [elements isSetup domObserver positionObserver set_isSetup set_positionObserver
         set_domObserver set_documentListeners set_globalListenersController
         set_nextController option_map].
    destruct (elements s) as [|r m]; [|discriminate].
    cbn. repeat split. intros x. unfold Registry.has, Registry.get. cbn.
    rewrite (Nat.eqb_sym (o_element opts)). now destruct (Nat.eqb x (o_element opts)).
Qed.

(** X4.  On a page in a browser, whatever the consumer and the browser do:
    the manager is set up exactly while the registry is not empty, the
    mutation observer and the position observer exist exactly while it is
    set up, and the position observer observes exactly the registered
    elements. *)
Theorem observers_follow_registry (actions : list Action) :
  Forall (fun a => inBrowser a = true) actions ->
  observersFollowRegistry (run newManager actions).
Proof.
  induction actions as [|a actions IH] using rev_ind; intros Hall.
  - repeat split.
  - apply Forall_app in Hall. destruct Hall as [Hall Ha].
    apply Forall_inv in Ha. specialize (IH Hall).
    unfold run. rewrite fold_left_app. cbn [fold_left].
    fold (run newManager actions).
    apply (stable_step observersFollowRegistry (stable := observersFollowRegistry_stable));
      [exact IH | apply counts_always |..].
    + intros opts env ->. now apply observersFollowRegistry_register.
    + intros props rects _.
      apply (stable_alterGlobalSettings observersFollowRegistry
               (stable := observersFollowRegistry_stable)); [|exact IH].
      intros s0 g t H0. exact H0.
    + intros e _. apply configBlind_updatePointerState; [|exact IH].
      intros s0 g t H0. exact H0.
    + intros s0 H0. exact H0.
Qed.

End Observers.

(** ** Fields that only the position handler writes *)

Section Offstage.

Context {helpers : Helpers} {constants : Constants} {host : Host}.
Context {A : Type} (proj : Manager -> A).
Context {bystander : Bystander proj} {offstage : Offstage proj}.

Lemma forEachElement_offstage body s :
  (forall acc d, proj (body acc d) = proj acc) ->
  proj (forEachElement body s) = proj s.
Proof.
  intros Hbody. unfold forEachElement.
  generalize (Registry.keys (elements s)). intros l. revert s.
  induction l as [|k l IH]; intros s; cbn [fold_left]; [reflexivity|].
  rewrite IH. destruct (Registry.get k (elements s)); [apply Hbody | reflexivity].
Qed.

Lemma forceUpdateAllElementBounds_offstage s rects :
  proj (forceUpdateAllElementBounds s rects) = proj s.
Proof.
  apply forEachElement_offstage. intros acc d.
  destruct (isIntersectingWithViewport d); [|reflexivity].
  unfold forceUpdateElementBounds.
  destruct (negb (areRectsEqual _ _)); [|reflexivity].
  now rewrite (emit_bystander proj), by_elements.
Qed.

Lemma alterGlobalSettings_offstage s props rects :
  proj (alterGlobalSettings s props rects) = proj s.
Proof.
  rewrite alterGlobalSettings_stages. cbv zeta.
  destruct (anyChange (globalSettings s) props);
    destruct (hitSlopChange (globalSettings s) props);
    rewrite ?(emit_bystander proj), ?forceUpdateAllElementBounds_offstage;
    now rewrite off_trajectoryPositions, off_globalSettings.
Qed.

Lemma mouseTurn_offstage s k : proj (state (mouseTurn s k)) = proj s.
Proof.
  rewrite mouseTurn_eq. destruct (Registry.get k (elements s)) as [d|]; [|reflexivity].
  destruct (isIntersectingWithViewport d && mouseHit s (expandedRect (elementBounds d)));
    [|reflexivity].
  apply (callCallback_bystander proj).
Qed.

Lemma handleMouseMove_offstage s e : proj (state (handleMouseMove s e)) = proj s.
Proof.
  change (handleMouseMove s e)
    with (let! s1 :=
            forEachOrThrow mouseTurn
              (Registry.keys (elements (updatePointerState s e))) (updatePointerState s e) in
          (Normal,
           emit s1 (mouseTrajectoryUpdate (enableMousePrediction (globalSettings s1))
                      (trajectoryPositions s1)))).
  assert (Hloop : proj (state
                          (forEachOrThrow mouseTurn
                             (Registry.keys (elements (updatePointerState s e)))
                             (updatePointerState s e)))
                  = proj s).
  { apply (forEachOrThrow_kept true (fun s' => proj s' = proj s));
      [| |apply counts_always].
    - intros acc k Hacc _. now rewrite mouseTurn_offstage.
    - unfold updatePointerState.
      destruct (enableMousePrediction (globalSettings s)); apply off_trajectoryPositions. }
  destruct (forEachOrThrow mouseTurn _ _) as [[|thrower] s1];
    cbn [andThenDo state snd] in *; [|exact Hloop].
  now rewrite (emit_bystander proj).
Qed.

Lemma handleFocusIn_offstage s focusTarget tabbableNow :
  proj (state (handleFocusIn s focusTarget tabbableNow)) = proj s.
Proof.
  unfold handleFocusIn.
  destruct (lastKeyDown s); [|reflexivity].
  destruct (negb (enableTabPrediction (globalSettings s))); [reflexivity|].
  destruct focusTarget; [|reflexivity].
  rewrite (fireAll_bystander proj), off_lastKeyDown, off_lastFocusedIndex.
  destruct (tabbableElementsCache s); [apply off_tabbableElementsCache | reflexivity].
Qed.

Lemma unregisterAll_bystander (l : list ForesightElement) (pick : ForesightElement -> bool)
    r s :
  proj (fold_left (fun acc el => if pick el then unregister acc el r else acc) l s)
  = proj s.
Proof.
  revert s. induction l as [|k l IH]; intros s; cbn [fold_left]; [reflexivity|].
  rewrite IH. destruct (pick k); [apply (unregister_bystander proj) | reflexivity].
Qed.

Lemma domLoop_bystander (mutationsList : list MutationRecord)
    (isConnected : ForesightElement -> bool) s :
  proj (fold_left
          (fun acc mutation =>
             match mutationType mutation, removedNodes mutation with
             | childList, S _ =>
                 fold_left
                   (fun acc' el =>
                      if negb (isConnected el) then unregister acc' el disconnected
                      else acc')
                   (Registry.keys (elements acc)) acc
             | _, _ => acc
             end)
          mutationsList s)
  = proj s.
Proof.
  revert s. induction mutationsList as [|m ms IH]; intros s; cbn [fold_left];
    [reflexivity|].
  rewrite IH. destruct (mutationType m); [|reflexivity..].
  destruct (removedNodes m); [reflexivity|].
  apply (unregisterAll_bystander _ (fun el => negb (isConnected el))).
Qed.

Lemma handleDomMutations_offstage s mutationsList isConnected :
  proj (handleDomMutations s mutationsList isConnected) = proj s.
Proof.
  unfold handleDomMutations. rewrite domLoop_bystander.
  destruct mutationsList; [reflexivity|].
  now rewrite off_lastFocusedIndex, off_tabbableElementsCache.
Qed.

(** No call of the consumer and no handler other than the position
    handler writes such a field. *)
Lemma step_offstage s a :
  (forall entries, a <> PositionsChanged entries) -> proj (step s a) = proj s.
Proof.
  intros Ha. unfold step. destruct a; cbn [dispatch]; cbn [state snd].
  - apply (register_bystander proj).
  - apply (unregister_bystander proj).
  - apply alterGlobalSettings_offstage.
  - unfold addEventListener. destruct signalAborted as [[|]|];
      solve [reflexivity | apply off_eventListeners].
  - apply off_eventListeners.
  - destruct (attached _ _ _); [apply handleMouseMove_offstage | reflexivity].
  - destruct (attached _ _ _); [|reflexivity]. unfold handleKeyDown.
    destruct (String.eqb _ _); [apply off_lastKeyDown | reflexivity].
  - destruct (attached _ _ _); [apply handleFocusIn_offstage | reflexivity].
  - destruct (domObserver s); [apply handleDomMutations_offstage | reflexivity].
  - now contradiction (Ha entries).
Qed.

End Offstage.

#[export] Instance scrollDirection_offstage : Offstage scrollDirection.
Proof. constructor; intros; reflexivity. Qed.

#[export] Instance predictedScrollPoint_offstage : Offstage predictedScrollPoint.
Proof. constructor; intros; reflexivity. Qed.

Section ScrollCacheAtRest.

Context {helpers : Helpers} {constants : Constants} {host : Host}.

(** A batch that returns ends with the reset; a batch that is left by an
    exception is left where its loop was left. *)
Lemma handlePositionChange_ways s entries :
  (returns (handlePositionChange s entries) ->
   scrollDirection (state (handlePositionChange s entries)) = None
   /\ predictedScrollPoint (state (handlePositionChange s entries)) = None)
  /\ (~ returns (handlePositionChange s entries) ->
      state (handlePositionChange s entries)
      = state (forEachOrThrow handlePositionEntry entries s)).
Proof.
  unfold handlePositionChange.
  destruct (forEachOrThrow handlePositionEntry entries s) as [[|thrower] s1];
    cbn [andThenDo state snd]; split; intros H.
  - now split.
  - now contradiction H.
  - discriminate H.
  - reflexivity.
Qed.

(** X5.  Between two events the scroll cache is empty, as long as every
    position batch so far has returned: no scroll direction and no
    predicted scroll point are stored, so that the next position batch
    starts by computing its own.  Only a position batch writes the cache
    at all.  A batch that returns leaves the cache empty; a batch that is
    left by an exception of a callback or of the hook skips the reset, and
    the manager stays as the loop of the batch left it. *)
Theorem scroll_cache_is_empty_at_rest (actions : list Action) :
  alongRun batchReturns newManager actions ->
  let s := run newManager actions in
  scrollDirection s = None
  /\ predictedScrollPoint s = None
  /\ (forall a,
        (forall entries, a <> PositionsChanged entries) ->
        scrollDirection (step s a) = scrollDirection s
        /\ predictedScrollPoint (step s a) = predictedScrollPoint s)
  /\ (forall entries,
        returns (handlePositionChange s entries) ->
        scrollDirection (state (handlePositionChange s entries)) = None
        /\ predictedScrollPoint (state (handlePositionChange s entries)) = None)
  /\ (forall entries,
        ~ returns (handlePositionChange s entries) ->
        state (handlePositionChange s entries)
        = state (forEachOrThrow handlePositionEntry entries s)).
Proof.
  intros Halong s.
  assert (Hrest : scrollDirection s = None /\ predictedScrollPoint s = None).
  { subst s. revert Halong.
    apply (alongRun_invariant batchReturns
             (fun s => scrollDirection s = None /\ predictedScrollPoint s = None));
      [|now split].
    intros s a [Hd Hp] Ha. destruct a;
      try (rewrite (step_offstage scrollDirection), (step_offstage predictedScrollPoint)
             by discriminate; now split).
    unfold step, batchReturns, returnsAt in *. cbn [dispatch] in *.
    destruct (positionObserver s); [|now split].
    now apply handlePositionChange_ways. }
  destruct Hrest as [Hd Hp]. split; [exact Hd|]. split; [exact Hp|].
  split; [|split].
  - intros a Ha. split.
    + now apply (step_offstage scrollDirection).
    + now apply (step_offstage predictedScrollPoint).
  - intros entries. apply handlePositionChange_ways.
  - intros entries. apply handlePositionChange_ways.
Qed.

(** The tail of [handleScrollPrefetch] is left by an exception only
    from the call of the callback. *)
Lemma scrollFire_thrown s d h (hit : bool) (ev : Manager -> ForesightEvent) :
  ~ returns
      (let! s1 := if hit then callCallback s (Some d) h else (Normal, s) in
       (Normal, emit s1 (ev s1))) ->
  forall {A : Type} (proj : Manager -> A) {bystander : Bystander proj},
    proj (state
            (let! s1 := if hit then callCallback s (Some d) h else (Normal, s) in
             (Normal, emit s1 (ev s1))))
    = proj s.
Proof.
  intros Hthrown A proj bystander. destruct hit.
  - pose proof (callCallback_bystander proj s (Some d) h) as Hby.
    destruct (callCallback s (Some d) h) as [[|thrower] s1];
      cbn [andThenDo state snd] in *; [|exact Hby].
    now contradiction Hthrown.
  - now contradiction Hthrown.
Qed.

(** With scroll prediction on, the callback is called with both slots of
    the cache filled. *)
Lemma handleScrollPrefetch_thrown s d newRect :
  enableScrollPrediction (globalSettings s) = true ->
  ~ returns (handleScrollPrefetch s d newRect) ->
  scrollDirection (state (handleScrollPrefetch s d newRect)) <> None
  /\ predictedScrollPoint (state (handleScrollPrefetch s d newRect)) <> None.
Proof.
  intros Hscroll. unfold handleScrollPrefetch. rewrite Hscroll.
  destruct (originalRect (elementBounds d)) as [original|];
    [|intros Hthrown; now contradiction Hthrown].
  destruct (scrollDirection s) as [direction|] eqn:Edir;
    [|set (direction := getScrollDirection original newRect)];
    destruct direction eqn:Edirection;
    cbn [predictedScrollPoint trajectoryPositions globalSettings trace set_trace
         set_scrollDirection];
    try (intros Hthrown; now contradiction Hthrown);
    destruct (predictedScrollPoint s) as [predicted|] eqn:Ept;
    cbn [predictedScrollPoint trajectoryPositions globalSettings trace set_trace
         set_scrollDirection set_predictedScrollPoint];
    intros Hthrown;
    rewrite (scrollFire_thrown _ _ _ _ _ Hthrown scrollDirection),
      (scrollFire_thrown _ _ _ _ _ Hthrown predictedScrollPoint);
    cbn [scrollDirection predictedScrollPoint set_trace set_scrollDirection
         set_predictedScrollPoint];
    rewrite ?Edir, ?Ept; split; discriminate.
Qed.

Lemma handlePositionEntry_settings s entry :
  globalSettings (state (handlePositionEntry s entry)) = globalSettings s.
Proof.
  apply (stable_handlePositionEntry true
           (fun s' => globalSettings s' = globalSettings s)
           (stable := stable_of_config true (fun g _ => g = globalSettings s)));
    [reflexivity | apply counts_always].
Qed.

Lemma handlePositionEntry_thrown s entry :
  enableScrollPrediction (globalSettings s) = true ->
  ~ returns (handlePositionEntry s entry) ->
  scrollDirection (state (handlePositionEntry s entry)) <> None
  /\ predictedScrollPoint (state (handlePositionEntry s entry)) <> None.
Proof.
  intros Hscroll. unfold handlePositionEntry.
  destruct (Registry.get (target entry) (elements s)) as [d|];
    [|intros Hthrown; now contradiction Hthrown].
  cbv zeta.
  destruct (isIntersecting entry); [|intros Hthrown; now contradiction Hthrown].
  apply handleScrollPrefetch_thrown.
  unfold updateElementBounds. rewrite (emit_bystander globalSettings).
  cbn [globalSettings set_elements].
  destruct (negb (Bool.eqb (isIntersectingWithViewport d) true));
    [rewrite (emit_bystander globalSettings)|]; exact Hscroll.
Qed.

(** X19.  With scroll prediction on, a position batch that is left by an
    exception, of a callback or of the hook, leaves the scroll cache
    filled: the scroll direction and the predicted scroll point computed
    for the batch stay stored between events.  No call and no other event
    empties them; the next position batch uses them as they are, and
    empties them if it returns. *)
Theorem thrown_batch_leaves_cache_filled (s : Manager)
    (entries : list PositionObserverEntry) :
  enableScrollPrediction (globalSettings s) = true ->
  ~ returns (handlePositionChange s entries) ->
  let s' := state (handlePositionChange s entries) in
  scrollDirection s' <> None
  /\ predictedScrollPoint s' <> None
  /\ (forall a,
        (forall later, a <> PositionsChanged later) ->
        scrollDirection (step s' a) = scrollDirection s'
        /\ predictedScrollPoint (step s' a) = predictedScrollPoint s')
  /\ (forall later entry,
        (directionComputations (state (handlePositionEntry s' entry))
         <= directionComputations s')%nat
        /\ (pointComputations (state (handlePositionEntry s' entry))
            <= pointComputations s')%nat
        /\ (returns (handlePositionChange s' later) ->
            scrollDirection (state (handlePositionChange s' later)) = None
            /\ predictedScrollPoint (state (handlePositionChange s' later)) = None)).
Proof.
  intros Hscroll Hthrown s'.
  assert (Hfilled : scrollDirection s' <> None /\ predictedScrollPoint s' <> None).
  { subst s'. destruct (handlePositionChange_ways s entries) as [_ Hskip].
    rewrite (Hskip Hthrown).
    assert (Hloop : ~ returns (forEachOrThrow handlePositionEntry entries s)).
    { intros Hr. apply Hthrown. unfold handlePositionChange.
      apply returns_andThenDo. unfold returns in Hr.
      destruct (forEachOrThrow handlePositionEntry entries s) as [c s1]. cbn in Hr.
      subst c. now exists s1. }
    clear Hthrown Hskip. revert s Hscroll Hloop.
    induction entries as [|entry entries IH]; intros s Hscroll Hloop;
      [now contradiction Hloop|].
    cbn [forEachOrThrow] in *.
    pose proof (handlePositionEntry_settings s entry) as Hsettings.
    pose proof (handlePositionEntry_thrown s entry Hscroll) as Hentry.
    destruct (handlePositionEntry s entry) as [[|thrower] s1];
      cbn [andThenDo state snd] in *.
    - apply IH; [now rewrite Hsettings | exact Hloop].
    - apply Hentry. discriminate. }
  destruct Hfilled as [Hd Hp]. split; [exact Hd|]. split; [exact Hp|]. split.
  - intros a Ha. split.
    + now apply (step_offstage scrollDirection).
    + now apply (step_offstage predictedScrollPoint).
  - intros later entry. split; [|split].
    + now apply handlePositionEntry_direction_cached.
    + now apply handlePositionEntry_point_cached.
    + apply handlePositionChange_ways.
Qed.

End ScrollCacheAtRest.

(** ** What a mouse move leaves in the registry *)

Section MouseRegistry.

Context {helpers : Helpers} {constants : Constants} {host : Host}.

(** X6.  A mouse move that returns, which it does when no callback and
    no hook throws, invokes the callback of exactly the registered
    elements that are marked as intersecting the viewport and whose
    expanded rectangle passes the hit test against the updated pointer
    state, once each; it removes exactly those from the registry and
    leaves the record of every other element as it was.  However the move
    is left, no callback is invoked twice, and an element that does not
    pass the test is not invoked and keeps its record.  The move returns
    when no callback and no hook throws. *)
Theorem mouse_move_removes_what_it_fires (s : Manager) (e : MouseEvent)
    (el : ForesightElement) :
  let hit := mouseFires (updatePointerState s e) el in
  let r := handleMouseMove s e in
  (returns r ->
   fires el (state r) = (fires el s + if hit then 1 else 0)%nat
   /\ Registry.get el (elements (state r))
      = if hit then None else Registry.get el (elements s))
  /\ (fires el s <= fires el (state r))%nat
  /\ (fires el (state r) <= fires el s + if hit then 1 else 0)%nat
  /\ (hit = false ->
      fires el (state r) = fires el s
      /\ Registry.get el (elements (state r)) = Registry.get el (elements s))
  /\ (neverThrows -> returns r).
Proof.
  cbv zeta. split; [apply handleMouseMove_returns|].
  split; [apply handleMouseMove_bounds|].
  split; [apply handleMouseMove_bounds|].
  split; [apply handleMouseMove_miss|].
  intros Hquiet. apply (handleMouseMove_quiet Hquiet).
Qed.

End MouseRegistry.

(** ** One Tab press, one prediction *)

Section TabOnce.

Context {helpers : Helpers} {constants : Constants} {host : Host}.

(** An element that is not in the list keeps its place in the registry,
    however the loop is left. *)
Lemma fireAll_miss l h s el :
  among el l = false ->
  Registry.has el
    (elements
       (state
          (forEachOrThrow
             (fun acc x => callCallback acc (Registry.get x (elements acc)) h) l s)))
  = Registry.has el (elements s).
Proof.
  revert s. induction l as [|x l IH]; intros s Hout; cbn [forEachOrThrow]; [reflexivity|].
  cbn [among existsb] in Hout. apply orb_false_iff in Hout. destruct Hout as [Hx Hout].
  destruct (callCallback_get_fires s el x h) as [_ Hh]. cbv zeta in Hh.
  rewrite Hx, andb_false_l, andb_true_r in Hh.
  destruct (callCallback s (Registry.get x (elements s)) h) as [[|thrower] s1];
    cbn [andThenDo state snd] in *; [|exact Hh].
  now rewrite (IH s1 Hout).
Qed.

(** Without a recorded Tab key a focus change is ignored. *)
Lemma handleFocusIn_idle s focusTarget tabbableNow :
  lastKeyDown s = None -> handleFocusIn s focusTarget tabbableNow = (Normal, s).
Proof. intros Hkey. unfold handleFocusIn. now rewrite Hkey. Qed.

(** X7.  One Tab press gives one prediction.  The focus change that
    follows a Tab key, with tab prediction on, uses the key press up,
    however the handler is left: a further focus change does nothing, also
    after any key other than Tab has been pressed.  When the handler
    returns, which it does when no callback and no hook throws, it has
    removed from the registry exactly the registered elements of the tab
    window; however it is left, an element outside the window keeps its
    place in the registry. *)
Theorem tab_press_predicts_once (s : Manager) (lastKey : KeyboardEvent)
    (targetElement : ForesightElement) (tabbableNow : list ForesightElement)
    (el : ForesightElement) :
  lastKeyDown s = Some lastKey ->
  enableTabPrediction (globalSettings s) = true ->
  let tabbables :=
    match tabbableElementsCache s with
    | [] => tabbableNow
    | _ => tabbableElementsCache s
    end in
  let i := getFocusedElementIndex (shiftKey lastKey) (lastFocusedIndex s) tabbables
             targetElement in
  let window := tabWindow tabbables i (tabOffset (globalSettings s)) (shiftKey lastKey) in
  let r := handleFocusIn s (Some targetElement) tabbableNow in
  (returns r ->
   Registry.has el (elements (state r))
   = Registry.has el (elements s) && negb (among el window))
  /\ (among el window = false ->
      Registry.has el (elements (state r)) = Registry.has el (elements s))
  /\ lastKeyDown (state r) = None
  /\ (forall focusTarget tabbableThen,
         handleFocusIn (state r) focusTarget tabbableThen = (Normal, state r))
  /\ (forall e focusTarget tabbableThen,
         String.eqb (key e) "Tab" = false ->
         handleFocusIn (handleKeyDown (state r) e) focusTarget tabbableThen
         = (Normal, state r))
  /\ (neverThrows -> returns r).
Proof.
  intros Hkey Htab tabbables i window r.
  assert (Hr : r = handleFocusIn s (Some targetElement) tabbableNow) by reflexivity.
  rewrite (handleFocusIn_loop s lastKey targetElement tabbableNow Hkey Htab) in Hr.
  fold tabbables in Hr. fold i in Hr.
  assert (Hused : lastKeyDown (state r) = None).
  { rewrite Hr. now rewrite (fireAll_bystander lastKeyDown). }
  split; [|split; [|split; [exact Hused | split; [|split]]]].
  - intros Hret. rewrite Hr in *.
    destruct (fireAll_returns _ _ _ el Hret) as [_ ->].
    rewrite among_elementsToPredict.
    cbn [elements set_lastKeyDown set_lastFocusedIndex set_tabbableElementsCache].
    fold window.
    now destruct (Registry.has el (elements s)), (among el window).
  - intros Hout. rewrite Hr. rewrite fireAll_miss; [reflexivity|].
    rewrite among_elementsToPredict. fold window. rewrite Hout. apply andb_false_r.
  - intros focusTarget tabbableThen. now apply handleFocusIn_idle.
  - intros e focusTarget tabbableThen Hother. unfold handleKeyDown. rewrite Hother.
    now apply handleFocusIn_idle.
  - intros Hquiet. apply (handleFocusIn_quiet Hquiet).
Qed.

End TabOnce.

(** ** Elements that left the document *)

Section Disconnected.

Context {helpers : Helpers} {constants : Constants} {host : Host}.

Lemma unregisterAll_get (l : list ForesightElement) (pick : ForesightElement -> bool)
    r s el :
  Registry.get el
    (elements (fold_left (fun acc k => if pick k then unregister acc k r else acc) l s))
  = if among el l && pick el then None else Registry.get el (elements s).
Proof.
  revert s. induction l as [|k l IH]; intros s; cbn [fold_left among existsb].
  - reflexivity.
  - rewrite IH. fold (among el l).
    assert (Hk : Registry.get el
                   (elements (if pick k then unregister s k r else s))
                 = if Nat.eqb el k && pick el then None
                   else Registry.get el (elements s)).
    { destruct (Nat.eqb el k) eqn:E; cbn [andb].
      - apply Nat.eqb_eq in E. subst k. destruct (pick el); [|reflexivity].
        rewrite unregister_elements. apply RegistryFacts.get_delete_same.
      - apply Nat.eqb_neq in E. destruct (pick k); [|reflexivity].
        rewrite unregister_elements. now apply RegistryFacts.get_delete_other. }
    rewrite Hk.
    now destruct (Nat.eqb el k), (among el l), (pick el).
Qed.

Lemma unregisterAll_count p (l : list ForesightElement) (pick : ForesightElement -> bool)
    r s :
  bookkeepingFree p ->
  countEffects p
    (trace (fold_left (fun acc k => if pick k then unregister acc k r else acc) l s))
  = countEffects p (trace s).
Proof.
  intros Hp. revert s. induction l as [|k l IH]; intros s; cbn [fold_left];
    [reflexivity|].
  rewrite IH. destruct (pick k); [now apply count_unregister | reflexivity].
Qed.

(** The sweep over the keys of the registry. *)
Lemma sweep_get (pick : ForesightElement -> bool) r s el :
  Registry.get el
    (elements
       (fold_left (fun acc k => if pick k then unregister acc k r else acc)
          (Registry.keys (elements s)) s))
  = if pick el then None else Registry.get el (elements s).
Proof.
  rewrite unregisterAll_get.
  destruct (Registry.get el (elements s)) as [d|] eqn:Hg.
  - now rewrite (among_keys _ _ _ Hg).
  - now destruct (among el _ && pick el), (pick el).
Qed.

(** X8.  After a batch of DOM mutations the registry holds the records it
    held before, untouched, except that, when a record of the batch reports
    removed child nodes, the elements that are no longer connected are
    unregistered.  No callback is invoked, and any non-empty batch empties
    the cache of tab stops and forgets the last focused index. *)
Theorem dom_mutations_drop_disconnected (s : Manager)
    (mutationsList : list MutationRecord) (isConnected : ForesightElement -> bool)
    (el : ForesightElement) :
  let s' := handleDomMutations s mutationsList isConnected in
  Registry.get el (elements s')
  = (if existsb reportsRemoval mutationsList && negb (isConnected el)
     then None else Registry.get el (elements s))
  /\ invocations s' = invocations s
  /\ (mutationsList <> [] ->
      tabbableElementsCache s' = [] /\ lastFocusedIndex s' = None).
Proof.
  cbv zeta. unfold handleDomMutations.
  set (s0 := match mutationsList with
             | [] => s
             | _ :: _ => set_lastFocusedIndex (set_tabbableElementsCache s []) None
             end).
  assert (Hs0 : elements s0 = elements s /\ trace s0 = trace s)
    by (subst s0; now destruct mutationsList).
  destruct Hs0 as [Hel Htr]. split; [|split].
  - rewrite <- Hel. generalize s0. clear.
    induction mutationsList as [|m ms IH]; intros s0; cbn [fold_left existsb];
      [reflexivity|].
    rewrite IH. unfold reportsRemoval at 2.
    destruct (mutationType m); cbn [orb]; try reflexivity.
    destruct (removedNodes m); cbn [orb andb]; [reflexivity|].
    rewrite (sweep_get (fun k => negb (isConnected k))).
    now destruct (existsb reportsRemoval ms), (negb (isConnected el)).
  - unfold invocations. rewrite <- Htr. generalize s0. clear.
    induction mutationsList as [|m ms IH]; intros s0; cbn [fold_left]; [reflexivity|].
    rewrite IH. destruct (mutationType m); try reflexivity.
    destruct (removedNodes m); [reflexivity|].
    apply (unregisterAll_count _ _ (fun k => negb (isConnected k))).
    apply isCallbackInvoked_free.
  - intros Hne.
    rewrite (domLoop_bystander tabbableElementsCache),
      (domLoop_bystander lastFocusedIndex).
    subst s0. destruct mutationsList; [contradiction | now split].
Qed.

End Disconnected.

(** ** Subscriptions *)

Section Subscriptions.

Context {helpers : Helpers} {constants : Constants} {host : Host}.

Lemma removeFirst_absent l ls : ~ In l ls -> removeFirst l ls = ls.
Proof.
  induction ls as [|l' ls IH]; cbn; [reflexivity|]. intros Hin.
  destruct (Nat.eqb l' l) eqn:E.
  - apply Nat.eqb_eq in E. exfalso. apply Hin. now left.
  - rewrite IH; [reflexivity|]. intros H. apply Hin. now right.
Qed.

Lemma removeFirst_last l ls : ~ In l ls -> removeFirst l (ls ++ [l]) = ls.
Proof.
  induction ls as [|l' ls IH]; cbn.
  - intros _. now rewrite Nat.eqb_refl.
  - intros Hin. destruct (Nat.eqb l' l) eqn:E.
    + apply Nat.eqb_eq in E. exfalso. apply Hin. now left.
    + rewrite IH; [reflexivity|]. intros H. apply Hin. now right.
Qed.

Lemma eventType_eqb_eq t t' : eventType_eqb t t' = true <-> t = t'.
Proof. destruct t, t'; cbn; split; intros H; solve [reflexivity | discriminate]. Qed.

(** X9.  Subscribing a listener that was not subscribed to the event type
    and unsubscribing it again leaves the subscriptions of every type as
    they were, as does unsubscribing a listener that is not subscribed;
    with a signal that is aborted already, nothing is subscribed. *)
Theorem subscribe_then_unsubscribe (s : Manager) (ty : ForesightEventType)
    (l : Listener) (signalAborted : option bool) :
  ~ In l (eventListeners s ty) ->
  (forall t,
      eventListeners
        (removeEventListener (addEventListener s ty l signalAborted) ty l) t
      = eventListeners s t)
  /\ (forall t, eventListeners (removeEventListener s ty l) t = eventListeners s t)
  /\ (signalAborted = Some true -> addEventListener s ty l signalAborted = s).
Proof.
  intros Hin. split; [|split].
  - intros t. unfold removeEventListener, addEventListener.
    destruct signalAborted as [[|]|]; cbn [eventListeners set_eventListeners];
      destruct (eventType_eqb t ty) eqn:E; try reflexivity;
      apply eventType_eqb_eq in E; subst t;
      solve [now apply removeFirst_absent | now apply removeFirst_last].
  - intros t. unfold removeEventListener. cbn [eventListeners set_eventListeners].
    destruct (eventType_eqb t ty) eqn:E; [|reflexivity].
    apply eventType_eqb_eq in E. subst t. now apply removeFirst_absent.
  - intros ->. reflexivity.
Qed.

Lemma deliveredListeners_app tr tr' :
  deliveredListeners (tr ++ tr') = deliveredListeners tr' ++ deliveredListeners tr.
Proof. unfold deliveredListeners. now rewrite flat_map_app, rev_app_distr. Qed.

Lemma deliveredListeners_emit s ev :
  deliveredListeners (trace (emit s ev))
  = deliveredListeners (trace s) ++ eventListeners s (eventType ev).
Proof.
  rewrite emit_eq. cbn [trace set_trace].
  rewrite deliveredListeners_app, deliveredListeners_log.
  change (Emitted ev :: trace s) with ([Emitted ev] ++ trace s).
  rewrite deliveredListeners_app. cbn. now rewrite app_nil_r.
Qed.

(** X10.  A publication calls the listeners subscribed to the type of the
    event, in the order of their subscription, and no other.  A listener
    that has just been subscribed with a signal that is not aborted is
    called last on a publication of its type, and not at all on a
    publication of another type. *)
Theorem subscriber_is_called_for_its_type (s : Manager) (ty : ForesightEventType)
    (l : Listener) (signalAborted : option bool) (ev : ForesightEvent) :
  signalAborted <> Some true ->
  deliveredListeners (trace (emit (addEventListener s ty l signalAborted) ev))
  = deliveredListeners (trace s) ++ eventListeners s (eventType ev)
    ++ (if eventType_eqb (eventType ev) ty then [l] else []).
Proof.
  intros Hlive. rewrite deliveredListeners_emit. unfold addEventListener.
  destruct signalAborted as [[|]|]; [contradiction| |];
    cbn [trace eventListeners set_eventListeners];
    destruct (eventType_eqb (eventType ev) ty); now rewrite ?app_nil_r.
Qed.

End Subscriptions.

(** ** Bounds read afresh *)

Section Refresh.

Context {helpers : Helpers} {constants : Constants} {host : Host}.

Lemma refreshed_element rects d : element (refreshed rects d) = element d.
Proof. unfold refreshed. now destruct (negb (areRectsEqual _ _)). Qed.

Lemma refreshed_twice rects d : refreshed rects (refreshed rects d) = refreshed rects d.
Proof.
  unfold refreshed at 2 3.
  destruct (negb (areRectsEqual _ _)) eqn:E.
  - unfold refreshed. cbn [element elementBounds set_elementBounds hitSlop expandedRect].
    replace (areRectsEqual _ _) with true; [reflexivity|].
    symmetry. now apply areRectsEqual_eq.
  - unfold refreshed. now rewrite E.
Qed.

Lemma refreshedIfVisible_twice rects d :
  refreshedIfVisible rects (refreshedIfVisible rects d) = refreshedIfVisible rects d.
Proof.
  unfold refreshedIfVisible.
  destruct (isIntersectingWithViewport d) eqn:E; [|now rewrite E].
  replace (isIntersectingWithViewport (refreshed rects d)) with true.
  - apply refreshed_twice.
  - unfold refreshed. now destruct (negb (areRectsEqual _ _)).
Qed.

Lemma forceUpdateElementBounds_elements s d rects :
  Registry.get (element d) (elements s) = Some d ->
  elements (forceUpdateElementBounds s d rects)
  = Registry.set (refreshed rects d) (elements s).
Proof.
  intros Hg. unfold forceUpdateElementBounds, refreshed.
  destruct (negb (areRectsEqual _ _)); [reflexivity|].
  cbn [elements]. revert Hg. generalize (elements s). intros m.
  unfold Registry.get. induction m as [|r m IH]; cbn; [discriminate|].
  destruct (Nat.eqb (element r) (element d)) eqn:E; [congruence|].
  intros Hg. now rewrite <- IH.
Qed.

Lemma refreshVisit s k el rects :
  let s1 := match Registry.get k (elements s) with
            | Some d =>
                if isIntersectingWithViewport d
                then forceUpdateElementBounds s d rects else s
            | None => s
            end in
  Registry.get el (elements s1)
  = option_map (fun d => if Nat.eqb k el then refreshedIfVisible rects d else d)
      (Registry.get el (elements s)).
Proof.
  cbv zeta. destruct (Registry.get k (elements s)) as [dk|] eqn:Hk.
  - pose proof (RegistryFacts.get_element _ _ _ Hk) as Hdk.
    destruct (Nat.eqb k el) eqn:E.
    + apply Nat.eqb_eq in E. subst el. rewrite Hk. cbn [option_map].
      unfold refreshedIfVisible.
      destruct (isIntersectingWithViewport dk); [|exact Hk].
      rewrite forceUpdateElementBounds_elements by now rewrite Hdk.
      rewrite <- Hdk at 1. rewrite <- (refreshed_element rects dk).
      apply RegistryFacts.get_set_same.
    + apply Nat.eqb_neq in E.
      transitivity (Registry.get el (elements s));
        [|now destruct (Registry.get el (elements s))].
      destruct (isIntersectingWithViewport dk); [|reflexivity].
      rewrite forceUpdateElementBounds_elements by now rewrite Hdk.
      apply RegistryFacts.get_set_other. rewrite refreshed_element, Hdk.
      intros ->. now apply E.
  - destruct (Nat.eqb k el) eqn:E.
    + apply Nat.eqb_eq in E. subst el. now rewrite Hk.
    + now destruct (Registry.get el (elements s)).
Qed.

Lemma refreshLoop l s el rects :
  Registry.get el
    (elements
       (fold_left
          (fun acc k =>
             match Registry.get k (elements acc) with
             | Some d =>
                 if isIntersectingWithViewport d
                 then forceUpdateElementBounds acc d rects else acc
             | None => acc
             end) l s))
  = option_map (fun d => if among el l then refreshedIfVisible rects d else d)
      (Registry.get el (elements s)).
Proof.
  revert s. induction l as [|k l IH]; intros s; cbn [fold_left among existsb].
  - now destruct (Registry.get el (elements s)).
  - rewrite IH, refreshVisit. fold (among el l). rewrite (Nat.eqb_sym el k).
    destruct (Registry.get el (elements s)) as [d|]; [|reflexivity].
    cbn [option_map]. f_equal.
    destruct (Nat.eqb k el), (among el l); cbn [orb]; try reflexivity.
    apply refreshedIfVisible_twice.
Qed.

Lemma forceUpdateAllElementBounds_get s rects el :
  Registry.get el (elements (forceUpdateAllElementBounds s rects))
  = option_map (refreshedIfVisible rects) (Registry.get el (elements s)).
Proof.
  unfold forceUpdateAllElementBounds, forEachElement. rewrite refreshLoop.
  destruct (Registry.get el (elements s)) as [d|] eqn:Hg; [|reflexivity].
  now rewrite (among_keys _ _ _ Hg).
Qed.

Lemma alterGlobalSettings_get s props rects el :
  Registry.get el (elements (alterGlobalSettings s props rects))
  = if hitSlopChange (globalSettings s) props
    then option_map (refreshedIfVisible rects) (Registry.get el (elements s))
    else Registry.get el (elements s).
Proof.
  rewrite alterGlobalSettings_stages. cbv zeta.
  destruct (anyChange (globalSettings s) props);
    destruct (hitSlopChange (globalSettings s) props);
    cbn [emit elements set_trace]; rewrite ?forceUpdateAllElementBounds_get;
    reflexivity.
Qed.

(** X11.  Altering the settings touches the registry only when it changes
    the default hit slop, and then only the bounds of the elements marked
    as intersecting the viewport: the bounding rectangle of each is read
    afresh and expanded by the hit slop the record already has.  The hit
    slop of a registered element, its callback and its counters are never
    altered, also not when the element was registered with the default
    hit slop that is now replaced. *)
Theorem hit_slop_change_refreshes_bounds (s : Manager)
    (props : UpdateForsightManagerSettings) (rects : ForesightElement -> Rect)
    (el : ForesightElement) :
  let s' := alterGlobalSettings s props rects in
  Registry.get el (elements s')
  = (if hitSlopChange (globalSettings s) props
     then option_map (refreshedIfVisible rects) (Registry.get el (elements s))
     else Registry.get el (elements s))
  /\ option_map (fun d => hitSlop (elementBounds d)) (Registry.get el (elements s'))
     = option_map (fun d => hitSlop (elementBounds d)) (Registry.get el (elements s))
  /\ option_map callback (Registry.get el (elements s'))
     = option_map callback (Registry.get el (elements s))
  /\ option_map callbackHits (Registry.get el (elements s'))
     = option_map callbackHits (Registry.get el (elements s)).
Proof.
  cbv zeta. rewrite alterGlobalSettings_get. split; [reflexivity|].
  destruct (hitSlopChange (globalSettings s) props); [|now repeat split].
  destruct (Registry.get el (elements s)) as [d|]; [|now repeat split].
  cbn [option_map]. unfold refreshedIfVisible, refreshed.
  destruct (isIntersectingWithViewport d); [|now repeat split].
  destruct (negb (areRectsEqual _ _)); now repeat split.
Qed.

End Refresh.

(** ** Position updates *)

Section PositionUpdates.

Context {helpers : Helpers} {constants : Constants} {host : Host}.

Lemma set_isIntersectingWithViewport_same d :
  set_isIntersectingWithViewport d (isIntersectingWithViewport d) = d.
Proof. now destruct d. Qed.

(** The first entry for a record without an original rectangle, with
    scroll prediction on: the bounds are stored and nothing else
    happens. *)
Lemma handlePositionEntry_initial s entry d :
  Registry.get (target entry) (elements s) = Some d ->
  isIntersecting entry = true ->
  isIntersectingWithViewport d = true ->
  originalRect (elementBounds d) = None ->
  enableScrollPrediction (globalSettings s) = true ->
  handlePositionEntry s entry
  = (Normal,
     updateElementBounds (set_elements s (Registry.set d (elements s)))
       (boundingClientRect entry) d).
Proof.
  intros Hg Hnow Hwas Horig Hscroll.
  assert (Hsame : set_isIntersectingWithViewport d true = d)
    by (rewrite <- Hwas; apply set_isIntersectingWithViewport_same).
  unfold handlePositionEntry.
  rewrite Hg, Hnow, Hsame, Hwas. cbn [Bool.eqb negb].
  unfold handleScrollPrefetch.
  replace (globalSettings (updateElementBounds _ _ _)) with (globalSettings s)
    by reflexivity.
  now rewrite Hscroll, Horig.
Qed.

Lemma updateElementBounds_get s newRect d :
  Registry.get (element d) (elements (updateElementBounds s newRect d))
  = Some (withBounds newRect d).
Proof.
  unfold updateElementBounds. cbn [emit elements set_trace set_elements].
  apply (RegistryFacts.get_set_same (withBounds newRect d)).
Qed.

(** X12.  With scroll prediction on, the first position update of an
    element that has just been registered returns and stores its bounds,
    the reported rectangle and its expansion by the hit slop of the
    record, and does nothing else: no callback is invoked, no scroll
    direction is computed.  From then on the element is tested against
    its real rectangle. *)
Theorem first_position_update_sets_bounds (s : Manager)
    (opts : ForesightRegisterOptions) (env : RegisterEnv) (rect : Rect) :
  shouldRegister env = true ->
  enableScrollPrediction (globalSettings s) = true ->
  let el := o_element opts in
  let s1 := fst (register s opts env) in
  let s2 := state (handlePositionEntry s1 (mkEntry el true rect)) in
  Registry.get el (elements s2) = Some (withBounds rect (freshRecord s opts))
  /\ invocations s2 = invocations s1
  /\ directionComputations s2 = directionComputations s1
  /\ returns (handlePositionEntry s1 (mkEntry el true rect)).
Proof.
  intros Hshould Hscroll el s1 s2.
  assert (Hg : Registry.get el (elements s1) = Some (freshRecord s opts)).
  { subst s1. rewrite (register_record s opts env Hshould).
    apply (RegistryFacts.get_set_same (freshRecord s opts)). }
  assert (Hs2 : handlePositionEntry s1 (mkEntry el true rect)
                = (Normal,
                   updateElementBounds
                     (set_elements s1 (Registry.set (freshRecord s opts) (elements s1)))
                     rect (freshRecord s opts))).
  { apply (handlePositionEntry_initial s1 (mkEntry el true rect));
      try reflexivity; [exact Hg|].
    subst s1. now rewrite (register_bystander globalSettings). }
  subst s2. rewrite Hs2. cbn [state snd]. split; [|split; [|split]].
  - apply (updateElementBounds_get _ rect (freshRecord s opts)).
  - unfold invocations, updateElementBounds.
    now rewrite count_emit by apply isCallbackInvoked_free.
  - unfold directionComputations, updateElementBounds.
    now rewrite count_emit by apply isScrollDirectionComputed_free.
  - reflexivity.
Qed.

(** The tail of [handleScrollPrefetch]: however it is left, the callback
    has been invoked when the test passes. *)
Lemma scrollFire_fires s d h (hit : bool) (ev : Manager -> ForesightEvent) el :
  fires el
    (state
       (let! s1 := if hit then callCallback s (Some d) h else (Normal, s) in
        (Normal, emit s1 (ev s1))))
  = (fires el s + if Nat.eqb (element d) el && hit then 1 else 0)%nat.
Proof.
  destruct hit.
  - pose proof (callCallback_fires s d h el) as Hf. rewrite andb_true_r.
    destruct (callCallback s (Some d) h) as [[|thrower] s1];
      cbn [andThenDo state snd] in *; unfold fires in *;
      rewrite ?count_emit by apply isCallbackOf_free; lia.
  - cbn [andThenDo state snd]. unfold fires.
    rewrite count_emit by apply isCallbackOf_free. rewrite andb_false_r. lia.
Qed.

Lemma handleScrollPrefetch_fires s d newRect el :
  fires el (state (handleScrollPrefetch s d newRect))
  = (fires el s
     + if Nat.eqb (element d) el && positionHit s d newRect then 1 else 0)%nat.
Proof.
  unfold handleScrollPrefetch, positionHit.
  destruct (enableScrollPrediction (globalSettings s)).
  - destruct (originalRect (elementBounds d)) as [original|];
      [|rewrite andb_false_r; cbn [state snd]; lia].
    destruct (scrollDirection s) as [direction|];
      [|set (direction := getScrollDirection original newRect)];
      destruct direction;
      cbn [predictedScrollPoint trajectoryPositions globalSettings trace set_trace
           set_scrollDirection];
      try (rewrite andb_false_r; cbn [state snd]; unfold fires;
           cbn [trace set_trace set_scrollDirection];
           rewrite ?countEffects_cons; cbn [isCallbackOf]; lia);
      destruct (predictedScrollPoint s) as [predicted|];
      cbn [predictedScrollPoint trajectoryPositions globalSettings trace set_trace
           set_scrollDirection set_predictedScrollPoint];
      (etransitivity; [apply scrollFire_fires|]);
      unfold fires;
      cbn [trace set_trace set_scrollDirection set_predictedScrollPoint];
      rewrite ?countEffects_cons; cbn [isCallbackOf]; reflexivity.
  - destruct (isPointInRectangle _ _).
    + rewrite callCallback_fires, andb_true_r.
      destruct (Nat.eqb (element d) el); lia.
    + rewrite andb_false_r. cbn [state snd]. lia.
Qed.

(** One entry of a batch, for a registered element that is in the
    viewport: however the entry is left, the callback of its target has
    been invoked exactly when the test on the record as it was passes. *)
Lemma handlePositionEntry_fires s entry d el :
  Registry.get (target entry) (elements s) = Some d ->
  isIntersecting entry = true ->
  fires el (state (handlePositionEntry s entry))
  = (fires el s
     + if Nat.eqb (target entry) el && positionHit s d (boundingClientRect entry)
       then 1 else 0)%nat.
Proof.
  intros Hg Hnow. unfold handlePositionEntry. rewrite Hg, Hnow. cbv zeta.
  rewrite handleScrollPrefetch_fires.
  cbn [element set_isIntersectingWithViewport].
  rewrite (RegistryFacts.get_element _ _ _ Hg).
  unfold fires at 1, updateElementBounds.
  rewrite count_emit by apply isCallbackOf_free.
  cbn [trace set_elements].
  destruct (negb (Bool.eqb (isIntersectingWithViewport d) true));
    rewrite ?count_emit by apply isCallbackOf_free; reflexivity.
Qed.

(** X18.  A position update of a registered element that is in the
    viewport invokes its callback exactly when the hit test passes against
    the expanded rectangle the record had before the update: the new
    rectangle is stored first, but the test reads the record as it was.
    No other element is fired. *)
Theorem position_update_tests_previous_rectangle (s : Manager)
    (entry : PositionObserverEntry) (d : ForesightElementData)
    (el : ForesightElement) :
  Registry.get (target entry) (elements s) = Some d ->
  isIntersecting entry = true ->
  fires el (state (handlePositionEntry s entry))
  = (fires el s
     + if Nat.eqb (target entry) el && positionHit s d (boundingClientRect entry)
       then 1 else 0)%nat.
Proof.
  intros Hg Hnow. apply (handlePositionEntry_fires s entry d el Hg Hnow).
Qed.

(** An entry that reports its target outside the viewport only marks the
    record. *)
Lemma handlePositionEntry_hidden s entry d :
  Registry.get (target entry) (elements s) = Some d ->
  isIntersecting entry = false ->
  handlePositionEntry s entry
  = (Normal,
     let s1 := set_elements s
                 (Registry.set (set_isIntersectingWithViewport d false) (elements s)) in
     if isIntersectingWithViewport d
     then emit s1 (elementDataUpdated (set_isIntersectingWithViewport d false) visibility)
     else s1).
Proof.
  intros Hg Hnow. unfold handlePositionEntry. rewrite Hg, Hnow. cbv zeta.
  now destruct (isIntersectingWithViewport d).
Qed.

(** X13.  An element that the position observer reports outside the
    viewport is only marked: its record is kept, with the flag cleared,
    and no callback is invoked.  A mouse move then skips it, whatever the
    pointer does and however the move is left: its callback is not invoked
    and it stays registered. *)
Theorem element_out_of_view_is_skipped (s : Manager) (entry : PositionObserverEntry)
    (d : ForesightElementData) (e : MouseEvent) :
  Registry.get (target entry) (elements s) = Some d ->
  isIntersecting entry = false ->
  let el := target entry in
  let s1 := state (handlePositionEntry s entry) in
  Registry.get el (elements s1) = Some (set_isIntersectingWithViewport d false)
  /\ invocations s1 = invocations s
  /\ fires el (state (handleMouseMove s1 e)) = fires el s1
  /\ Registry.get el (elements (state (handleMouseMove s1 e)))
     = Some (set_isIntersectingWithViewport d false)
  /\ returns (handlePositionEntry s entry).
Proof.
  intros Hg Hnow el s1.
  assert (Hel : elements s1
                = Registry.set (set_isIntersectingWithViewport d false) (elements s)).
  { subst s1. rewrite (handlePositionEntry_hidden s entry d Hg Hnow). cbv zeta.
    cbn [state snd]. now destruct (isIntersectingWithViewport d). }
  assert (Hg1 : Registry.get el (elements s1)
                = Some (set_isIntersectingWithViewport d false)).
  { rewrite Hel. subst el. rewrite <- (RegistryFacts.get_element _ _ _ Hg).
    apply (RegistryFacts.get_set_same (set_isIntersectingWithViewport d false)). }
  assert (Hmiss : mouseFires (updatePointerState s1 e) el = false).
  { unfold mouseFires. rewrite updatePointerState_elements. now rewrite Hg1. }
  destruct (handleMouseMove_miss s1 e el Hmiss) as [Hf Hsame].
  split; [exact Hg1 | split; [|split; [exact Hf | split]]].
  - subst s1. rewrite (handlePositionEntry_hidden s entry d Hg Hnow). cbv zeta.
    cbn [state snd]. unfold invocations.
    destruct (isIntersectingWithViewport d); [|reflexivity].
    now rewrite count_emit by apply isCallbackInvoked_free.
  - now rewrite Hsame.
  - now rewrite (handlePositionEntry_hidden s entry d Hg Hnow).
Qed.

End PositionUpdates.

(** ** The pointer state *)

Section PointerState.

Context {helpers : Helpers} {constants : Constants} {host : Host}.

Lemma handleMouseMove_config s e :
  globalSettings (state (handleMouseMove s e)) = globalSettings s
  /\ trajectoryPositions (state (handleMouseMove s e))
     = trajectoryPositions (updatePointerState s e).
Proof.
  apply (firm_handleMouseMove true
           (fun s' => globalSettings s' = globalSettings s
                      /\ trajectoryPositions s'
                         = trajectoryPositions (updatePointerState s e))
           (firm := stable_firm
                      (Stable := stable_of_config true
                                   (fun g t =>
                                      g = globalSettings s
                                      /\ t = trajectoryPositions (updatePointerState s e)))));
    [|apply counts_always].
  split; [apply updatePointerState_settings | reflexivity].
Qed.

(** X14.  A mouse move records the pointer: whatever elements fire and
    however the handler is left, the current point afterwards is the
    position of the event and the settings are untouched.  With mouse prediction off the predicted point
    is the current point and the position history is left alone. *)
Theorem mouse_move_records_pointer (s : Manager) (e : MouseEvent) :
  let s' := state (handleMouseMove s e) in
  currentPoint (trajectoryPositions s') = mkPoint (clientX e) (clientY e)
  /\ globalSettings s' = globalSettings s
  /\ (enableMousePrediction (globalSettings s) = false ->
      predictedPoint (trajectoryPositions s') = mkPoint (clientX e) (clientY e)
      /\ positions (trajectoryPositions s') = positions (trajectoryPositions s)).
Proof.
  cbv zeta. destruct (handleMouseMove_config s e) as [-> ->].
  unfold updatePointerState.
  destruct (enableMousePrediction (globalSettings s)); cbn; repeat split;
    discriminate.
Qed.

End PointerState.

(** ** Settings that are given *)

Section GivenSettings.

Context {helpers : Helpers} {constants : Constants} {host : Host}.

Lemma debug_numericUpdate g nv k lo hi : debug (numericUpdate g nv k lo hi) = debug g.
Proof.
  unfold numericUpdate. destruct nv; [|reflexivity].
  destruct (numericChange _ _ _); [|reflexivity]. now destruct k.
Qed.

Lemma debug_booleanUpdate g nv k : debug (booleanUpdate g nv k) = debug g.
Proof.
  unfold booleanUpdate. destruct nv; [|reflexivity].
  destruct (booleanChange _ _ _); [|reflexivity]. now destruct k.
Qed.

Lemma debug_alteredSettings g props : debug (alteredSettings g props) = debug g.
Proof.
  assert (H : debug (settingsBeforeHitSlop g props) = debug g).
  { unfold settingsBeforeHitSlop. cbv zeta.
    destruct (p_onAnyCallbackFired props); cbn [debug set_onAnyCallbackFired];
      now rewrite !debug_booleanUpdate, !debug_numericUpdate. }
  unfold alteredSettings.
  destruct (p_defaultHitSlop props); [|exact H].
  destruct (hitSlopChange g props); [|exact H]. exact H.
Qed.

(** X15.  After [alterGlobalSettings] with numeric values inside their
    ranges, the settings hold everything that was given: every numeric
    value, every flag, the hook and the normalised default hit slop.  A
    numeric setting that is not given keeps its value, the [debug] setting
    is never touched, and giving the same settings once more changes
    nothing and publishes nothing. *)
Theorem settings_hold_what_was_given (s : Manager)
    (props : UpdateForsightManagerSettings) (rects : ForesightElement -> Rect) :
  givenInRange props ->
  let s' := alterGlobalSettings s props rects in
  settled (globalSettings s') props
  /\ (forall k,
         p_numeric props k = None ->
         getNumeric (globalSettings s') k = getNumeric (globalSettings s) k)
  /\ debug (globalSettings s') = debug (globalSettings s)
  /\ forall rects', alterGlobalSettings s' props rects' = s'.
Proof.
  intros Hgiven. cbv zeta.
  assert (Hsettled : settled (globalSettings (alterGlobalSettings s props rects)) props).
  { rewrite alterGlobalSettings_settings. now apply altered_is_settled. }
  split; [exact Hsettled | split; [|split]].
  - intros k Hnone.
    now rewrite alterGlobalSettings_settings, getNumeric_alteredSettings, Hnone.
  - rewrite alterGlobalSettings_settings. apply debug_alteredSettings.
  - intros rects'. now apply settled_is_fixed.
Qed.

(** X16.  A hook given on its own is stored silently: the settings get the
    new [onAnyCallbackFired], nothing is published and nothing else
    changes, so that no [managerSettingsChanged] announces it. *)
Theorem new_hook_is_not_announced (s : Manager) (h : Hook)
    (rects : ForesightElement -> Rect) :
  alterGlobalSettings s (hookProps h) rects
  = set_globalSettings s (set_onAnyCallbackFired (globalSettings s) h).
Proof.
  rewrite alterGlobalSettings_stages. cbv zeta.
  replace (anyChange (globalSettings s) (hookProps h)) with false by reflexivity.
  replace (hitSlopChange (globalSettings s) (hookProps h)) with false by reflexivity.
  replace (alteredSettings (globalSettings s) (hookProps h))
    with (set_onAnyCallbackFired (globalSettings s) h) by reflexivity.
  replace (alteredHistory (globalSettings s) (hookProps h) (trajectoryPositions s))
    with (trajectoryPositions s) by reflexivity.
  exact (set_trajectoryPositions_same
           (set_globalSettings s (set_onAnyCallbackFired (globalSettings s) h))).
Qed.

End GivenSettings.

(** ** Rendering on a server *)

Section OnTheServer.

Context {helpers : Helpers} {constants : Constants} {host : Host}.

Lemma notSetUp_unregister s el r : notSetUp s -> notSetUp (unregister s el r).
Proof.
  intros HP. pose proof HP as [Hset [Hctl [Hdoc [Hdom Hobs]]]]. unfold unregister.
  destruct (Registry.get el (elements s)) as [d|]; [|exact HP]. cbv zeta.
  destruct (trajectoryHitExpirationTimeoutId (trajectoryHitData d)) as [[|id]|];
    cbn [emit isSetup set_trace set_positionObserver set_elements];
    rewrite Hset, andb_false_r; unfold notSetUp; cbn; now rewrite Hobs.
Qed.

Lemma notSetUp_stable : Stable true notSetUp.
Proof.
  apply stable_by_moves; intros; try assumption.
  now apply notSetUp_unregister.
Qed.

Lemma notSetUp_register s opts env :
  hasWindowAndDocument env = false ->
  notSetUp s -> notSetUp (fst (register s opts env)).
Proof.
  intros Hwin HP. pose proof HP as [Hset [Hctl [Hdoc [Hdom Hobs]]]]. unfold register.
  destruct (negb (shouldRegister env)); [exact HP|]. cbn [fst].
  rewrite Hset. cbn [negb]. unfold initializeGlobalListeners.
  rewrite Hset, Hwin. cbn [negb]. unfold notSetUp. cbn. now rewrite Hobs.
Qed.

(** X17.  Where there is no [window] or no [document], registering attaches
    nothing: however many elements are registered, unregistered or
    re-registered, the manager is never set up, holds no abort controller
    and no observer, and the document has no listener of the manager, so
    that no event of a browser would reach a handler.  The registry itself
    still records the elements: a registration that is not declined
    stores the fresh record of the element and reports it registered, and
    only an unregistration of the element takes the record away again. *)
Theorem server_rendering_attaches_nothing (actions : list Action) :
  Forall (fun a => onServer a = true) actions ->
  let s := run newManager actions in
  notSetUp s
  /\ (forall a, fromBrowser a = true -> step s a = s)
  /\ (forall opts env,
        shouldRegister env = true ->
        elements (step s (CallRegister opts env))
        = Registry.set (freshRecord s opts) (elements s)
        /\ Registry.get (o_element opts) (elements (step s (CallRegister opts env)))
           = Some (freshRecord s opts)
        /\ res_isRegistered (snd (register s opts env)) = true)
  /\ (forall a el,
        onServer a = true ->
        a <> CallUnregister el ->
        Registry.has el (elements s) = true ->
        Registry.has el (elements (step s a)) = true).
Proof.
  intros Hall. cbv zeta.
  assert (HP : notSetUp (run newManager actions)).
  { induction actions as [|a actions IH] using rev_ind; [now repeat split|].
    apply Forall_app in Hall. destruct Hall as [Hall Ha].
    apply Forall_inv in Ha. specialize (IH Hall).
    unfold run. rewrite fold_left_app. cbn [fold_left].
    fold (run newManager actions).
    apply (stable_step notSetUp (stable := notSetUp_stable));
      [exact IH | apply counts_always |..].
    - intros opts env ->. apply notSetUp_register; [|exact IH].
      cbn [onServer] in Ha. now destruct (hasWindowAndDocument env).
    - intros props rects _.
      apply (stable_alterGlobalSettings notSetUp (stable := notSetUp_stable));
        [|exact IH].
      intros s0 g t H0. exact H0.
    - intros e _. apply configBlind_updatePointerState; [|exact IH].
      intros s0 g t H0. exact H0.
    - intros s0 H0. exact H0. }
  split; [exact HP|].
  assert (Hidle : forall a, fromBrowser a = true ->
                            step (run newManager actions) a = run newManager actions).
  { destruct HP as [Hset [Hctl [Hdoc [Hdom Hobs]]]].
    intros a Ha. unfold step. destruct a; try discriminate; cbn [dispatch];
      rewrite ?Hdoc, ?Hdom, ?Hobs; reflexivity. }
  split; [exact Hidle|]. split.
  - intros opts env Hshould. unfold step. cbn [dispatch state snd].
    rewrite (register_record _ opts env Hshould). split; [reflexivity|]. split.
    + apply (RegistryFacts.get_set_same (freshRecord (run newManager actions) opts)).
    + unfold register. now rewrite Hshould.
  - intros a el Ha Hne Hhas.
    destruct (fromBrowser a) eqn:Eb; [now rewrite Hidle|].
    unfold step. destruct a; try discriminate Eb; cbn [dispatch state snd].
    + destruct (shouldRegister env) eqn:Hshould.
      * rewrite (register_record _ opts env Hshould), RegistryFacts.has_set, Hhas.
        apply orb_true_r.
      * unfold register. now rewrite Hshould.
    + rewrite unregister_elements, RegistryFacts.has_delete, Hhas.
      destruct (Nat.eqb el el0) eqn:E; [|reflexivity].
      apply Nat.eqb_eq in E. subst el0. now contradiction Hne.
    + unfold Registry.has in *. rewrite alterGlobalSettings_get.
      destruct (Registry.get el (elements (run newManager actions)));
        [|discriminate Hhas].
      now destruct (hitSlopChange _ _).
    + unfold addEventListener. now destruct signalAborted as [[|]|].
    + exact Hhas.
Qed.

End OnTheServer.

(** ** Fire-once *)

Section FireOnce.

Context {helpers : Helpers} {constants : Constants} {host : Host}.








(** What keeps the initial bounds of a record. *)
Lemma initialOrGone_emit el s ev : initialOrGone el s -> initialOrGone el (emit s ev).
Proof. intros H. exact H. Qed.

Lemma initialOrGone_unregister el s el' r :
  initialOrGone el s -> initialOrGone el (unregister s el' r).
Proof.
  unfold initialOrGone. rewrite unregister_elements. intros H.
  destruct (Nat.eqb el el') eqn:E.
  - apply Nat.eqb_eq in E. subst el'. now rewrite RegistryFacts.get_delete_same.
  - apply Nat.eqb_neq in E. now rewrite RegistryFacts.get_delete_other.
Qed.

Lemma initialOrGone_firm el : Firm true (initialOrGone el).
Proof.
  constructor; intros; try assumption.
  - now apply initialOrGone_unregister.
  - apply callCallback_kept.
    + intros s0 ev Hs0. exact Hs0.
    + intros s0 el0 r0. apply initialOrGone_unregister.
    + unfold initialOrGone in *. rewrite counted_elements.
      rewrite RegistryFacts.get_mutate by reflexivity.
      destruct (Nat.eqb el (element d)); [|assumption].
      destruct (Registry.get el (elements s)); [assumption | exact I].
    + intros s0 Hs0. exact Hs0.
Qed.

Lemma scrollFire_get_other s d h (hit : bool) (ev : Manager -> ForesightEvent) el :
  element d <> el ->
  Registry.get el
    (elements
       (state
          (let! s1 := if hit then callCallback s (Some d) h else (Normal, s) in
           (Normal, emit s1 (ev s1)))))
  = Registry.get el (elements s).
Proof.
  intros Hne. destruct hit; [|reflexivity].
  assert (Hg : Registry.get el (elements (state (callCallback s (Some d) h)))
               = Registry.get el (elements s))
    by (apply callCallback_get_other; congruence).
  destruct (callCallback s (Some d) h) as [[|thrower] s1];
    cbn [andThenDo state snd] in *; exact Hg.
Qed.

Lemma handleScrollPrefetch_get_other s d newRect el :
  element d <> el ->
  Registry.get el (elements (state (handleScrollPrefetch s d newRect)))
  = Registry.get el (elements s).
Proof.
  intros Hne. unfold handleScrollPrefetch.
  destruct (enableScrollPrediction (globalSettings s)).
  - destruct (originalRect (elementBounds d)) as [original|]; [|reflexivity].
    destruct (scrollDirection s) as [direction|];
      [|set (direction := getScrollDirection original newRect)];
      destruct direction;
      cbn [predictedScrollPoint trajectoryPositions globalSettings trace set_trace
           set_scrollDirection];
      try reflexivity;
      destruct (predictedScrollPoint s) as [predicted|];
      cbn [predictedScrollPoint trajectoryPositions globalSettings trace set_trace
           set_scrollDirection set_predictedScrollPoint];
      (etransitivity; [apply scrollFire_get_other; exact Hne | reflexivity]).
  - destruct (isPointInRectangle _ _); [|reflexivity].
    apply callCallback_get_other. congruence.
Qed.

(** An entry for another element leaves the record of [el] alone. *)
Lemma handlePositionEntry_get_other s entry el :
  target entry <> el ->
  Registry.get el (elements (state (handlePositionEntry s entry)))
  = Registry.get el (elements s).
Proof.
  intros Hne. unfold handlePositionEntry.
  destruct (Registry.get (target entry) (elements s)) as [d|] eqn:Hg; [|reflexivity].
  pose proof (RegistryFacts.get_element _ _ _ Hg) as Hd. cbv zeta.
  assert (Hset : forall now,
             Registry.get el
               (Registry.set (set_isIntersectingWithViewport d now) (elements s))
             = Registry.get el (elements s)).
  { intros now. apply RegistryFacts.get_set_other. cbn. congruence. }
  destruct (isIntersecting entry).
  - rewrite handleScrollPrefetch_get_other by (cbn; congruence).
    unfold updateElementBounds. cbn [emit elements set_trace set_elements].
    rewrite RegistryFacts.get_set_other by (cbn; congruence).
    destruct (negb (Bool.eqb (isIntersectingWithViewport d) true));
      cbn [emit elements set_trace set_elements]; apply Hset.
  - cbn [state snd].
    destruct (negb (Bool.eqb (isIntersectingWithViewport d) false));
      cbn [emit elements set_trace set_elements]; apply Hset.
Qed.

Lemma handlePositionChange_get_other s entries el :
  forallb (fun entry => negb (Nat.eqb (target entry) el)) entries = true ->
  Registry.get el (elements (state (handlePositionChange s entries)))
  = Registry.get el (elements s).
Proof.
  intros Hall. unfold handlePositionChange.
  assert (Hloop : Registry.get el
                    (elements (state (forEachOrThrow handlePositionEntry entries s)))
                  = Registry.get el (elements s)).
  { revert s. induction entries as [|entry entries IH]; intros s; [reflexivity|].
    cbn [forallb] in Hall. apply andb_true_iff in Hall. destruct Hall as [Hne Hall].
    apply negb_true_iff, Nat.eqb_neq in Hne.
    pose proof (handlePositionEntry_get_other s entry el Hne) as H1.
    cbn [forEachOrThrow].
    destruct (handlePositionEntry s entry) as [[|thrower] s1];
      cbn [andThenDo state snd] in *; [|exact H1].
    now rewrite (IH Hall s1). }
  destruct (forEachOrThrow handlePositionEntry entries s) as [[|thrower] s1];
    cbn [andThenDo state snd] in *; exact Hloop.
Qed.

(** A step that does not read the bounds of [el] afresh leaves it with
    its initial bounds, or unregistered. *)
Lemma initialOrGone_step el s a :
  initialOrGone el s -> keepsBounds el s a -> initialOrGone el (step s a).
Proof.
  intros HP Hkeeps.
  apply (firm_step (initialOrGone el) (firm := initialOrGone_firm el));
    [exact HP | apply counts_always |..].
  - intros opts env _. unfold initialOrGone in *.
    destruct (shouldRegister env) eqn:Hsr.
    + destruct (register_elements s opts env Hsr) as (d & -> & Hd & _ & Hb).
      destruct (Nat.eqb el (element d)) eqn:E.
      * apply Nat.eqb_eq in E. subst el. rewrite RegistryFacts.get_set_same. exact Hb.
      * apply Nat.eqb_neq in E. now rewrite RegistryFacts.get_set_other.
    + unfold register. now rewrite Hsr.
  - intros props rects ->. cbn [keepsBounds] in Hkeeps. unfold initialOrGone in *.
    now rewrite alterGlobalSettings_get, Hkeeps.
  - intros e _. unfold initialOrGone in *. now rewrite updatePointerState_elements.
  - intros entries ->. cbn [keepsBounds] in Hkeeps. unfold initialOrGone, step in *.
    cbn [dispatch]. destruct (positionObserver s); [|exact HP].
    now rewrite handlePositionChange_get_other.
Qed.

(** C10, with the window the code has.  A registration that is not
    declined stores a record that counts as intersecting the viewport,
    has no original rectangle and has the zero rectangle as expanded
    rectangle.  The record stays so, or is unregistered, until a position
    batch has an entry for the element or a settings update changes the
    default hit slop; whatever else happens in between, a mouse move tests
    the element, while it is registered, against the zero rectangle: the
    element is fired exactly when the pointer state hits that rectangle,
    its callback is invoked at most once by the move, and it is invoked
    when the handler returns. *)
Theorem fresh_record_is_tested_on_zero_rect (s : Manager)
    (opts : ForesightRegisterOptions) (env : RegisterEnv) (actions : list Action) :
  shouldRegister env = true ->
  let el := o_element opts in
  let s1 := fst (register s opts env) in
  alongRun (keepsBounds el) s1 actions ->
  let s' := run s1 actions in
  (exists d, Registry.get el (elements s1) = Some d /\ hasInitialBounds d)
  /\ initialOrGone el s'
  /\ forall e,
      let hit :=
        Registry.has el (elements s')
        && mouseHit (updatePointerState s' e) (mkRect 0 0 0 0) in
      mouseFires (updatePointerState s' e) el = hit
      /\ (returns (handleMouseMove s' e) ->
          fires el (state (handleMouseMove s' e))
          = (fires el s' + if hit then 1 else 0)%nat)
      /\ (fires el s' <= fires el (state (handleMouseMove s' e)))%nat
      /\ (fires el (state (handleMouseMove s' e))
          <= fires el s' + if hit then 1 else 0)%nat.
Proof.
  intros Hsr el s1 Halong s'.
  destruct (register_elements s opts env Hsr) as (d & Hel & Hd & _ & Hb).
  fold s1 in Hel.
  assert (Hg : Registry.get el (elements s1) = Some d).
  { rewrite Hel. subst el. rewrite <- Hd. apply RegistryFacts.get_set_same. }
  assert (Hs1 : initialOrGone el s1).
  { unfold initialOrGone. rewrite Hg. exact Hb. }
  assert (Hs' : initialOrGone el s').
  { subst s'. revert Halong.
    apply (alongRun_invariant (keepsBounds el) (initialOrGone el)); [|exact Hs1].
    intros s0 a. apply initialOrGone_step. }
  split; [now exists d|]. split; [exact Hs'|].
  intros e hit.
  assert (Hfires : mouseFires (updatePointerState s' e) el = hit).
  { subst hit. unfold mouseFires, Registry.has.
    rewrite updatePointerState_elements. unfold initialOrGone in Hs'.
    destruct (Registry.get el (elements s')) as [d'|]; [|reflexivity].
    destruct Hs' as (-> & _ & ->). reflexivity. }
  split; [exact Hfires|]. rewrite <- Hfires. split; [|apply handleMouseMove_bounds].
  intros Hr. now apply handleMouseMove_returns.
Qed.

End FireOnce.

(** * The claims on the sample page *)

Section OnTheSamplePage.

#[local] Existing Instance Sample.helpers.
#[local] Existing Instance Sample.constants.
#[local] Existing Instance Sample.host.

Lemma sample_coherent : coherent.
Proof. intros k. destruct k; cbn; lia. Qed.

Lemma sample_reachable actions :
reachable (Sample.exec Sample.start actions).
Proof. now exists actions. Qed.



(** C2 on the sample page: a tab offset of 50 is asked for twice; the
    second call leaves the settings alone and publishes a second time. *)
Lemma out_of_range_value_republishes_witness :
  let s1 := alterGlobalSettings Sample.start (numericProps K_tabOffset 50) Sample.noRects in
  let s2 := alterGlobalSettings s1 (numericProps K_tabOffset 50) Sample.noRects in
  maxOf K_tabOffset < 50
  /\ tabOffset (globalSettings s1) = 20
  /\ globalSettings s2 = globalSettings s1
  /\ settingsChanges s1 = 1%nat
  /\ settingsChanges s2 = 2%nat.
Proof.
  cbv zeta.
  assert (Hhigh : maxOf K_tabOffset < 50) by (cbn; lia).
  destruct (out_of_range_value_republishes Sample.start K_tabOffset 50 Sample.noRects
              sample_coherent (sample_reachable []) (or_intror Hhigh))
    as [Hsame Hcount].
  split; [exact Hhigh|]. split; [vm_compute; reflexivity|]. split; [exact Hsame|].
  split; [vm_compute; reflexivity|].
  etransitivity; [exact Hcount | vm_compute; reflexivity].
Defined.

(** C3 on the sample page: a prediction time of 5 is stored as 10. *)
Lemma out_of_range_value_is_clamped_witness :
5 < minOf K_trajectoryPredictionTime
/\ trajectoryPredictionTime
     (globalSettings
        (alterGlobalSettings
           Scenario.registered (numericProps K_trajectoryPredictionTime 5)
           Sample.noRects)) = 10.
Proof.
assert (Hlow : 5 < minOf K_trajectoryPredictionTime) by (cbn; lia).
split; [exact Hlow|].
destruct (out_of_range_value_is_clamped Scenario.registered K_trajectoryPredictionTime 5
            (numericProps K_trajectoryPredictionTime 5) Sample.noRects
            sample_coherent (sample_reachable _) eq_refl (or_introl Hlow))
  as [Hstored _].
exact Hstored.
Defined.

(** C4 on the sample page: with the registry emptied, keydown and focusin
    are detached, and a further call leaves the mousemove listener on the
    document. *)
Lemma keyboard_listeners_follow_registry_witness :
  elements Scenario.emptied = []
  /\ attached keydown handleKeyDownRef (documentListeners Scenario.emptied) = false
  /\ attached focusin handleFocusInRef (documentListeners Scenario.emptied) = false
  /\ attached mousemove handleMouseMoveRef
       (documentListeners (Sample.exec Scenario.emptied [CallUnregister 1%nat])) = true.
Proof.
  assert (Hnil : elements Scenario.emptied = []) by (vm_compute; reflexivity).
  split; [exact Hnil|].
  destruct (keyboard_listeners_follow_registry Scenario.emptied (sample_reachable _))
    as (_ & _ & Hempty & _ & _ & Hstays).
  destruct (Hempty Hnil) as (Hk & Hf & _).
  split; [exact Hk|]. split; [exact Hf|].
  apply (Hstays (CallUnregister 1%nat)). vm_compute. reflexivity.
Defined.

(** The claim C4 fails on the sample page: with the registry emptied, the
  mousemove listener is still attached, and it carries no abort signal. *)
Lemma mousemove_listener_outlives_registry :
elements Scenario.emptied = []
/\ attached mousemove handleMouseMoveRef (documentListeners Scenario.emptied) = true
/\ documentListeners Scenario.emptied = [mkDocListener mousemove handleMouseMoveRef None].
Proof. repeat split. Qed.



(** C6 on the sample page: three positions are recorded under a history
  size of 8; lowering the size to 2 keeps the last two. *)
Lemma history_fits_configured_size_witness :
0 <= MIN_POSITION_HISTORY_SIZE
/\ length (positions (trajectoryPositions Scenario.threeMoves)) = 3%nat
/\ map time
     (positions
        (trajectoryPositions
           (alterGlobalSettings Scenario.threeMoves
              (numericProps K_positionHistorySize 2) Sample.noRects)))
   = [2; 3].
Proof.
assert (Hmin : 0 <= MIN_POSITION_HISTORY_SIZE) by (cbn; lia).
split; [exact Hmin|]. split; [vm_compute; reflexivity|].
destruct (history_fits_configured_size Scenario.threeMoves sample_coherent Hmin
            (sample_reachable _))
  as [_ Hshrink].
destruct (Hshrink (numericProps K_positionHistorySize 2) Sample.noRects) as [Hkept _].
- vm_compute. reflexivity.
- etransitivity; [exact (f_equal (map time) Hkept) | vm_compute; reflexivity].
Defined.




(** C9 on the sample page: of three listeners of [elementRegistered] the
  second, numbered 1, throws; the publication completes normally, all
  three are called, and one failure is logged. *)
Lemma throwing_listener_is_isolated_witness :
eventListeners Scenario.listening T_elementRegistered = [0; 1; 2]%nat
/\ fst (emitEff [0; 1; 2]%nat Scenario.registration
          [Emitted Scenario.registration]) = Normal
/\ deliveredListeners (trace (emit Scenario.listening Scenario.registration))
   = [0; 1; 2]%nat
/\ loggedErrors (trace (emit Scenario.listening Scenario.registration)) = [1]%nat.
Proof.
destruct (throwing_listener_is_isolated Scenario.listening Scenario.registration)
  as (Hnormal & _).
split; [reflexivity|]. split; [exact Hnormal|]. split; reflexivity.
Defined.

(** C10 on the sample page: after the pointer has moved elsewhere, a
    setting has changed and another element has been reported, element 16
    is fired by a mouse move to the origin, where the zero rectangle is,
    and not by a mouse move elsewhere. *)
Lemma fresh_record_is_tested_on_zero_rect_witness :
  shouldRegister Sample.browser = true
  /\ alongRun (keepsBounds 16%nat) Scenario.registered Faults.meanwhile
  /\ (let s' := Sample.exec Scenario.registered Faults.meanwhile in
      fires 16%nat (state (handleMouseMove s' (mkMouseEvent 0 0 2)))
      = (fires 16%nat s' + 1)%nat
      /\ (fires 16%nat (state (handleMouseMove s' (mkMouseEvent 60 60 2)))
          <= fires 16%nat s')%nat).
Proof.
  split; [reflexivity|].
  assert (Hwindow : alongRun (keepsBounds 16%nat) Scenario.registered Faults.meanwhile)
    by (vm_compute; repeat split).
  split; [exact Hwindow|].
  destruct (fresh_record_is_tested_on_zero_rect Sample.start (Sample.plain 16%nat)
              Sample.browser Faults.meanwhile eq_refl Hwindow)
    as (_ & _ & Hmove).
  cbv zeta in Hmove. cbv zeta. split.
  - destruct (Hmove (mkMouseEvent 0 0 2)) as (_ & Hfires & _).
    etransitivity; [apply Hfires; vm_compute; reflexivity | vm_compute; reflexivity].
  - destruct (Hmove (mkMouseEvent 60 60 2)) as (_ & _ & _ & Hmost).
    etransitivity; [exact Hmost | vm_compute; constructor].
Defined.

(** The claim C10 fails on the sample page: element 16 is registered and
    the default hit slop is changed before any position update.  The
    bounds of the element are read afresh, and mouse moves are tested
    against them: a move to the origin hits the zero rectangle and does
    not fire the element; a move into the square at 100 misses the zero
    rectangle and fires it. *)
Lemma hit_slop_change_ends_zero_rect_tests :
  Registry.has 16%nat (elements Faults.slopChanged) = true
  /\ mouseHit (updatePointerState Faults.slopChanged (mkMouseEvent 0 0 5)) (mkRect 0 0 0 0)
     = true
  /\ fires 16%nat (Sample.exec Faults.slopChanged [MouseMoved (mkMouseEvent 0 0 5)])
     = 0%nat
  /\ mouseHit (updatePointerState Faults.slopChanged (mkMouseEvent 105 105 5))
       (mkRect 0 0 0 0)
     = false
  /\ fires 16%nat (Sample.exec Faults.slopChanged [MouseMoved (mkMouseEvent 105 105 5)])
     = 1%nat.
Proof. repeat split; vm_compute; reflexivity. Qed.

End OnTheSamplePage.

(** * The further properties on the sample page *)

Section MoreOnTheSamplePage.

#[local] Existing Instance Sample.helpers.
#[local] Existing Instance Sample.constants.
#[local] Existing Instance Sample.host.

(** X1 on the sample page: element 16 registered a second time. *)
Lemma register_replaces_record_witness :
  oneRecordPerElement Scenario.registered
  /\ Registry.keys
       (elements (fst (register Scenario.registered (Sample.plain 16%nat) Sample.browser)))
     = [16%nat].
Proof.
  destruct (register_replaces_record Scenario.registered (sample_reachable _))
    as [Hone Hagain].
  split; [exact Hone|].
  destruct (Hagain (Sample.plain 16%nat) Sample.browser eq_refl eq_refl) as [Hkeys _].
  exact Hkeys.
Defined.

(** X2 on the sample page: element 16 registered on the fresh manager and
    unregistered again. *)
Lemma register_then_unregister_witness :
  Registry.has 16%nat (elements Sample.start) = false
  /\ elements
       (unregister (fst (register Sample.start (Sample.plain 16%nat) Sample.browser))
          16%nat apiCall)
     = [].
Proof.
  split; [reflexivity|].
  destruct (register_then_unregister Sample.start (Sample.plain 16%nat) Sample.browser
              eq_refl eq_refl) as [_ [_ [_ [Hback _]]]].
  exact Hback.
Defined.

(** X3 on the sample page: one callback was invoked, by the tab. *)
Lemma global_total_counts_callbacks_witness :
  total (globalCallbackHits Tour.afterTab) = 1.
Proof.
  etransitivity;
    [exact (global_total_counts_callbacks Tour.afterTab (sample_reachable _))
    | reflexivity].
Defined.

(** X4 on the sample page: of two registered elements the one that is
    left is observed, the other is not. *)
Lemma observers_follow_registry_witness :
  Forall (fun a => inBrowser a = true) Tour.twoThenOne
  /\ observes (Sample.exec Sample.start Tour.twoThenOne) 17%nat = true
  /\ observes (Sample.exec Sample.start Tour.twoThenOne) 16%nat = false.
Proof.
  assert (Hall : Forall (fun a => inBrowser a = true) Tour.twoThenOne)
    by (repeat constructor).
  split; [exact Hall|].
  destruct (observers_follow_registry Tour.twoThenOne Hall) as [_ [_ [_ Hobserved]]].
  split; [exact (Hobserved 17%nat) | exact (Hobserved 16%nat)].
Defined.

(** X5 on the sample page: after a position batch that returns. *)
Lemma scroll_cache_is_empty_at_rest_witness :
  alongRun batchReturns Sample.start Faults.scrolled
  /\ scrollDirection (Sample.exec Sample.start Faults.scrolled) = None
  /\ predictedScrollPoint (Sample.exec Sample.start Faults.scrolled) = None.
Proof.
  assert (Hreturn : alongRun batchReturns Sample.start Faults.scrolled)
    by (vm_compute; repeat split).
  split; [exact Hreturn|].
  destruct (scroll_cache_is_empty_at_rest Faults.scrolled Hreturn)
    as [Hdirection [Hpoint _]].
  split; [exact Hdirection | exact Hpoint].
Defined.

(** X19 on the sample page: the rectangle of element 90 moved up by five
    pixels, the scroll test passes, and its callback throws. *)
Lemma thrown_batch_leaves_cache_filled_witness :
  enableScrollPrediction (globalSettings Faults.throwerInPlace) = true
  /\ ~ returns (handlePositionChange Faults.throwerInPlace Faults.scrollOverThrower)
  /\ scrollDirection
       (state (handlePositionChange Faults.throwerInPlace Faults.scrollOverThrower))
     = Some ScrollDown
  /\ scrollDirection
       (Sample.exec
          (state (handlePositionChange Faults.throwerInPlace Faults.scrollOverThrower))
          [MouseMoved (mkMouseEvent 500 500 7)])
     = Some ScrollDown.
Proof.
  split; [reflexivity|].
  assert (Hthrown :
            ~ returns (handlePositionChange Faults.throwerInPlace Faults.scrollOverThrower))
    by (vm_compute; discriminate).
  split; [exact Hthrown|].
  destruct (thrown_batch_leaves_cache_filled Faults.throwerInPlace
              Faults.scrollOverThrower eq_refl Hthrown) as (_ & _ & Hrest & _).
  cbv zeta in Hrest.
  assert (Hdown : scrollDirection
                    (state (handlePositionChange Faults.throwerInPlace
                              Faults.scrollOverThrower))
                  = Some ScrollDown)
    by (vm_compute; reflexivity).
  split; [exact Hdown|].
  destruct (Hrest (MouseMoved (mkMouseEvent 500 500 7))) as [Hsame _];
    [discriminate|].
  etransitivity; [exact Hsame | exact Hdown].
Defined.

(** X7 on the sample page: tabbing onto element 16 with offset 2 removes
    element 17, one tab stop further, and uses the key press up. *)
Lemma tab_press_predicts_once_witness :
  lastKeyDown Scenario.beforeFocus = Some Scenario.tabKey
  /\ Registry.has 17%nat
       (elements
          (state (handleFocusIn Scenario.beforeFocus (Some 16%nat) Scenario.tabStops)))
     = false
  /\ lastKeyDown
       (state (handleFocusIn Scenario.beforeFocus (Some 16%nat) Scenario.tabStops))
     = None.
Proof.
  split; [reflexivity|].
  destruct (tab_press_predicts_once Scenario.beforeFocus Scenario.tabKey 16%nat
              Scenario.tabStops 17%nat eq_refl eq_refl) as [Hgone [_ [Hused _]]].
  split; [|exact Hused].
  etransitivity; [apply Hgone; vm_compute; reflexivity | reflexivity].
Defined.

(** X9 on the sample page: listener 7 comes and goes. *)
Lemma subscribe_then_unsubscribe_witness :
  ~ In 7%nat (eventListeners Scenario.listening T_elementRegistered)
  /\ eventListeners
       (removeEventListener
          (addEventListener Scenario.listening T_elementRegistered 7%nat None)
          T_elementRegistered 7%nat)
       T_elementRegistered
     = [0; 1; 2]%nat.
Proof.
  assert (Hnew : ~ In 7%nat (eventListeners Scenario.listening T_elementRegistered)).
  { intros Hin. cbv in Hin. repeat destruct Hin as [Hin|Hin]; try discriminate Hin.
    exact Hin. }
  split; [exact Hnew|].
  destruct (subscribe_then_unsubscribe Scenario.listening T_elementRegistered 7%nat None
              Hnew) as [Hback _].
  etransitivity; [exact (Hback T_elementRegistered) | reflexivity].
Defined.

(** X10 on the sample page: listener 7 is called after the three earlier
    subscribers. *)
Lemma subscriber_is_called_for_its_type_witness :
  deliveredListeners
    (trace (emit (addEventListener Scenario.listening T_elementRegistered 7%nat None)
              Scenario.registration))
  = [0; 1; 2; 7]%nat.
Proof.
  etransitivity;
    [apply (subscriber_is_called_for_its_type Scenario.listening T_elementRegistered
              7%nat None Scenario.registration); discriminate
    | reflexivity].
Defined.

(** X12 on the sample page: the first position update of element 16. *)
Lemma first_position_update_sets_bounds_witness :
  enableScrollPrediction (globalSettings Sample.start) = true
  /\ option_map (fun d => expandedRect (elementBounds d))
       (Registry.get 16%nat
          (elements
             (state
                (handlePositionEntry Scenario.registered
                   (mkEntry 16%nat true (mkRect 0 0 10 10))))))
     = Some (mkRect 0 0 10 10)
  /\ invocations
       (state
          (handlePositionEntry Scenario.registered
             (mkEntry 16%nat true (mkRect 0 0 10 10))))
     = 0%nat.
Proof.
  split; [reflexivity|].
  destruct (first_position_update_sets_bounds Sample.start (Sample.plain 16%nat)
              Sample.browser (mkRect 0 0 10 10) eq_refl eq_refl)
    as [Hbounds [Hquiet _]].
  split.
  - etransitivity; [exact (f_equal _ Hbounds) | reflexivity].
  - etransitivity; [exact Hquiet | reflexivity].
Defined.

(** X13 on the sample page: element 16 is reported outside the viewport,
    and the pointer moves over its rectangle. *)
Lemma element_out_of_view_is_skipped_witness :
  fires 16%nat
    (state
       (handleMouseMove (state (handlePositionEntry Scenario.registered Tour.hidden))
          (mkMouseEvent 0 0 5)))
  = 0%nat
  /\ Registry.has 16%nat
       (elements
          (state
             (handleMouseMove (state (handlePositionEntry Scenario.registered Tour.hidden))
                (mkMouseEvent 0 0 5))))
     = true.
Proof.
  destruct (element_out_of_view_is_skipped Scenario.registered Tour.hidden
              (freshRecord Sample.start (Sample.plain 16%nat)) (mkMouseEvent 0 0 5)
              eq_refl eq_refl) as [_ [_ [Hfires [Hstays _]]]].
  split.
  - etransitivity; [exact Hfires | reflexivity].
  - unfold Registry.has.
    etransitivity;
      [exact (f_equal (fun r => match r with Some _ => true | None => false end) Hstays)
      | reflexivity].
Defined.

Lemma tabOffsetFive_in_range : givenInRange Tour.tabOffsetFive.
Proof.
  intros k v Hgiven. destruct k; try discriminate Hgiven.
  injection Hgiven as <-. cbn. lia.
Defined.

(** X15 on the sample page: a tab offset of 5, given once and again. *)
Lemma settings_hold_what_was_given_witness :
  tabOffset (globalSettings (alterGlobalSettings Sample.start Tour.tabOffsetFive
                               Sample.noRects))
  = 5
  /\ alterGlobalSettings
       (alterGlobalSettings Sample.start Tour.tabOffsetFive Sample.noRects)
       Tour.tabOffsetFive Sample.noRects
     = alterGlobalSettings Sample.start Tour.tabOffsetFive Sample.noRects.
Proof.
  destruct (settings_hold_what_was_given Sample.start Tour.tabOffsetFive Sample.noRects
              tabOffsetFive_in_range) as [[Hnumeric _] [_ [_ Hagain]]].
  split; [exact (Hnumeric K_tabOffset 5 eq_refl) | exact (Hagain Sample.noRects)].
Defined.

(** X17 on the sample page: registrations on a server. *)
Lemma server_rendering_attaches_nothing_witness :
  Forall (fun a => onServer a = true) Tour.serverSide
  /\ notSetUp (Sample.exec Sample.start Tour.serverSide)
  /\ Registry.keys (elements (Sample.exec Sample.start Tour.serverSide)) = [17; 16]%nat
  /\ Registry.has 18%nat
       (elements
          (Sample.exec Sample.start
             (Tour.serverSide ++ [CallRegister (Sample.plain 18%nat) Tour.server])))
     = true.
Proof.
  assert (Hall : Forall (fun a => onServer a = true) Tour.serverSide)
    by (repeat constructor).
  split; [exact Hall|].
  destruct (server_rendering_attaches_nothing Tour.serverSide Hall)
    as (Hnothing & _ & Hrecords & _).
  split; [exact Hnothing|]. split; [reflexivity|].
  destruct (Hrecords (Sample.plain 18%nat) Tour.server eq_refl) as (_ & Hstored & _).
  unfold Registry.has.
  etransitivity;
    [exact (f_equal (fun r => match r with Some _ => true | None => false end) Hstored)
    | reflexivity].
Defined.

(** X18 on the sample page: element 16 moved up by five pixels; the
    segment from the pointer to the predicted scroll point meets the
    rectangle the record had before. *)
Lemma position_update_tests_previous_rectangle_witness :
  Registry.get 16%nat (elements Scenario.scrolling)
  = Some (withBounds (mkRect 100 0 10 110) (freshRecord Sample.start (Sample.plain 16%nat)))
  /\ fires 16%nat
       (state
          (handlePositionEntry Scenario.scrolling
             (mkEntry 16%nat true (mkRect 95 0 10 105))))
     = 1%nat.
Proof.
  split; [reflexivity|].
  etransitivity;
    [exact (position_update_tests_previous_rectangle Scenario.scrolling
              (mkEntry 16%nat true (mkRect 95 0 10 105))
              (withBounds (mkRect 100 0 10 110)
                 (freshRecord Sample.start (Sample.plain 16%nat)))
              16%nat eq_refl eq_refl)
    | reflexivity].
Defined.

End MoreOnTheSamplePage.
